(** * Signal: feedback enrichment and retrieval-augmented chat

    A shallow embedding of the enrichment pipeline
    ([app/services/cloudflare.py], [app/api/feedback.py]) and of the chat
    flow ([app/api/chat.py]), with the properties of the design document
    stated and proved over it.

    Conventions.
    - A Python call that may raise is a value of [Py.result]: [Ok v] when it
      returns [v], [Raise e] when it raises.
    - Awaited calls to managed services (model inference, vector index,
      relational store, queue, search index) are answered by an environment
      record holding, for each call site, what the service answers.
    - Python [float] is binary64, modelled by the primitive floats.
    - Python [str] is modelled by [string]; the library functions on text
      ([str.strip], [str.lower], [int], [json.loads]) are an interface,
      [Py.Runtime], with a reference implementation on ASCII text. *)

From Stdlib Require Import ZArith String Ascii List Floats Lia.
From stdpp Require Import gmap strings list pretty.
Set Warnings "-inexact-float,-register-all,-clear-no-such-hyp".

Open Scope string_scope.

(* ===================================================================== *)
(** * Python values, exceptions and library functions                     *)
(* ===================================================================== *)

Module Py.

(** The outcome of evaluating an expression: a value or a raised exception
    (named by its class). *)
Inductive result (A : Type) : Type :=
| Ok (a : A)
| Raise (e : string).
Arguments Ok {A} a.
Arguments Raise {A} e.

#[export] Instance result_ret : MRet result := @Ok.
#[export] Instance result_bind : MBind result :=
  fun A B f m => match m with Ok a => f a | Raise e => Raise e end.
#[export] Instance result_fmap : FMap result :=
  fun A B f m => match m with Ok a => Ok (f a) | Raise e => Raise e end.

Definition is_ok {A} (m : result A) : bool :=
  match m with Ok _ => true | Raise _ => false end.

(** [try: body except: handler] with a bare [except]. *)
Definition try_except {A} (body : result A) (handler : result A) : result A :=
  match body with Ok a => Ok a | Raise _ => handler end.

(** [next((f(x) for x in l if p(x)), default)] *)
Definition next_or {A B} (p : A -> bool) (f : A -> B) (default : B) (l : list A) : B :=
  match List.find p l with Some x => f x | None => default end.

(** [l[-n:]] for [n > 0]: the last [n] elements, the whole list when it is
    shorter. *)
Definition last_n {A} (n : nat) (l : list A) : list A :=
  drop (length l - n) l.

(** [s[:n]] on text. *)
Definition str_take (n : nat) (s : string) : string :=
  String.substring 0 n s.

(** JSON documents as [json.loads] returns them: [None], [bool], [int],
    [float] (kept as its literal), [str], [list], [dict]. *)
Inductive json : Type :=
| JNull
| JBool (b : bool)
| JInt (n : Z)
| JFloat (literal : string)
| JStr (s : string)
| JArr (items : list json)
| JObj (members : list (string * json)).

(** [isinstance(v, list)] *)
Definition is_list (v : json) : bool :=
  match v with JArr _ => true | _ => false end.

(** The library functions the services call on text: [str.strip],
    [str.lower], [int] and [json.loads]; the last two raise on text they do
    not accept ([ValueError], [JSONDecodeError]). *)
Class Runtime : Type := {
  str_strip : string -> string;
  str_lower : string -> string;
  int_of_str : string -> result Z;
  json_loads : string -> result json
}.

Definition or_raise {A} (e : string) (o : option A) : result A :=
  match o with Some a => Ok a | None => Raise e end.

(** ** Reference implementation on ASCII text *)

Definition code (c : ascii) : N := N_of_ascii c.
Definition chr (n : N) : ascii := ascii_of_N n.

Definition in_range (lo hi : N) (c : ascii) : bool :=
  (lo <=? code c)%N && (code c <=? hi)%N.

(** [str.isspace] on one ASCII character: TAB..CR, FS..US and space. *)
Definition isspace (c : ascii) : bool := in_range 9 13 c || in_range 28 32 c.

Fixpoint lstrip (l : list ascii) : list ascii :=
  match l with
  | c :: r => if isspace c then lstrip r else l
  | [] => []
  end.

Definition ascii_strip (s : string) : string :=
  string_of_list_ascii (rev (lstrip (rev (lstrip (list_ascii_of_string s))))).

Definition lower_char (c : ascii) : ascii :=
  if in_range 65 90 c then chr (code c + 32) else c.

Definition ascii_lower (s : string) : string :=
  string_of_list_ascii (map lower_char (list_ascii_of_string s)).

Definition digit (c : ascii) : option Z :=
  if in_range 48 57 c then Some (Z.of_N (code c) - 48)%Z else None.

(** Decimal digits, single underscores allowed between two digits. *)
Fixpoint digits_value (acc : Z) (after_digit : bool) (l : list ascii) : option Z :=
  match l with
  | [] => if after_digit then Some acc else None
  | c :: r =>
      match digit c with
      | Some d => digits_value (10 * acc + d)%Z true r
      | None =>
          if Ascii.eqb c "_" && after_digit then digits_value acc false r else None
      end
  end.

(** [int(s)]: surrounding whitespace, an optional sign, decimal digits. *)
Definition ascii_int (s : string) : option Z :=
  match list_ascii_of_string (ascii_strip s) with
  | c :: r =>
      if Ascii.eqb c "-" then Z.opp <$> digits_value 0 false r
      else if Ascii.eqb c "+" then digits_value 0 false r
      else digits_value 0 false (c :: r)
  | [] => None
  end.

(** *** A JSON reader following [json.decoder] / [json.scanner] *)

Definition quote : ascii := "034"%char.
Definition backslash : ascii := "092"%char.

Definition is_json_ws (c : ascii) : bool :=
  Ascii.eqb c " " || Ascii.eqb c "009" || Ascii.eqb c "010" || Ascii.eqb c "013".

Fixpoint skip_ws (l : list ascii) : list ascii :=
  match l with
  | c :: r => if is_json_ws c then skip_ws r else l
  | [] => []
  end.

Fixpoint strip_prefix (p l : list ascii) : option (list ascii) :=
  match p, l with
  | [], _ => Some l
  | a :: p', b :: l' => if Ascii.eqb a b then strip_prefix p' l' else None
  | _ :: _, [] => None
  end.

Definition keyword (k : string) (l : list ascii) : option (list ascii) :=
  strip_prefix (list_ascii_of_string k) l.

Fixpoint span_digits (l : list ascii) : list ascii * list ascii :=
  match l with
  | c :: r =>
      if in_range 48 57 c then let '(ds, r') := span_digits r in (c :: ds, r')
      else ([], l)
  | [] => ([], [])
  end.

Definition hex_digit (c : ascii) : option N :=
  if in_range 48 57 c then Some (code c - 48)%N
  else if in_range 97 102 c then Some (code c - 87)%N
  else if in_range 65 70 c then Some (code c - 55)%N
  else None.

Definition hex4 (a b c d : ascii) : option N :=
  x ← hex_digit a; y ← hex_digit b; z ← hex_digit c; w ← hex_digit d;
  Some (((x * 16 + y) * 16 + z) * 16 + w)%N.

(** UTF-8 bytes of a code point. *)
Definition utf8 (n : N) : list ascii :=
  (if n <? 128 then [chr n]
   else if n <? 2048 then [chr (192 + n / 64); chr (128 + n mod 64)]
   else if n <? 65536 then
     [chr (224 + n / 4096); chr (128 + (n / 64) mod 64); chr (128 + n mod 64)]
   else
     [chr (240 + n / 262144); chr (128 + (n / 4096) mod 64);
      chr (128 + (n / 64) mod 64); chr (128 + n mod 64)])%N.

Definition simple_escape (c : ascii) : option ascii :=
  if Ascii.eqb c quote then Some quote
  else if Ascii.eqb c backslash then Some backslash
  else if Ascii.eqb c "/" then Some "/"%char
  else if Ascii.eqb c "b" then Some "008"%char
  else if Ascii.eqb c "f" then Some "012"%char
  else if Ascii.eqb c "n" then Some "010"%char
  else if Ascii.eqb c "r" then Some "013"%char
  else if Ascii.eqb c "t" then Some "009"%char
  else None.

(** The low half of a surrogate pair, when the text continues with one. *)
Definition low_surrogate (l : list ascii) : option (N * list ascii) :=
  match l with
  | b :: u :: a1 :: a2 :: a3 :: a4 :: r =>
      if Ascii.eqb b backslash && Ascii.eqb u "u" then
        match hex4 a1 a2 a3 a4 with
        | Some lo =>
            if (56320 <=? lo)%N && (lo <=? 57343)%N then Some (lo, r) else None
        | None => None
        end
      else None
  | _ => None
  end.

(** The code point of a [\u] escape whose four digits read [hi], and the
    text after it: a high surrogate followed by a low one is one code point. *)
Definition code_point (hi : N) (l : list ascii) : N * list ascii :=
  if (55296 <=? hi)%N && (hi <=? 56319)%N then
    match low_surrogate l with
    | Some (lo, r) => (65536 + (hi - 55296) * 1024 + (lo - 56320), r)%N
    | None => (hi, l)
    end
  else (hi, l).

(** [py_scanstring] in strict mode, entered after the opening quote. *)
Fixpoint scanstring (fuel : nat) (l : list ascii) : option (list ascii * list ascii) :=
  match fuel with
  | O => None
  | S fuel' =>
      match l with
      | [] => None
      | c :: r =>
          if Ascii.eqb c quote then Some ([], r)
          else if Ascii.eqb c backslash then
            match r with
            | e :: r1 =>
                if Ascii.eqb e "u" then
                  match r1 with
                  | a1 :: a2 :: a3 :: a4 :: r2 =>
                      hi ← hex4 a1 a2 a3 a4;
                      '(s, rest) ← scanstring fuel' (code_point hi r2).2;
                      Some ((utf8 (code_point hi r2).1 ++ s)%list, rest)
                  | _ => None
                  end
                else
                  x ← simple_escape e;
                  '(s, rest) ← scanstring fuel' r1;
                  Some (x :: s, rest)
            | [] => None
            end
          else if (code c <? 32)%N then None
          else '(s, rest) ← scanstring fuel' r; Some (c :: s, rest)
      end
  end.

Definition digits_to_Z (ds : list ascii) : Z :=
  default 0%Z (digits_value 0 false ds).

(** [NUMBER_RE]: an optional minus sign, an integer part without leading
    zeros, an optional fraction, an optional exponent; a fraction or an
    exponent without digits is not part of the number. *)
Definition scan_number (l : list ascii) : option (json * list ascii) :=
  let '(neg, l1) :=
    match l with
    | c :: r => if Ascii.eqb c "-" then (true, r) else (false, l)
    | [] => (false, l)
    end in
  match l1 with
  | [] => None
  | c :: r =>
      if negb (in_range 48 57 c) then None
      else
        let '(int_part, r1) :=
          if Ascii.eqb c "0" then ([c], r) else span_digits l1 in
        let '(frac, r2) :=
          match r1 with
          | d :: r' =>
              if Ascii.eqb d "." then
                match span_digits r' with
                | ([], _) => ([], r1)
                | (fs, r'') => (d :: fs, r'')
                end
              else ([], r1)
          | [] => ([], r1)
          end in
        let '(exp, r3) :=
          match r2 with
          | e :: r' =>
              if Ascii.eqb e "e" || Ascii.eqb e "E" then
                let '(sign, r'') :=
                  match r' with
                  | s :: t =>
                      if Ascii.eqb s "+" || Ascii.eqb s "-" then ([s], t) else ([], r')
                  | [] => ([], r')
                  end in
                match span_digits r'' with
                | ([], _) => ([], r2)
                | (es, r''') => ((e :: sign ++ es)%list, r''')
                end
              else ([], r2)
          | [] => ([], r2)
          end in
        let sign := if neg : bool then ["-"%char] else [] in
        match frac, exp with
        | [], [] =>
            let n := digits_to_Z int_part in
            Some (JInt (if neg then - n else n)%Z, r3)
        | _, _ => Some (JFloat (string_of_list_ascii (sign ++ int_part ++ frac ++ exp)%list), r3)
        end
  end.

Definition scan_constant (l : list ascii) : option (json * list ascii) :=
  match keyword "NaN" l with
  | Some r => Some (JFloat "NaN", r)
  | None =>
      match keyword "Infinity" l with
      | Some r => Some (JFloat "Infinity", r)
      | None =>
          match keyword "-Infinity" l with
          | Some r => Some (JFloat "-Infinity", r)
          | None => None
          end
      end
  end.

(** [scan_once] with [JSONArray] and [JSONObject]. *)
Fixpoint scan_once (fuel : nat) (l : list ascii) : option (json * list ascii) :=
  match fuel with
  | O => None
  | S fuel' =>
      match l with
      | [] => None
      | c :: r =>
          if Ascii.eqb c quote then
            '(s, r') ← scanstring (length r) r; Some (JStr (string_of_list_ascii s), r')
          else if Ascii.eqb c "{" then
            match skip_ws r with
            | d :: r' =>
                if Ascii.eqb d "}" then Some (JObj [], r')
                else '(kvs, r'') ← scan_members fuel' (d :: r'); Some (JObj kvs, r'')
            | [] => None
            end
          else if Ascii.eqb c "[" then
            match skip_ws r with
            | d :: r' =>
                if Ascii.eqb d "]" then Some (JArr [], r')
                else '(vs, r'') ← scan_items fuel' (d :: r'); Some (JArr vs, r'')
            | [] => None
            end
          else
            match keyword "null" l, keyword "true" l, keyword "false" l with
            | Some r', _, _ => Some (JNull, r')
            | _, Some r', _ => Some (JBool true, r')
            | _, _, Some r' => Some (JBool false, r')
            | _, _, _ =>
                match scan_number l with
                | Some x => Some x
                | None => scan_constant l
                end
            end
      end
  end
with scan_items (fuel : nat) (l : list ascii) : option (list json * list ascii) :=
  match fuel with
  | O => None
  | S fuel' =>
      '(v, r) ← scan_once fuel' l;
      match skip_ws r with
      | d :: r' =>
          if Ascii.eqb d "]" then Some ([v], r')
          else if Ascii.eqb d "," then
            '(vs, r'') ← scan_items fuel' (skip_ws r'); Some (v :: vs, r'')
          else None
      | [] => None
      end
  end
with scan_members (fuel : nat) (l : list ascii)
  : option (list (string * json) * list ascii) :=
  match fuel with
  | O => None
  | S fuel' =>
      match l with
      | q :: r0 =>
          if negb (Ascii.eqb q quote) then None
          else
            '(k, r1) ← scanstring (length r0) r0;
            match skip_ws r1 with
            | colon :: r2 =>
                if negb (Ascii.eqb colon ":") then None
                else
                  '(v, r3) ← scan_once fuel' (skip_ws r2);
                  match skip_ws r3 with
                  | d :: r4 =>
                      if Ascii.eqb d "}" then Some ([(string_of_list_ascii k, v)], r4)
                      else if Ascii.eqb d "," then
                        '(kvs, r5) ← scan_members fuel' (skip_ws r4);
                        Some ((string_of_list_ascii k, v) :: kvs, r5)
                      else None
                  | [] => None
                  end
            | [] => None
            end
      | [] => None
      end
  end.

(** [json.loads(s)]: one document, whitespace around it, nothing after. *)
Definition ascii_json_loads (s : string) : option json :=
  let l := list_ascii_of_string s in
  '(v, r) ← scan_once (2 * length l + 2) (skip_ws l);
  match skip_ws r with
  | [] => Some v
  | _ :: _ => None
  end.

Definition ascii_runtime : Runtime := {|
  str_strip := ascii_strip;
  str_lower := ascii_lower;
  int_of_str := fun s => or_raise "ValueError" (ascii_int s);
  json_loads := fun s => or_raise "JSONDecodeError" (ascii_json_loads s)
|}.

End Py.

(* ===================================================================== *)
(** * app/services/cloudflare.py                                          *)
(* ===================================================================== *)

Module WorkersAI.
Import Py.

(** [settings.EMBEDDING_MODEL], [settings.SENTIMENT_MODEL],
    [settings.TEXT_GENERATION_MODEL]. *)
Inductive model : Type := EMBEDDING_MODEL | SENTIMENT_MODEL | TEXT_GENERATION_MODEL.

(** A chat message, [{"role": ..., "content": ...}]. *)
Record message : Type := Message { role : string; content : string }.

(** The JSON payload posted to a model: [{"text": ...}] or
    [{"messages": ..., "max_tokens": ..., "temperature": 0.7}]. *)
Inductive request : Type :=
| TextInput (text : string)
| ChatInput (messages : list message) (max_tokens : nat).

(** One entry of a classifier's answer, [{"label": ..., "score": ...}]. *)
Record labelled_score : Type := LabelledScore { label : string; score : float }.

(** The ["result"] member of an inference answer. *)
Inductive payload : Type :=
| EmbeddingData (data : list (list float))
| Classification (scores : list (list labelled_score))
| Generation (response : string).

(** The body [_call_model] returns, [{"success": ..., "result": ...}];
    [result = None] when the member is absent or null. *)
Record reply : Type := Reply { success : bool; result : option payload }.

(** [_call_model] after its retries: the body, or the exception of the last
    attempt. *)
Definition model_api : Type := model -> request -> Py.result reply.

(** [result.get("success") and result.get("result")]: the payload when the
    conjunction is truthy (an empty list is falsy). *)
Definition truthy_result (r : reply) : option payload :=
  if success r then
    match result r with
    | Some (Classification []) => None
    | Some p => Some p
    | None => None
    end
  else None.

Record sentiment_result : Type := SentimentResult {
  sentiment_score : float;
  sentiment_label : string;
  raw_scores : list labelled_score
}.

(** The threshold cascade of [analyze_sentiment]. *)
Definition label_of_score (score : float) : string :=
  if (0.3 <? score)%float then "positive"
  else if (score <? -0.5)%float then "frustrated"
  else if (score <? -0.3)%float then "concerned"
  else if (score <? -0.1)%float then "annoyed"
  else if (score <? 0.1)%float then "neutral"
  else "positive".

Definition classify_system_prompt : string :=
  "You are a feedback classifier. Analyze and return a JSON array of themes.
        Possible: performance, reliability, documentation, pricing, support, feature-request, bug, security, usability, integration.
        Return only the JSON array.".

Definition urgency_system_prompt : string :=
  "Rate urgency 1-10 based on impact severity, business impact, customer tier/ARR. Return only a number.".

Definition newline : string := String "010" "".

(** [{"enterprise": 7, "pro": 5, "free": 3}] *)
Definition tier_defaults : gmap string Z :=
  {[ "enterprise" := 7%Z; "pro" := 5%Z; "free" := 3%Z ]}.

(** The prompts of the two scoring calls. *)
Definition classify_prompt (text : string) : string := "Classify: " ++ text.

Definition urgency_prompt (text customer_tier : string) (arr : Z) : string :=
  "Content: " ++ text ++ newline ++ "Tier: " ++ customer_tier ++ newline
    ++ "ARR: $" ++ pretty arr.

Section Services.
Context {rt : Runtime}.
Variable _call_model : model_api.

Definition generate_embedding (text : string) : Py.result (list float) :=
  r ← _call_model EMBEDDING_MODEL (TextInput text);
  match truthy_result r with
  | Some (EmbeddingData (v :: _)) => Ok v
  | Some (EmbeddingData []) => Raise "IndexError"
  | Some (Classification _) => Raise "TypeError"
  | Some (Generation _) => Raise "KeyError"
  | None => Raise "Exception: Failed to generate embedding"
  end.

Definition analyze_sentiment (text : string) : Py.result sentiment_result :=
  r ← _call_model SENTIMENT_MODEL (TextInput text);
  match truthy_result r with
  | Some (Classification (scores :: _)) =>
      let positive := next_or (fun s => String.eqb (label s) "POSITIVE") score 0%float scores in
      let negative := next_or (fun s => String.eqb (label s) "NEGATIVE") score 0%float scores in
      let score := (positive - negative)%float in
      Ok (SentimentResult score (label_of_score score) scores)
  | Some _ => Raise "KeyError"
  | None => Raise "Exception: Failed to analyze sentiment"
  end.

Definition generate_text (prompt : string) (system_prompt : option string)
    (max_tokens : nat) : Py.result string :=
  let messages :=
    match system_prompt with
    | Some sp => if String.eqb sp "" then [] else [Message "system" sp]
    | None => []
    end in
  let messages := (messages ++ [Message "user" prompt])%list in
  r ← _call_model TEXT_GENERATION_MODEL (ChatInput messages max_tokens);
  match truthy_result r with
  | Some (Generation response) => Ok response
  | Some (EmbeddingData _) => Raise "KeyError"
  | Some (Classification _) => Raise "TypeError"
  | None => Raise "Exception: Failed to generate text"
  end.

(** The [try] block returns the parsed value when it is a list; when it is
    not, and when the bare [except] swallowed an exception, control reaches
    [return ["uncategorized"]]. *)
Definition classify_themes (text : string) : Py.result (list json) :=
  response ← generate_text (classify_prompt text) (Some classify_system_prompt) 100;
  try_except
    (themes ← json_loads (str_strip response);
     match themes with
     | JArr items => Ok items
     | _ => Ok [JStr "uncategorized"]
     end)
    (Ok [JStr "uncategorized"]).

Definition calculate_urgency (text customer_tier : string) (arr : Z) : Py.result Z :=
  response ← generate_text (urgency_prompt text customer_tier arr)
                (Some urgency_system_prompt) 10;
  try_except
    (n ← int_of_str (str_strip response); Ok (Z.max 1 (Z.min 10 n)))
    (Ok (default 5%Z (tier_defaults !! str_lower customer_tier))).

End Services.
End WorkersAI.

(* ===================================================================== *)
(** * app/models/schemas.py and the managed stores                        *)
(* ===================================================================== *)

Module Schemas.

Inductive FeedbackSource : Type := GITHUB | DISCORD | TWITTER | SUPPORT | FORUM | EMAIL.

Definition source_value (s : FeedbackSource) : string :=
  match s with
  | GITHUB => "github" | DISCORD => "discord" | TWITTER => "twitter"
  | SUPPORT => "support" | FORUM => "forum" | EMAIL => "email"
  end.

Inductive CustomerTier : Type := ENTERPRISE | PRO | FREE | UNKNOWN.

Definition tier_value (t : CustomerTier) : string :=
  match t with
  | ENTERPRISE => "enterprise" | PRO => "pro" | FREE => "free" | UNKNOWN => "unknown"
  end.

Record FeedbackCreate : Type := {
  content : string;
  source : FeedbackSource;
  product : option string;
  customer_id : option string;
  customer_name : option string;
  customer_tier : option CustomerTier;
  customer_arr : option Z;
  metadata : option Py.json
}.

Record ChatSource : Type := {
  type : string;
  id : string;
  title : string;
  relevance : float
}.

Record ChatRequest : Type := {
  message : string;
  conversation_id : option string
}.

Record ChatResponse : Type := {
  response_message : string;
  sources : list ChatSource;
  response_conversation_id : string
}.

End Schemas.

Module Store.

(** A row of the [feedback] table, as [create_feedback] writes it. *)
Record feedback_row : Type := {
  row_id : string;
  row_content : string;
  row_source : string;
  row_sentiment : float;
  row_sentiment_label : string;
  row_urgency : Z;
  row_product : option string;
  row_themes : list Py.json;
  row_customer_id : option string;
  row_customer_name : option string;
  row_customer_tier : option string;
  row_customer_arr : option Z;
  row_status : string;
  row_metadata : Py.json;
  row_created_at : string;
  row_updated_at : string
}.

(** The metadata stored next to a vector. *)
Record vector_metadata : Type := {
  vm_source : string;
  vm_product : option string;
  vm_sentiment : float;
  vm_urgency : Z;
  vm_customer_tier : option string
}.

(** The message [create_feedback] puts on the work queue. *)
Record queue_message : Type := {
  qm_type : string;
  qm_feedback_id : string;
  qm_content : string;
  qm_source : string;
  qm_product : option string;
  qm_customer_id : option string;
  qm_customer_name : option string;
  qm_customer_tier : option string;
  qm_customer_arr : option Z;
  qm_metadata : option Py.json
}.

(** What the managed services hold: the [feedback] table by primary key,
    the vector index by id, the queue in arrival order. *)
Record world : Type := World {
  feedback_table : gmap string feedback_row;
  vector_index : gmap string (list float * vector_metadata);
  work_queue : list queue_message
}.

(** A handler's computation: it returns or raises, and leaves a world
    behind either way. *)
Definition handler (A : Type) : Type := world -> Py.result A * world.

Definition ret {A} (a : A) : handler A := fun w => (Py.Ok a, w).

Definition bind {A B} (m : handler A) (k : A -> handler B) : handler B :=
  fun w => match m w with
           | (Py.Ok a, w') => k a w'
           | (Py.Raise e, w') => (Py.Raise e, w')
           end.

(** A computation without effect on the stores ([await] of a model call). *)
Definition lift {A} (r : Py.result A) : handler A := fun w => (r, w).

(** A service call: when it answers, [effect] is what it did to the stores;
    when it raises, the stores are as before. *)
Definition call {A} (r : Py.result A) (effect : world -> world) : handler A :=
  fun w => match r with
           | Py.Ok a => (Py.Ok a, effect w)
           | Py.Raise e => (Py.Raise e, w)
           end.

Definition enqueue (m : queue_message) (w : world) : world :=
  World (feedback_table w) (vector_index w) (work_queue w ++ [m]).

Definition insert_row (r : feedback_row) (w : world) : world :=
  World (<[row_id r := r]> (feedback_table w)) (vector_index w) (work_queue w).

Definition insert_vector (i : string) (v : list float) (m : vector_metadata)
    (w : world) : world :=
  World (feedback_table w) (<[i := (v, m)]> (vector_index w)) (work_queue w).

End Store.

Declare Scope handler_scope.
Delimit Scope handler_scope with handler.
Notation "x <- m ;; k" := (Store.bind m (fun x => k))
  (at level 100, m at next level, right associativity) : handler_scope.

(* ===================================================================== *)
(** * app/api/feedback.py                                                 *)
(* ===================================================================== *)

Module FeedbackApi.
Import Py Schemas Store.

(** What the outside answers during one [create_feedback]: the identifier
    [uuid.uuid4()] draws, the two readings of the clock, and the answer of
    every awaited service. *)
Record env : Type := {
  uuid4 : string;
  utcnow_created : string;
  utcnow_updated : string;
  call_model : WorkersAI.model_api;
  queue_send_message : queue_message -> Py.result json;
  d1_insert : feedback_row -> Py.result json;
  vectorize_insert : string -> list float -> vector_metadata -> Py.result json
}.

Record ApiResponse : Type := { api_success : bool; api_data : feedback_row }.

(** The environment with another queue, or another model endpoint. *)
Definition with_queue (send : queue_message -> Py.result json) (e : env) : env := {|
  uuid4 := uuid4 e; utcnow_created := utcnow_created e;
  utcnow_updated := utcnow_updated e; call_model := call_model e;
  queue_send_message := send;
  d1_insert := d1_insert e; vectorize_insert := vectorize_insert e
|}.

Definition with_model (ai : WorkersAI.model_api) (e : env) : env := {|
  uuid4 := uuid4 e; utcnow_created := utcnow_created e;
  utcnow_updated := utcnow_updated e; call_model := ai;
  queue_send_message := queue_send_message e;
  d1_insert := d1_insert e; vectorize_insert := vectorize_insert e
|}.

(** The dict passed to [queue.send_message]. *)
Definition work_message (feedback_id : string) (feedback : FeedbackCreate)
    : queue_message := {|
  qm_type := "process_feedback"; qm_feedback_id := feedback_id;
  qm_content := content feedback; qm_source := source_value (source feedback);
  qm_product := product feedback; qm_customer_id := customer_id feedback;
  qm_customer_name := customer_name feedback;
  qm_customer_tier := tier_value <$> customer_tier feedback;
  qm_customer_arr := customer_arr feedback; qm_metadata := metadata feedback
|}.

Section Handlers.
Context {rt : Runtime}.
Variable e : env.

Definition create_feedback (feedback : FeedbackCreate) : handler ApiResponse :=
  (let feedback_id := uuid4 e in
   let tier := tier_value <$> customer_tier feedback in
   let msg := work_message feedback_id feedback in
   _ <- call (queue_send_message e msg) (enqueue msg) ;;
   sentiment_result <- lift (WorkersAI.analyze_sentiment (call_model e) (content feedback)) ;;
   themes <- lift (WorkersAI.classify_themes (call_model e) (content feedback)) ;;
   urgency <- lift (WorkersAI.calculate_urgency (call_model e) (content feedback)
                      (default "free" tier)
                      (default 0%Z (customer_arr feedback))) ;;
   embedding <- lift (WorkersAI.generate_embedding (call_model e) (content feedback)) ;;
   let data := {|
     row_id := feedback_id; row_content := content feedback;
     row_source := source_value (source feedback);
     row_sentiment := WorkersAI.sentiment_score sentiment_result;
     row_sentiment_label := WorkersAI.sentiment_label sentiment_result;
     row_urgency := urgency; row_product := product feedback; row_themes := themes;
     row_customer_id := customer_id feedback; row_customer_name := customer_name feedback;
     row_customer_tier := tier; row_customer_arr := customer_arr feedback;
     row_status := "new";
     row_metadata := default (JObj []) (metadata feedback);
     row_created_at := utcnow_created e; row_updated_at := utcnow_updated e |} in
   let meta := {|
     vm_source := source_value (source feedback); vm_product := product feedback;
     vm_sentiment := WorkersAI.sentiment_score sentiment_result;
     vm_urgency := urgency; vm_customer_tier := tier |} in
   _ <- call (d1_insert e data) (insert_row data) ;;
   _ <- call (vectorize_insert e feedback_id embedding meta) (insert_vector feedback_id embedding meta) ;;
   ret {| api_success := true; api_data := data |})%handler.

(** The four awaited model calls between the queue send and the first
    write, as one computation: it raises as soon as one of them does. *)
Definition enrichment (feedback : FeedbackCreate)
    : Py.result (WorkersAI.sentiment_result * list json * Z * list float) :=
  s ← WorkersAI.analyze_sentiment (call_model e) (content feedback);
  t ← WorkersAI.classify_themes (call_model e) (content feedback);
  u ← WorkersAI.calculate_urgency (call_model e) (content feedback)
        (default "free" (tier_value <$> customer_tier feedback))
        (default 0%Z (customer_arr feedback));
  v ← WorkersAI.generate_embedding (call_model e) (content feedback);
  Ok (s, t, u, v).

End Handlers.
End FeedbackApi.

(* ===================================================================== *)
(** * app/api/chat.py                                                     *)
(* ===================================================================== *)

Module ChatApi.
Import Py Schemas.

(** A document of the managed search index; a member is [None] when the
    document does not carry the key. *)
Record search_doc : Type := {
  doc_id : option string;
  doc_content : option string;
  doc_type : option string;
  doc_metadata : option json;
  doc_score : option float
}.

(** A match of the vector index. *)
Record vector_match : Type := { match_id : string; match_score : option float }.

(** A row of the [themes] table. *)
Record theme_row : Type := {
  theme_id : string;
  theme : string;
  mentions : Z;
  theme_sentiment : option string;
  theme_products : json;
  summary : option string
}.

(** The row of the seven-day aggregate; [AVG] over no rows is [NULL]. *)
Record stats_row : Type := {
  total : Z;
  avg_sentiment : option float;
  critical : Z
}.

(** An entry of [context]: the dict built at each of the four sites, kept
    as its ["type"] and the record its content and metadata are read from.
    [build_system_prompt], which renders the entries into the system prompt,
    is a parameter of the handlers. *)
Inductive context_item : Type :=
| ai_search_item (doc : search_doc)
| feedback_item (item : Store.feedback_row)
| theme_item (t : theme_row)
| statistics_item (s : stats_row).

(** What the outside answers during one chat request. *)
Record env : Type := {
  uuid4 : string;
  ai_search_search : string -> nat -> Py.result (list search_doc);
  call_model : WorkersAI.model_api;
  vectorize_query : list float -> nat -> Py.result (list vector_match);
  d1_query_feedback : list string -> Py.result (list Store.feedback_row);
  d1_query_themes : string -> Py.result (list theme_row);
  d1_query_stats : Py.result (list stats_row)
}.

(** The module-level dict [conversations]. *)
Abbreviation conversations := (gmap string (list WorkersAI.message)).

(** [text[:50] + "..."] *)
Definition short_title (text : string) : string := str_take 50 text ++ "...".

Definition ai_search_source (doc : search_doc) : ChatSource := {|
  type := default "feedback" (doc_type doc);
  id := default "" (doc_id doc);
  title := short_title (default "" (doc_content doc));
  relevance := default 0.0%float (doc_score doc)
|}.

Definition feedback_source (vector_results : list vector_match)
    (item : Store.feedback_row) : ChatSource := {|
  type := "feedback";
  id := Store.row_id item;
  title := short_title (Store.row_content item);
  relevance :=
    next_or (fun r => String.eqb (match_id r) (Store.row_id item))
            (fun r => default 0.8%float (match_score r)) 0.8%float vector_results
|}.

Definition theme_source (t : theme_row) : ChatSource := {|
  type := "theme"; id := theme_id t; title := theme t; relevance := 0.9%float
|}.

(** [[s for s in sources if not (s.id in seen or seen.add(s.id))]] *)
Fixpoint unique_by_id (seen : gset string) (sources : list ChatSource)
    : list ChatSource :=
  match sources with
  | [] => []
  | s :: rest =>
      if decide (id s ∈ seen) then unique_by_id seen rest
      else s :: unique_by_id ({[ id s ]} ∪ seen) rest
  end.

(** [unique_sources[:10]] after the deduplication. *)
Definition unique_sources (sources : list ChatSource) : list ChatSource :=
  take 10 (unique_by_id ∅ sources).

(** [if conversation_id not in conversations: conversations[conversation_id] = []] *)
Definition ensure_session (conversation_id : string) (convs : conversations)
    : conversations :=
  match convs !! conversation_id with
  | Some _ => convs
  | None => <[conversation_id := []]> convs
  end.

Section Handlers.
Variable build_system_prompt : list context_item -> string.
Variable e : env.

(** The four [try] blocks of [retrieve_context]. Each takes the two lists
    as they stand and returns them as it leaves them. In every block the
    awaited calls come before the loop that appends, and the loop reads
    records that carry the types of their annotations and of the table
    columns, on which it does not raise: a block whose lookup raises is left
    by the bare [except] with both lists as it found them. *)
Definition gather_ai_search (query : string)
    (acc : list context_item * list ChatSource) : list context_item * list ChatSource :=
  match ai_search_search e query 5 with
  | Ok ai_results =>
      (acc.1 ++ (ai_search_item <$> ai_results), acc.2 ++ (ai_search_source <$> ai_results))%list
  | Raise _ => acc
  end.

(** The awaited calls of the second block, up to the loop: the embedding of
    the question, the vector query and, when it has matches, the rows of
    the matched ids. *)
Definition vector_lookup (query : string)
    : Py.result (list vector_match * list Store.feedback_row) :=
  embedding ← WorkersAI.generate_embedding (call_model e) query;
  vector_results ← vectorize_query e embedding 5;
  match vector_results with
  | [] => Ok ([], [])
  | _ :: _ =>
      feedback_items ← d1_query_feedback e ((match_id <$> vector_results));
      Ok (vector_results, feedback_items)
  end.

Definition gather_vector (query : string)
    (acc : list context_item * list ChatSource) : list context_item * list ChatSource :=
  match vector_lookup query with
  | Ok (vector_results, feedback_items) =>
      (acc.1 ++ (feedback_item <$> feedback_items),
       acc.2 ++ (feedback_source vector_results <$> feedback_items))%list
  | Raise _ => acc
  end.

Definition gather_themes (query : string)
    (acc : list context_item * list ChatSource) : list context_item * list ChatSource :=
  match d1_query_themes e ("%" ++ query ++ "%") with
  | Ok themes => (acc.1 ++ (theme_item <$> themes), acc.2 ++ (theme_source <$> themes))%list
  | Raise _ => acc
  end.

(** Formatting [avg_sentiment] with [:.2f] raises on [None], before the
    entry is appended. *)
Definition gather_statistics
    (acc : list context_item * list ChatSource) : list context_item * list ChatSource :=
  match d1_query_stats e with
  | Ok (s :: _) =>
      match avg_sentiment s with
      | Some _ => ((acc.1 ++ [statistics_item s])%list, acc.2)
      | None => acc
      end
  | Ok [] => acc
  | Raise _ => acc
  end.

Definition retrieve_context (query : string) : list context_item * list ChatSource :=
  let acc := gather_ai_search query ([], []) in
  let acc := gather_vector query acc in
  let acc := gather_themes query acc in
  let acc := gather_statistics acc in
  (acc.1, unique_sources acc.2).

Definition history_line (m : WorkersAI.message) : string :=
  (if String.eqb (WorkersAI.role m) "user" then "User" else "Assistant")
    ++ ": " ++ WorkersAI.content m.

(** [conversations[conversation_id][-10:]] *)
Definition replayed_history (history : list WorkersAI.message) : list WorkersAI.message :=
  last_n 10 history.

Definition full_prompt (history : list WorkersAI.message) (message : string) : string :=
  match history with
  | [] => message
  | _ :: _ =>
      "Previous:" ++ WorkersAI.newline
        ++ String.concat WorkersAI.newline (history_line <$> history)
        ++ WorkersAI.newline ++ WorkersAI.newline ++ "User: " ++ message
  end.

(** The two [append]s and the truncation that follow a generation. *)
Definition record_turns (message response : string)
    (history : list WorkersAI.message) : list WorkersAI.message :=
  let history :=
    (history ++ [WorkersAI.Message "user" message;
                 WorkersAI.Message "assistant" response])%list in
  if (50 <? length history)%nat then last_n 50 history else history.

(** [request.conversation_id or str(uuid.uuid4())] *)
Definition resolve_conversation_id (request : ChatRequest) : string :=
  match conversation_id request with
  | Some c => if String.eqb c "" then uuid4 e else c
  | None => uuid4 e
  end.

(** The generation call of [send_chat_message], with the prompt it is
    given: the context retrieved for the message and the replayed turns. *)
Definition generate_answer (context : list context_item) (request : ChatRequest)
    (stored : list WorkersAI.message) : Py.result string :=
  let system_prompt := build_system_prompt context in
  let history := replayed_history stored in
  WorkersAI.generate_text (call_model e) (full_prompt history (message request))
    (Some system_prompt) 1000.

Definition send_chat_message (request : ChatRequest) (convs : conversations)
    : Py.result ChatResponse * conversations :=
  let conversation_id := resolve_conversation_id request in
  let convs := ensure_session conversation_id convs in
  let '(context, sources) := retrieve_context (message request) in
  let stored := default [] (convs !! conversation_id) in
  match generate_answer context request stored with
  | Raise x => (Raise x, convs)
  | Ok response =>
      (Ok {| response_message := response; sources := sources;
             response_conversation_id := conversation_id |},
       <[conversation_id := record_turns (message request) response stored]> convs)
  end.

End Handlers.

Definition get_chat_history (conversation_id : string) (convs : conversations)
    : Py.result (list WorkersAI.message) :=
  match convs !! conversation_id with
  | Some history => Ok history
  | None => Raise "HTTPException 404: Conversation not found"
  end.

Definition clear_chat_history (conversation_id : string) (convs : conversations)
    : conversations :=
  delete conversation_id convs.

(** The two stretches of [send_chat_message] that touch the session map,
    each without an [await] inside: the one before the lookups, and the one
    after the generation answered, which reads the map again and raises
    [KeyError] when the session was cleared in between. *)
Definition arrive (e : env) (request : ChatRequest) (convs : conversations)
    : conversations :=
  ensure_session (resolve_conversation_id e request) convs.

Definition complete (conversation_id message response : string)
    (convs : conversations) : Py.result unit * conversations :=
  match convs !! conversation_id with
  | Some stored =>
      (Ok (), <[conversation_id := record_turns message response stored]> convs)
  | None => (Raise "KeyError", convs)
  end.

(** What the server process does to the session map, one step at a time: a
    chat request served from start to end, the two stretches of a chat
    request served while others are in flight, a history read, a clear. *)
Inductive event : Type :=
| Chat (e : env) (request : ChatRequest)
| Arrive (e : env) (request : ChatRequest)
| Complete (conversation_id message response : string)
| History (conversation_id : string)
| Clear (conversation_id : string).

Definition step (build_system_prompt : list context_item -> string)
    (convs : conversations) (ev : event) : conversations :=
  match ev with
  | Chat e request => (send_chat_message build_system_prompt e request convs).2
  | Arrive e request => arrive e request convs
  | Complete c message response => (complete c message response convs).2
  | History _ => convs
  | Clear c => clear_chat_history c convs
  end.

Definition run (build_system_prompt : list context_item -> string)
    (events : list event) : conversations :=
  fold_left (step build_system_prompt) events ∅.

(** The environment with another answer for one of the four lookups. *)
Definition with_ai_search (f : string -> nat -> Py.result (list search_doc))
    (e : env) : env := {|
  uuid4 := uuid4 e; ai_search_search := f; call_model := call_model e;
  vectorize_query := vectorize_query e; d1_query_feedback := d1_query_feedback e;
  d1_query_themes := d1_query_themes e; d1_query_stats := d1_query_stats e
|}.

Definition with_vectorize_query (f : list float -> nat -> Py.result (list vector_match))
    (e : env) : env := {|
  uuid4 := uuid4 e; ai_search_search := ai_search_search e; call_model := call_model e;
  vectorize_query := f; d1_query_feedback := d1_query_feedback e;
  d1_query_themes := d1_query_themes e; d1_query_stats := d1_query_stats e
|}.

Definition with_themes (f : string -> Py.result (list theme_row)) (e : env) : env := {|
  uuid4 := uuid4 e; ai_search_search := ai_search_search e; call_model := call_model e;
  vectorize_query := vectorize_query e; d1_query_feedback := d1_query_feedback e;
  d1_query_themes := f; d1_query_stats := d1_query_stats e
|}.

Definition with_stats (r : Py.result (list stats_row)) (e : env) : env := {|
  uuid4 := uuid4 e; ai_search_search := ai_search_search e; call_model := call_model e;
  vectorize_query := vectorize_query e; d1_query_feedback := d1_query_feedback e;
  d1_query_themes := d1_query_themes e; d1_query_stats := r
|}.

End ChatApi.

(* ===================================================================== *)
(** * The design document's words, as definitions                         *)
(* ===================================================================== *)

Module Design.
Import Py Schemas.

(** Section 4.1, step 1: the bands, tried in this order. *)
Definition threshold_bands : list ((float -> bool) * string) :=
  [ (fun s => (0.3 <? s)%float, "positive");
    (fun s => (s <? -0.5)%float, "frustrated");
    (fun s => (s <? -0.3)%float, "concerned");
    (fun s => (s <? -0.1)%float, "annoyed");
    (fun s => (s <? 0.1)%float, "neutral") ].

(** First match wins; [otherwise] when no band matches. *)
Fixpoint first_match (bands : list ((float -> bool) * string)) (otherwise : string)
    (s : float) : string :=
  match bands with
  | [] => otherwise
  | (test, name) :: rest => if test s then name else first_match rest otherwise s
  end.

Definition label_by_bands (s : float) : string :=
  first_match threshold_bands "positive" s.

(** Section 4.1, step 2: the fixed vocabulary and the fallback tag. *)
Definition fixed_vocabulary : list string :=
  [ "performance"; "reliability"; "documentation"; "pricing"; "support";
    "feature-request"; "bug"; "security"; "usability"; "integration" ].

Definition uncategorized : list json := [JStr "uncategorized"].

Definition in_vocabulary (themes : list json) : Prop :=
  ∀ t, t ∈ themes → ∃ v, v ∈ fixed_vocabulary ∧ t = JStr v.

Definition vocabulary_or_fallback (themes : list json) : Prop :=
  in_vocabulary themes ∨ themes = uncategorized.

(** Section 4.1, step 3: the static default of a tier and the clamp. *)
Definition tier_default (tier : string) : Z :=
  if String.eqb tier "enterprise" then 7
  else if String.eqb tier "pro" then 5
  else if String.eqb tier "free" then 3
  else 5.

Definition clamp_1_10 (n : Z) : Z :=
  if (n <? 1)%Z then 1%Z else if (10 <? n)%Z then 10%Z else n.

(** Section 4.2: deduplication by identity, first occurrence wins, stable. *)
Fixpoint first_occurrences (sources : list ChatSource) : list ChatSource :=
  match sources with
  | [] => []
  | s :: rest =>
      s :: filter (fun t => id t ≠ id s) (first_occurrences rest)
  end.

(** Section 3: no session holds more than 50 turns. *)
Definition bounded (convs : gmap string (list WorkersAI.message)) : Prop :=
  ∀ c history, convs !! c = Some history → (length history ≤ 50)%nat.

(** Section 4.2, failure semantics: a lookup that failed counts as no
    evidence from its source. The request under [e] proceeds as under [e'],
    where that source answers with nothing: same context and sources, same
    response, same session map. *)
Definition proceeds_as (build_system_prompt : list ChatApi.context_item -> string)
    (e e' : ChatApi.env) (request : ChatRequest)
    (convs : gmap string (list WorkersAI.message)) : Prop :=
  ChatApi.retrieve_context e (message request)
    = ChatApi.retrieve_context e' (message request) ∧
  ChatApi.send_chat_message build_system_prompt e request convs
    = ChatApi.send_chat_message build_system_prompt e' request convs.

End Design.

(* ===================================================================== *)
(** * Scripted environments, to run the handlers on concrete requests     *)
(* ===================================================================== *)

Module Samples.
Import Py Store WorkersAI Schemas.

Definition dq : string := String Py.quote "".

(** A model endpoint that answers each call site with a fixed body: the
    classifier scores, the text of the theme call ([max_tokens = 100]), of
    the urgency call ([max_tokens = 10]) and of any other generation, and
    the answer of the embedding model. *)
Definition scripted_model (scores : list labelled_score)
    (themes_text urgency_text chat_text : Py.result string)
    (embedding : Py.result (list float)) : model_api :=
  fun m req =>
    match m with
    | EMBEDDING_MODEL =>
        v ← embedding; Ok (Reply true (Some (EmbeddingData [v])))
    | SENTIMENT_MODEL => Ok (Reply true (Some (Classification [scores])))
    | TEXT_GENERATION_MODEL =>
        text ←
          match req with
          | ChatInput _ n =>
              if (n =? 100)%nat then themes_text
              else if (n =? 10)%nat then urgency_text
              else chat_text
          | TextInput _ => chat_text
          end;
        Ok (Reply true (Some (Generation text)))
    end.

Definition negative_scores : list labelled_score :=
  [LabelledScore "NEGATIVE" 0.9; LabelledScore "POSITIVE" 0.1].

Definition cold_starts : FeedbackCreate := {|
  content := "Cold starts are unbearable";
  source := GITHUB;
  product := Some "workers";
  customer_id := None;
  customer_name := Some "Acme";
  customer_tier := Some ENTERPRISE;
  customer_arr := Some 250000%Z;
  metadata := None
|}.

Definition themes_json : string := "[" ++ dq ++ "performance" ++ dq ++ "]".
Definition off_vocabulary_json : string := "[" ++ dq ++ "latency" ++ dq ++ "]".

(** Every service answers. *)
Definition all_up : FeedbackApi.env := {|
  FeedbackApi.uuid4 := "5f0c2d1e-0000-4000-8000-000000000001";
  FeedbackApi.utcnow_created := "2025-01-01T00:00:00";
  FeedbackApi.utcnow_updated := "2025-01-01T00:00:00";
  FeedbackApi.call_model :=
    scripted_model negative_scores (Ok themes_json) (Ok "9") (Ok "")
                   (Ok [0.25%float; 0.5%float]);
  FeedbackApi.queue_send_message := fun _ => Ok (JObj [("success", JBool true)]);
  FeedbackApi.d1_insert := fun _ => Ok (JObj [("success", JBool true)]);
  FeedbackApi.vectorize_insert := fun _ _ _ => Ok (JObj [("success", JBool true)])
|}.

Definition embedding_down : FeedbackApi.env :=
  FeedbackApi.with_model (scripted_model negative_scores (Ok themes_json) (Ok "9") (Ok "")
                             (Raise "HTTPStatusError")) all_up.

Definition queue_down : FeedbackApi.env :=
  FeedbackApi.with_queue (fun _ => Raise "HTTPStatusError") all_up.

Definition empty_world : world := World ∅ ∅ [].

Definition source (i : string) (t : string) : ChatSource :=
  {| type := "feedback"; id := i; title := t; relevance := 0.5%float |}.

Definition row (i text : string) : feedback_row := {|
  row_id := i; row_content := text; row_source := "github";
  row_sentiment := (-0.8)%float; row_sentiment_label := "frustrated"; row_urgency := 9;
  row_product := None; row_themes := []; row_customer_id := None;
  row_customer_name := None; row_customer_tier := None; row_customer_arr := None;
  row_status := "new"; row_metadata := JObj [];
  row_created_at := "2025-01-01T00:00:00"; row_updated_at := "2025-01-01T00:00:00"
|}.

Definition week_stats : ChatApi.stats_row :=
  {| ChatApi.total := 12; ChatApi.avg_sentiment := Some (-0.2)%float;
     ChatApi.critical := 3 |}.

(** The prompt rendering is not looked at by the scripted model. *)
Definition no_rendering : list ChatApi.context_item -> string := fun _ => "Signal".

(** A chat environment: search index and theme table raise, vector index
    and statistics answer; the model answers [answer]. *)
Definition two_sources_down (answer : Py.result string) : ChatApi.env := {|
  ChatApi.uuid4 := "c0000000-0000-4000-8000-000000000001";
  ChatApi.ai_search_search := fun _ _ => Raise "HTTPStatusError";
  ChatApi.call_model :=
    scripted_model [] (Ok "[]") (Ok "5") answer (Ok [0.25%float; 0.5%float]);
  ChatApi.vectorize_query := fun _ _ =>
    Ok [ {| ChatApi.match_id := "f1"; ChatApi.match_score := Some 0.75%float |} ];
  ChatApi.d1_query_feedback := fun _ => Ok [row "f1" "Cold starts are unbearable"];
  ChatApi.d1_query_themes := fun _ => Raise "HTTPStatusError";
  ChatApi.d1_query_stats := Ok [week_stats]
|}.

Definition biggest_issues : ChatRequest :=
  {| message := "What are our biggest issues this week?"; conversation_id := None |}.

Definition follow_up : ChatRequest :=
  {| message := "Which customers?"; conversation_id := Some "s1" |}.

End Samples.



(* ===================================================================== *)
(** * app/core/database.py: the D1 client                                 *)
(* ===================================================================== *)

Module D1.
Import Py.

(** A bound parameter. *)
Inductive value : Type :=
| VNull
| VInt (n : Z)
| VReal (x : float)
| VText (s : string)
| VJson (j : json).

(** What [execute] posts: [{"sql": sql, "params": params}]. *)
Record statement : Type := Statement { sql : string; params : list value }.

(** The body [execute] returns, [{"success": ..., "result": [{"results":
    rows}, ...]}]; an absent or null ["result"] reads as the empty list, an
    absent ["results"] as [None]. *)
Record statement_result (R : Type) : Type := StatementResult { results : option (list R) }.
Arguments StatementResult {R} results.
Arguments results {R} s.

Record body (R : Type) : Type := Body { success : bool; result : list (statement_result R) }.
Arguments Body {R} success result.
Arguments success {R} b.
Arguments result {R} b.

(** [D1Client.query], over what [execute] answers. *)
Definition query {R} (execute : statement -> Py.result (body R))
    (sql : string) (params : list value) : Py.result (list R) :=
  r ← execute (Statement sql params);
  if success r then
    match result r with
    | first :: _ => Ok (default [] (results first))
    | [] => Ok []
    end
  else Ok [].

(** The statements of [D1Client.insert], [update] and [delete]; [data] is
    the dict in its key order. *)
Definition insert_statement (table : string) (data : list (string * value)) : statement :=
  let columns := String.concat ", " (fst <$> data) in
  let placeholders := String.concat ", " ((fun _ => "?") <$> data) in
  Statement ("INSERT INTO " ++ table ++ " (" ++ columns ++ ") VALUES (" ++ placeholders ++ ")")
            (snd <$> data).

Definition update_statement (table id : string) (data : list (string * value)) : statement :=
  let set_clause := String.concat ", " ((fun kv => kv.1 ++ " = ?") <$> data) in
  Statement ("UPDATE " ++ table ++ " SET " ++ set_clause ++ " WHERE id = ?")
            ((snd <$> data) ++ [VText id])%list.

Definition delete_statement (table id : string) : statement :=
  Statement ("DELETE FROM " ++ table ++ " WHERE id = ?") [VText id].

(** [','.join(['?' for _ in ids])] inside [... WHERE id IN (...)], as the
    routes write it. *)
Definition in_placeholders (n : nat) : string := String.concat "," (replicate n "?").

Definition select_by_id : string := "SELECT * FROM feedback WHERE id = ?".

Definition select_in (n : nat) : string :=
  "SELECT * FROM feedback WHERE id IN (" ++ in_placeholders n ++ ")".

(** The number of [?] in a statement text. *)
Fixpoint placeholders_in (s : string) : nat :=
  match s with
  | EmptyString => 0
  | String c r => (if Ascii.eqb c "?" then 1 else 0) + placeholders_in r
  end.

End D1.

(* ===================================================================== *)
(** * app/api/feedback.py: the other routes                               *)
(* ===================================================================== *)

Module FeedbackRoutes.
Import Py Store.

Inductive FeedbackStatus : Type :=
| NEW | IN_REVIEW | ACKNOWLEDGED | IN_PROGRESS | RESOLVED | CLOSED.

Definition status_value (s : FeedbackStatus) : string :=
  match s with
  | NEW => "new" | IN_REVIEW => "in_review" | ACKNOWLEDGED => "acknowledged"
  | IN_PROGRESS => "in_progress" | RESOLVED => "resolved" | CLOSED => "closed"
  end.

(** The dict [data] of [create_feedback], in its key order. *)
Definition opt_text (o : option string) : D1.value :=
  match o with Some s => D1.VText s | None => D1.VNull end.

Definition opt_int (o : option Z) : D1.value :=
  match o with Some n => D1.VInt n | None => D1.VNull end.

Definition row_data (r : feedback_row) : list (string * D1.value) :=
  [ ("id", D1.VText (row_id r)); ("content", D1.VText (row_content r));
    ("source", D1.VText (row_source r)); ("sentiment", D1.VReal (row_sentiment r));
    ("sentiment_label", D1.VText (row_sentiment_label r));
    ("urgency", D1.VInt (row_urgency r)); ("product", opt_text (row_product r));
    ("themes", D1.VJson (JArr (row_themes r)));
    ("customer_id", opt_text (row_customer_id r));
    ("customer_name", opt_text (row_customer_name r));
    ("customer_tier", opt_text (row_customer_tier r));
    ("customer_arr", opt_int (row_customer_arr r));
    ("status", D1.VText (row_status r)); ("metadata", D1.VJson (row_metadata r));
    ("created_at", D1.VText (row_created_at r));
    ("updated_at", D1.VText (row_updated_at r)) ].

(** The query parameters of [list_feedback]. *)
Record list_query : Type := {
  page : Z;
  page_size : Z;
  source : option (list Schemas.FeedbackSource);
  product : option (list string);
  status : option (list FeedbackStatus);
  customer_tier : option (list Schemas.CustomerTier);
  urgency_min : option Z;
  urgency_max : option Z;
  search : option string
}.

Record count_row : Type := { total : Z }.

Record PaginatedResponse : Type := {
  data : list feedback_row;
  response_total : Z;
  response_page : Z;
  response_page_size : Z;
  has_more : bool
}.


(** [conditions] and [params], as the [if] blocks of [list_feedback] grow
    them. *)
Definition sql_filter : Type := (list string * list D1.value)%type.

(** [if xs: conditions.append(f"{column} IN (...)"); params.extend(xs)] *)
Definition add_in (column : string) (values : list D1.value) (acc : sql_filter)
    : sql_filter :=
  match values with
  | [] => acc
  | _ :: _ =>
      (acc.1 ++ [(column ++ " IN (" ++ D1.in_placeholders (length values) ++ ")")%string],
       acc.2 ++ values)%list
  end.

(** [if x: conditions.append(clause); params.append(x)] *)
Definition add_one (clause : string) (value : option D1.value) (acc : sql_filter)
    : sql_filter :=
  match value with
  | Some v => (acc.1 ++ [clause], acc.2 ++ [v])%list
  | None => acc
  end.

(** Truthiness of an optional integer and of an optional text. *)
Definition truthy_int (o : option Z) : option D1.value :=
  match o with
  | Some n => if (n =? 0)%Z then None else Some (D1.VInt n)
  | None => None
  end.

Definition truthy_like (o : option string) : option D1.value :=
  match o with
  | Some s => if String.eqb s "" then None else Some (D1.VText ("%" ++ s ++ "%"))
  | None => None
  end.

Definition list_filter (q : list_query) : sql_filter :=
  let acc := ([], []) in
  let acc := add_in "source" (D1.VText ∘ Schemas.source_value <$> default [] (source q)) acc in
  let acc := add_in "product" (D1.VText <$> default [] (product q)) acc in
  let acc := add_in "status" (D1.VText ∘ status_value <$> default [] (status q)) acc in
  let acc := add_in "customer_tier"
               (D1.VText ∘ Schemas.tier_value <$> default [] (customer_tier q)) acc in
  let acc := add_one "urgency >= ?" (truthy_int (urgency_min q)) acc in
  let acc := add_one "urgency <= ?" (truthy_int (urgency_max q)) acc in
  add_one "content LIKE ?" (truthy_like (search q)) acc.

(** [" AND ".join(conditions) if conditions else "1=1"] *)
Definition where_clause (conditions : list string) : string :=
  match conditions with
  | [] => "1=1"
  | _ :: _ => String.concat " AND " conditions
  end.

Definition count_statement (q : list_query) : D1.statement :=
  let '(conditions, params) := list_filter q in
  D1.Statement ("SELECT COUNT(*) as total FROM feedback WHERE " ++ where_clause conditions)
               params.

Definition page_statement (q : list_query) : D1.statement :=
  let '(conditions, params) := list_filter q in
  let offset := ((page q - 1) * page_size q)%Z in
  D1.Statement ("SELECT * FROM feedback WHERE " ++ where_clause conditions
                  ++ " ORDER BY created_at DESC LIMIT ? OFFSET ?")
               (params ++ [D1.VInt (page_size q); D1.VInt offset])%list.

(** What of a request reaches the text of the two statements: how many
    values each list filter has, and which of the other filters are set. *)
Definition shape (q : list_query) : list nat * list bool :=
  ([ length (default [] (source q)); length (default [] (product q));
     length (default [] (status q)); length (default [] (customer_tier q)) ],
   [ bool_decide (is_Some (truthy_int (urgency_min q)));
     bool_decide (is_Some (truthy_int (urgency_max q)));
     bool_decide (is_Some (truthy_like (search q))) ]).


(** What the outside answers during one of these requests; [d1_reread] is
    what the store answers to the read [update_feedback] makes after its
    write. *)
Record env : Type := {
  utcnow : string;
  d1_execute : D1.statement -> Py.result (D1.body feedback_row);
  d1_reread : D1.statement -> Py.result (D1.body feedback_row);
  d1_execute_count : D1.statement -> Py.result (D1.body count_row);
  d1_execute_write : D1.statement -> Py.result json;
  call_model : WorkersAI.model_api;
  vectorize_query : list float -> nat -> Py.result (list ChatApi.vector_match);
  vectorize_delete : list string -> Py.result json
}.

(** What a [DELETE ... WHERE id = ?] and a [delete-by-ids] do to the
    stores when the service answers. *)
Definition delete_row (i : string) (w : world) : world :=
  World (delete i (feedback_table w)) (vector_index w) (work_queue w).

Definition delete_vectors (ids : list string) (w : world) : world :=
  World (feedback_table w) (foldr delete (vector_index w) ids) (work_queue w).

(** [[s["id"] for s in similar if s["id"] != feedback_id][:limit]] *)
Definition similar_ids (feedback_id : string) (limit : nat)
    (similar : list ChatApi.vector_match) : list string :=
  take limit
    (ChatApi.match_id <$> filter (fun s => ChatApi.match_id s ≠ feedback_id) similar).

Section Handlers.
Variable e : env.

Definition list_feedback (q : list_query) : Py.result PaginatedResponse :=
  count_result ← D1.query (d1_execute_count e) (D1.sql (count_statement q))
                    (D1.params (count_statement q));
  let total := match count_result with r :: _ => total r | [] => 0%Z end in
  results ← D1.query (d1_execute e) (D1.sql (page_statement q))
              (D1.params (page_statement q));
  Ok {| data := results; response_total := total; response_page := page q;
        response_page_size := page_size q;
        has_more := (page q * page_size q <? total)%Z |}.

Definition get_feedback (feedback_id : string) : Py.result feedback_row :=
  results ← D1.query (d1_execute e) D1.select_by_id [D1.VText feedback_id];
  match results with
  | [] => Raise "HTTPException 404: Feedback not found"
  | r :: _ => Ok r
  end.


Definition delete_feedback (feedback_id : string) : handler string :=
  (results <- lift (D1.query (d1_execute e) D1.select_by_id [D1.VText feedback_id]) ;;
   match results with
   | [] => lift (Raise "HTTPException 404: Feedback not found")
   | _ :: _ =>
       _ <- call (d1_execute_write e (D1.delete_statement "feedback" feedback_id))
                 (delete_row feedback_id) ;;
       _ <- call (vectorize_delete e [feedback_id]) (delete_vectors [feedback_id]) ;;
       ret "deleted"
   end)%handler.

Definition get_similar_feedback (feedback_id : string) (limit : nat)
    : Py.result (list feedback_row) :=
  results ← D1.query (d1_execute e) D1.select_by_id [D1.VText feedback_id];
  match results with
  | [] => Raise "HTTPException 404: Feedback not found"
  | original :: _ =>
      embedding ← WorkersAI.generate_embedding (call_model e) (row_content original);
      similar ← vectorize_query e embedding (limit + 1);
      let ids := similar_ids feedback_id limit similar in
      match ids with
      | [] => Ok []
      | _ :: _ => D1.query (d1_execute e) (D1.select_in (length ids)) (D1.VText <$> ids)
      end
  end.

End Handlers.

(** A store that answers the two reads of these routes, by primary key and
    by a list of ids, with what the feedback table of [w] holds. *)
Fixpoint texts (params : list D1.value) : option (list string) :=
  match params with
  | [] => Some []
  | D1.VText i :: rest => cons i <$> texts rest
  | _ :: _ => None
  end.

Definition serve (w : world) (s : D1.statement) : Py.result (D1.body feedback_row) :=
  if String.eqb (D1.sql s) D1.select_by_id then
    match D1.params s with
    | [D1.VText i] =>
        Ok (D1.Body true [D1.StatementResult (Some (option_list (feedback_table w !! i)))])
    | _ => Ok (D1.Body true [])
    end
  else if String.eqb (D1.sql s) (D1.select_in (length (D1.params s))) then
    match texts (D1.params s) with
    | Some ids =>
        Ok (D1.Body true
              [D1.StatementResult (Some (omap (fun i => feedback_table w !! i) ids))])
    | None => Ok (D1.Body true [])
    end
  else Ok (D1.Body true []).

Definition reads_from (w : world) (e : env) : Prop :=
  ∀ i, d1_execute e (D1.Statement D1.select_by_id [D1.VText i])
       = Ok (D1.Body true [D1.StatementResult (Some (option_list (feedback_table w !! i)))]).

(** A store whose answer to a read by a list of ids holds rows of these ids
    only. *)
Definition answers_within (e : env) : Prop :=
  ∀ ids rows,
    D1.query (d1_execute e) (D1.select_in (length ids)) (D1.VText <$> ids) = Ok rows →
    ∀ r, r ∈ rows → row_id r ∈ ids.

End FeedbackRoutes.

(* ===================================================================== *)
(** * app/api/chat.py: summaries, and the shape of a session              *)
(* ===================================================================== *)

Module ChatSummary.
Import Py Store.

Definition summary_system_prompt : string :=
  "Summarize feedback highlighting: main themes, sentiment, urgency, recommended actions.".

Record summary_response : Type := {
  summary : string;
  feedback_count : nat;
  feedback_ids : list string
}.

(** [f"- [{item.get('source', 'unknown')}] {item.get('content', '')}"] *)
Definition summary_line (item : feedback_row) : string :=
  "- [" ++ row_source item ++ "] " ++ row_content item.

Definition summary_prompt (feedback_items : list feedback_row) : string :=
  "Summarize:" ++ WorkersAI.newline ++ WorkersAI.newline
    ++ String.concat (WorkersAI.newline ++ WorkersAI.newline) (summary_line <$> feedback_items).

Definition summarize_feedback (e : ChatApi.env) (feedback_ids : list string)
    : Py.result summary_response :=
  match feedback_ids with
  | [] => Raise "HTTPException 400: No feedback IDs provided"
  | _ :: _ =>
      feedback_items ← ChatApi.d1_query_feedback e feedback_ids;
      match feedback_items with
      | [] => Raise "HTTPException 404: No feedback found"
      | _ :: _ =>
          summary ← WorkersAI.generate_text (ChatApi.call_model e)
                      (summary_prompt feedback_items) (Some summary_system_prompt) 500;
          Ok {| summary := summary; feedback_count := length feedback_items;
                feedback_ids := row_id <$> feedback_items |}
      end
  end.

(** The two turns a served request appends. *)
Definition turn_pair (message response : string) : list WorkersAI.message :=
  [WorkersAI.Message "user" message; WorkersAI.Message "assistant" response].

(** A history made of whole exchanges: a user turn, then the assistant's. *)
Definition paired (history : list WorkersAI.message) : Prop :=
  ∃ exchanges : list (string * string),
    history = exchanges ≫= (fun x => turn_pair x.1 x.2).

Definition all_paired (convs : gmap string (list WorkersAI.message)) : Prop :=
  ∀ c history, convs !! c = Some history → paired history.

End ChatSummary.

(* ===================================================================== *)
(** * app/api/search.py: semantic search over the vector index            *)
(* ===================================================================== *)

Module Vectorize.
Import Py.

(** A filter expression: per metadata field, its operators and operands. *)
Abbreviation filter_expr := (gmap string (gmap string json)).

(** The payload [VectorizeService.query] posts. *)
Record payload : Type := {
  vector : list float;
  topK : nat;
  returnValues : bool;
  returnMetadata : bool;
  filter : option filter_expr
}.

(** The body it reads: [{"success": ..., "result": {"matches": [...]}}].
    The [result] member may be absent, [null] or an object; the [matches]
    member of that object is [None] when the key is absent, [Some None]
    when it is [null]. *)
Inductive result_member : Type :=
  | ResultAbsent
  | ResultNull
  | ResultObject (matches : option (option (list ChatApi.vector_match))).

Record body : Type := Body {
  success : bool;
  result : result_member
}.

(** [if filter: payload["filter"] = filter]: an empty dict is not sent. *)
Definition sent_filter (f : option filter_expr) : option filter_expr :=
  match f with
  | Some m => if decide (size m = 0%nat) then None else Some m
  | None => None
  end.

(** [result.get("result", {}).get("matches", []) if result.get("success")
    else []]: [.get] on a [null] result raises; a [null] list of matches is
    handed on as it is, and every caller reads it as no match. *)
Definition query (post : payload -> Py.result body) (vector : list float)
    (top_k : nat) (filter : option filter_expr) : Py.result (list ChatApi.vector_match) :=
  r ← post {| vector := vector; topK := top_k; returnValues := false;
              returnMetadata := true; filter := sent_filter filter |};
  if success r then
    match result r with
    | ResultAbsent => Ok []
    | ResultNull => Raise "AttributeError"
    | ResultObject None => Ok []
    | ResultObject (Some None) => Ok []
    | ResultObject (Some (Some ms)) => Ok ms
    end
  else Ok [].

End Vectorize.

Module SearchApi.
Import Py Store.

Record SemanticSearchRequest : Type := {
  query : string;
  limit : nat;
  filters : option (gmap string json)
}.

Record search_result : Type := {
  result_id : string;
  result_score : float;
  result_content : string;
  result_source : string;
  result_product : option string;
  result_sentiment : float;
  result_urgency : Z;
  result_customer_name : option string;
  result_customer_tier : option string;
  result_created_at : string
}.

Record env : Type := {
  call_model : WorkersAI.model_api;
  vectorize_post : Vectorize.payload -> Py.result Vectorize.body;
  d1_execute : D1.statement -> Py.result (D1.body feedback_row)
}.

(** [if key in filters: vector_filter[key] = {"$eq": filters[key]}] *)
Definition eq_clause (key : string) (filters : gmap string json)
    (vf : Vectorize.filter_expr) : Vectorize.filter_expr :=
  match filters !! key with
  | Some v => <[key := {[ "$eq" := v ]}]> vf
  | None => vf
  end.

Definition build_filter (filters : gmap string json) : Vectorize.filter_expr :=
  let vf := eq_clause "product" filters ∅ in
  let vf := eq_clause "source" filters vf in
  let vf := eq_clause "customer_tier" filters vf in
  let vf :=
    match filters !! "min_sentiment" with
    | Some v => <["sentiment" := {[ "$gte" := v ]}]> vf
    | None => vf
    end in
  match filters !! "max_sentiment" with
  | Some v =>
      match vf !! "sentiment" with
      | Some s => <["sentiment" := <["$lte" := v]> s]> vf
      | None => <["sentiment" := {[ "$lte" := v ]}]> vf
      end
  | None => vf
  end.

(** [vector_filter]: [None] unless [request.filters] is a non-empty dict. *)
Definition vector_filter (request : SemanticSearchRequest) : option Vectorize.filter_expr :=
  match filters request with
  | Some f => if decide (size f = 0%nat) then None else Some (build_filter f)
  | None => None
  end.

(** [{f["id"]: f for f in feedback_items}]: a later row replaces an earlier
    one of the same id. *)
Definition feedback_map (feedback_items : list feedback_row) : gmap string feedback_row :=
  fold_left (fun m f => <[row_id f := f]> m) feedback_items ∅.

Definition scored (vr : ChatApi.vector_match) (feedback : feedback_row) : search_result := {|
  result_id := ChatApi.match_id vr;
  result_score := default 0%float (ChatApi.match_score vr);
  result_content := row_content feedback;
  result_source := row_source feedback;
  result_product := row_product feedback;
  result_sentiment := row_sentiment feedback;
  result_urgency := row_urgency feedback;
  result_customer_name := row_customer_name feedback;
  result_customer_tier := row_customer_tier feedback;
  result_created_at := row_created_at feedback
|}.

Definition semantic_search (e : env) (request : SemanticSearchRequest)
    : Py.result (list search_result) :=
  query_embedding ← WorkersAI.generate_embedding (call_model e) (query request);
  vector_results ← Vectorize.query (vectorize_post e) query_embedding (limit request)
                     (vector_filter request);
  match vector_results with
  | [] => Ok []
  | _ :: _ =>
      let feedback_ids := ChatApi.match_id <$> vector_results in
      feedback_items ← D1.query (d1_execute e) (D1.select_in (length feedback_ids))
                         (D1.VText <$> feedback_ids);
      let by_id := feedback_map feedback_items in
      Ok (omap (fun vr => scored vr <$> by_id !! ChatApi.match_id vr) vector_results)
  end.

End SearchApi.

(* ===================================================================== *)
(** * More scripted environments                                          *)
(* ===================================================================== *)

Module MoreSamples.
Import Py Store.

(** The vector index rejects the insert; every other service answers. *)
Definition vector_index_down : FeedbackApi.env := {|
  FeedbackApi.uuid4 := FeedbackApi.uuid4 Samples.all_up;
  FeedbackApi.utcnow_created := FeedbackApi.utcnow_created Samples.all_up;
  FeedbackApi.utcnow_updated := FeedbackApi.utcnow_updated Samples.all_up;
  FeedbackApi.call_model := FeedbackApi.call_model Samples.all_up;
  FeedbackApi.queue_send_message := FeedbackApi.queue_send_message Samples.all_up;
  FeedbackApi.d1_insert := FeedbackApi.d1_insert Samples.all_up;
  FeedbackApi.vectorize_insert := fun _ _ _ => Raise "HTTPStatusError"
|}.

(** The sentiment model answers with [success] false and no result. *)
Definition sentiment_unsuccessful : FeedbackApi.env :=
  FeedbackApi.with_model
    (fun m req =>
       match m with
       | WorkersAI.SENTIMENT_MODEL => Ok (WorkersAI.Reply false None)
       | _ => FeedbackApi.call_model Samples.all_up m req
       end)
    Samples.all_up.

(** A classifier answer without the two labels the service looks for. *)
Definition unlabelled_model : WorkersAI.model_api :=
  fun m req =>
    Ok (WorkersAI.Reply true
          (Some (WorkersAI.Classification
                   [[WorkersAI.LabelledScore "LABEL_0" 0.9;
                     WorkersAI.LabelledScore "LABEL_1" 0.1]]))).

(** The routes over a store that holds [w], with a vector index that
    answers [similar] and deletes when [vector_delete] says so. *)
Definition over (w : world) (similar : list ChatApi.vector_match)
    (vector_delete : Py.result json) : FeedbackRoutes.env := {|
  FeedbackRoutes.utcnow := "2025-01-02T00:00:00";
  FeedbackRoutes.d1_execute := FeedbackRoutes.serve w;
  FeedbackRoutes.d1_reread := FeedbackRoutes.serve w;
  FeedbackRoutes.d1_execute_count := fun _ =>
    Ok (D1.Body true [D1.StatementResult (Some [ {| FeedbackRoutes.total := 41 |} ])]);
  FeedbackRoutes.d1_execute_write := fun _ => Ok (JObj [("success", JBool true)]);
  FeedbackRoutes.call_model :=
    Samples.scripted_model [] (Ok "[]") (Ok "5") (Ok "") (Ok [0.25%float; 0.5%float]);
  FeedbackRoutes.vectorize_query := fun _ _ => Ok similar;
  FeedbackRoutes.vectorize_delete := fun _ => vector_delete
|}.

Definition one_row : world :=
  World {[ "f1" := Samples.row "f1" "Cold starts are unbearable" ]}
        {[ "f1" := ([0.25%float; 0.5%float],
                    {| vm_source := "github"; vm_product := None;
                       vm_sentiment := (-0.8)%float; vm_urgency := 9;
                       vm_customer_tier := None |}) ]}
        [].

(** Every lookup of the chat flow raises; the model answers [answer]. *)
Definition all_down (answer : Py.result string) : ChatApi.env := {|
  ChatApi.uuid4 := "c0000000-0000-4000-8000-000000000002";
  ChatApi.ai_search_search := fun _ _ => Raise "HTTPStatusError";
  ChatApi.call_model :=
    Samples.scripted_model [] (Ok "[]") (Ok "5") answer (Raise "RetryError");
  ChatApi.vectorize_query := fun _ _ => Raise "HTTPStatusError";
  ChatApi.d1_query_feedback := fun _ => Raise "HTTPStatusError";
  ChatApi.d1_query_themes := fun _ => Raise "HTTPStatusError";
  ChatApi.d1_query_stats := Raise "HTTPStatusError"
|}.

Definition two_rows : world :=
  World {[ "f1" := Samples.row "f1" "Cold starts are unbearable";
           "f2" := Samples.row "f2" "Cold starts take seconds" ]} ∅ [].

Definition hit (i : string) : ChatApi.vector_match :=
  {| ChatApi.match_id := i; ChatApi.match_score := Some 0.75%float |}.

Definition by_source (sources : list Schemas.FeedbackSource) (text : option string)
    : FeedbackRoutes.list_query := {|
  FeedbackRoutes.page := 2; FeedbackRoutes.page_size := 20;
  FeedbackRoutes.source := Some sources; FeedbackRoutes.product := None;
  FeedbackRoutes.status := None; FeedbackRoutes.customer_tier := None;
  FeedbackRoutes.urgency_min := Some 8%Z; FeedbackRoutes.urgency_max := None;
  FeedbackRoutes.search := text
|}.

(** A search environment: the index answers [hits], the store holds [rows]. *)
Definition searching (hits : list ChatApi.vector_match) (rows : list feedback_row)
    : SearchApi.env := {|
  SearchApi.call_model :=
    Samples.scripted_model [] (Ok "[]") (Ok "5") (Ok "") (Ok [0.25%float; 0.5%float]);
  SearchApi.vectorize_post := fun _ =>
    Ok (Vectorize.Body true (Vectorize.ResultObject (Some (Some hits))));
  SearchApi.d1_execute := fun _ => Ok (D1.Body true [D1.StatementResult (Some rows)])
|}.

(** What a search over [hits] and [rows] answers for a hit with a row. *)
Definition found (i text : string) : SearchApi.search_result :=
  SearchApi.scored (hit i) (Samples.row i text).

Definition asking (text : string) (filters : option (gmap string json))
    : SearchApi.SemanticSearchRequest :=
  {| SearchApi.query := text; SearchApi.limit := 10; SearchApi.filters := filters |}.

End MoreSamples.
(* ===================================================================== *)
(** * Enrichment: sentiment label, themes, urgency                        *)
(* ===================================================================== *)

Import Py.

Section Enrichment.
Import WorkersAI.

Lemma label_of_score_bands (s : float) :
  label_of_score s = Design.label_by_bands s.
Proof. reflexivity. Qed.

Lemma analyze_sentiment_label ai text r :
  analyze_sentiment ai text = Ok r →
  sentiment_label r = label_of_score (sentiment_score r).
Proof.
  unfold analyze_sentiment. destruct (ai _ _) as [rep|x]; simpl; [|discriminate].
  destruct (truthy_result rep) as [[d|[|scores rest]|t]|]; try discriminate.
  intros [= <-]. reflexivity.
Qed.

Lemma tier_defaults_lookup (k : string) :
  default 5%Z (tier_defaults !! k) = Design.tier_default k.
Proof.
  unfold tier_defaults, Design.tier_default.
  destruct (String.eqb_spec k "enterprise") as [->|H1]; [by rewrite lookup_insert_eq|].
  rewrite lookup_insert_ne; [|done].
  destruct (String.eqb_spec k "pro") as [->|H2]; [by rewrite lookup_insert_eq|].
  rewrite lookup_insert_ne; [|done].
  destruct (String.eqb_spec k "free") as [->|H3]; [by rewrite lookup_singleton_eq|].
  by rewrite lookup_singleton_ne.
Qed.

Lemma clamp_max_min (n : Z) : Z.max 1 (Z.min 10 n) = Design.clamp_1_10 n.
Proof.
  unfold Design.clamp_1_10.
  destruct (Z.ltb_spec n 1), (Z.ltb_spec 10 n); lia.
Qed.

Lemma clamp_range (n : Z) : (1 ≤ Design.clamp_1_10 n ≤ 10)%Z.
Proof.
  unfold Design.clamp_1_10.
  destruct (Z.ltb_spec n 1), (Z.ltb_spec 10 n); lia.
Qed.

Lemma tier_default_range (k : string) : (1 ≤ Design.tier_default k ≤ 10)%Z.
Proof. unfold Design.tier_default. repeat case_match; lia. Qed.

End Enrichment.

(** C1. The label of a sentiment score is the first matching band of the
    documented cascade (above 0.3 positive; below -0.5 frustrated; below
    -0.3 concerned; below -0.1 annoyed; below 0.1 neutral; otherwise
    positive); the five boundary scores fall to concerned, annoyed, neutral,
    positive and positive; and the label [analyze_sentiment] returns is the
    label of the score it returns. *)
Theorem sentiment_label_thresholds :
  (∀ s : float, WorkersAI.label_of_score s = Design.label_by_bands s) ∧
  (WorkersAI.label_of_score (-0.5) = "concerned" ∧
   WorkersAI.label_of_score (-0.3) = "annoyed" ∧
   WorkersAI.label_of_score (-0.1) = "neutral" ∧
   WorkersAI.label_of_score 0.1 = "positive" ∧
   WorkersAI.label_of_score 0.3 = "positive") ∧
  (∀ ai text r,
     WorkersAI.analyze_sentiment ai text = Ok r →
     WorkersAI.sentiment_label r = Design.label_by_bands (WorkersAI.sentiment_score r)).
Proof.
  split; [exact label_of_score_bands|].
  split; [repeat split; reflexivity|].
  intros ai text r Hr.
  rewrite <- label_of_score_bands. by eapply analyze_sentiment_label.
Qed.

Lemma sentiment_label_thresholds_witness :
  WorkersAI.analyze_sentiment (FeedbackApi.call_model Samples.all_up) "Cold starts"
    = Ok (WorkersAI.SentimentResult (0.1 - 0.9) "frustrated" Samples.negative_scores) ∧
  "frustrated" = Design.label_by_bands (0.1 - 0.9).
Proof.
  split; [reflexivity|].
  exact (proj2 (proj2 sentiment_label_thresholds)
           (FeedbackApi.call_model Samples.all_up) "Cold starts"
           (WorkersAI.SentimentResult (0.1 - 0.9) "frustrated" Samples.negative_scores)
           eq_refl).
Defined.

(** C4, as stated, fails: a model answer that is a JSON array is returned
    as it is. The model answers ["latency"]; the themes are ["latency"],
    which is neither within the fixed vocabulary nor the fallback. *)
Lemma themes_outside_vocabulary :
  WorkersAI.classify_themes (rt := ascii_runtime)
    (Samples.scripted_model [] (Ok Samples.off_vocabulary_json) (Ok "9") (Ok "") (Ok []))
    "Cold starts are unbearable" = Ok [JStr "latency"] ∧
  ¬ Design.vocabulary_or_fallback [JStr "latency"] ∧
  ¬ (∀ (rt : Runtime) ai text themes,
       WorkersAI.classify_themes ai text = Ok themes →
       Design.vocabulary_or_fallback themes).
Proof.
  assert (Hrun : WorkersAI.classify_themes (rt := ascii_runtime)
                   (Samples.scripted_model [] (Ok Samples.off_vocabulary_json)
                      (Ok "9") (Ok "") (Ok []))
                   "Cold starts are unbearable" = Ok [JStr "latency"])
    by (vm_compute; reflexivity).
  assert (Hout : ¬ Design.vocabulary_or_fallback [JStr "latency"]).
  { intros [Hin|Heq]; [|discriminate Heq].
    destruct (Hin (JStr "latency")) as (v & Hv & Heq); [by left|].
    injection Heq as <-. unfold Design.fixed_vocabulary in Hv.
    repeat (apply elem_of_cons in Hv as [Hv|Hv]; [discriminate Hv|]).
    by apply elem_of_nil in Hv. }
  split; [exact Hrun|]. split; [exact Hout|].
  intros H. exact (Hout (H _ _ _ _ Hrun)).
Qed.

(** C4, amended. The theme list is the JSON array the model answer parses
    to, returned as it is (its elements are not checked against the fixed
    vocabulary), or exactly ["uncategorized"] when the answer does not parse
    to an array. *)
Theorem themes_are_the_parsed_array {rt : Runtime} ai text themes :
  WorkersAI.classify_themes ai text = Ok themes →
  ∃ response,
    WorkersAI.generate_text ai (WorkersAI.classify_prompt text)
      (Some WorkersAI.classify_system_prompt) 100 = Ok response ∧
    (json_loads (str_strip response) = Ok (JArr themes) ∨
     ((∀ items, json_loads (str_strip response) ≠ Ok (JArr items)) ∧
      themes = Design.uncategorized)).
Proof.
  unfold WorkersAI.classify_themes.
  destruct (WorkersAI.generate_text _ _ _ _) as [response|x]; simpl; [|discriminate].
  intros Hthemes. exists response. split; [reflexivity|].
  destruct (json_loads (str_strip response)) as [[]|] eqn:Hloads;
    simpl in Hthemes; injection Hthemes as <-;
    first [ left; reflexivity
          | right; split; [intros items; congruence | reflexivity] ].
Qed.

Lemma themes_are_the_parsed_array_witness :
  ∃ response,
    WorkersAI.generate_text
      (Samples.scripted_model [] (Ok Samples.off_vocabulary_json) (Ok "9") (Ok "") (Ok []))
      (WorkersAI.classify_prompt "Cold starts")
      (Some WorkersAI.classify_system_prompt) 100 = Ok response ∧
    (json_loads (Runtime := ascii_runtime) (Py.ascii_strip response)
       = Ok (JArr [JStr "latency"]) ∨
     ((∀ items, json_loads (Runtime := ascii_runtime) (Py.ascii_strip response)
                ≠ Ok (JArr items)) ∧
      [JStr "latency"] = Design.uncategorized)).
Proof.
  apply (themes_are_the_parsed_array (rt := ascii_runtime)
           (Samples.scripted_model [] (Ok Samples.off_vocabulary_json) (Ok "9") (Ok "") (Ok []))
           "Cold starts" [JStr "latency"]).
  vm_compute. reflexivity.
Defined.

(** C5. A model answer that is not valid JSON, or is valid JSON but not an
    array, classifies to exactly ["uncategorized"], and the classification
    returns: it does not raise. *)
Theorem themes_fallback_on_unparsable {rt : Runtime} ai text response :
  WorkersAI.generate_text ai (WorkersAI.classify_prompt text)
    (Some WorkersAI.classify_system_prompt) 100 = Ok response →
  ((∃ x, json_loads (str_strip response) = Raise x) ∨
   ∃ v, json_loads (str_strip response) = Ok v ∧ is_list v = false) →
  WorkersAI.classify_themes ai text = Ok [JStr "uncategorized"].
Proof.
  intros Hgen Hbad. unfold WorkersAI.classify_themes. rewrite Hgen. simpl.
  destruct Hbad as [(x & ->) | (v & -> & Hv)]; [reflexivity|].
  destruct v; try reflexivity. discriminate Hv.
Qed.

Lemma themes_fallback_on_unparsable_witness :
  WorkersAI.classify_themes (rt := ascii_runtime)
    (Samples.scripted_model [] (Ok "performance, pricing") (Ok "9") (Ok "") (Ok []))
    "Cold starts" = Ok [JStr "uncategorized"] ∧
  WorkersAI.classify_themes (rt := ascii_runtime)
    (Samples.scripted_model [] (Ok "{}") (Ok "9") (Ok "") (Ok []))
    "Cold starts" = Ok [JStr "uncategorized"].
Proof.
  split.
  - apply (themes_fallback_on_unparsable (rt := ascii_runtime) _ _ "performance, pricing");
      [reflexivity | left; exists "JSONDecodeError"; vm_compute; reflexivity].
  - apply (themes_fallback_on_unparsable (rt := ascii_runtime) _ _ "{}");
      [reflexivity | right; exists (JObj []); split; vm_compute; reflexivity].
Defined.

(** C6. When the model answer does not parse as an integer the urgency is
    the static default of the (lower-cased) tier: 7 for enterprise, 5 for
    pro, 3 for free, 5 for any other; when it parses, the urgency is that
    integer clamped into [1,10]; either way the urgency returned lies
    within [1,10]. The tiers of the schema read 7, 5, 3 and 5 (unknown). *)
Theorem urgency_default_or_clamped {rt : Runtime} ai text tier arr response :
  WorkersAI.generate_text ai (WorkersAI.urgency_prompt text tier arr)
    (Some WorkersAI.urgency_system_prompt) 10 = Ok response →
  (∀ x, int_of_str (str_strip response) = Raise x →
     WorkersAI.calculate_urgency ai text tier arr
       = Ok (Design.tier_default (str_lower tier))) ∧
  (∀ n, int_of_str (str_strip response) = Ok n →
     WorkersAI.calculate_urgency ai text tier arr = Ok (Design.clamp_1_10 n)) ∧
  (∃ u, WorkersAI.calculate_urgency ai text tier arr = Ok u ∧ (1 ≤ u ≤ 10)%Z) ∧
  (Design.tier_default "enterprise" = 7%Z ∧ Design.tier_default "pro" = 5%Z ∧
   Design.tier_default "free" = 3%Z ∧
   ∀ other, other ≠ "enterprise" → other ≠ "pro" → other ≠ "free" →
            Design.tier_default other = 5%Z) ∧
  (∀ t, Design.tier_default (Schemas.tier_value t)
        = match t with
          | Schemas.ENTERPRISE => 7 | Schemas.PRO => 5
          | Schemas.FREE => 3 | Schemas.UNKNOWN => 5
          end%Z).
Proof.
  intros Hgen. unfold WorkersAI.calculate_urgency. rewrite Hgen. simpl.
  assert (Hother : ∀ other, other ≠ "enterprise" → other ≠ "pro" → other ≠ "free" →
                     Design.tier_default other = 5%Z).
  { intros other H1 H2 H3. unfold Design.tier_default.
    destruct (String.eqb_spec other "enterprise"); [done|].
    destruct (String.eqb_spec other "pro"); [done|].
    by destruct (String.eqb_spec other "free"). }
  assert (Henum : ∀ t, Design.tier_default (Schemas.tier_value t)
                       = match t with
                         | Schemas.ENTERPRISE => 7 | Schemas.PRO => 5
                         | Schemas.FREE => 3 | Schemas.UNKNOWN => 5
                         end%Z) by (by intros []).
  destruct (int_of_str (str_strip response)) as [n|y]; simpl.
  - rewrite clamp_max_min. pose proof (clamp_range n).
    repeat split; try done; try lia.
    + by intros m [= <-].
    + eexists; split; [reflexivity|done].
  - rewrite tier_defaults_lookup. pose proof (tier_default_range (str_lower tier)).
    repeat split; try done; try lia.
    eexists; split; [reflexivity|done].
Qed.

Lemma urgency_default_or_clamped_witness :
  WorkersAI.calculate_urgency (rt := ascii_runtime)
    (Samples.scripted_model [] (Ok "[]") (Ok "high") (Ok "") (Ok []))
    "Cold starts" "Enterprise" 250000 = Ok 7%Z ∧
  WorkersAI.calculate_urgency (rt := ascii_runtime)
    (Samples.scripted_model [] (Ok "[]") (Ok " 42 ") (Ok "") (Ok []))
    "Cold starts" "free" 0 = Ok 10%Z.
Proof.
  split.
  - refine (proj1 (urgency_default_or_clamped (rt := ascii_runtime)
                     (Samples.scripted_model [] (Ok "[]") (Ok "high") (Ok "") (Ok []))
                     "Cold starts" "Enterprise" 250000 "high" _) "ValueError" _);
      vm_compute; reflexivity.
  - refine (proj1 (proj2 (urgency_default_or_clamped (rt := ascii_runtime)
                     (Samples.scripted_model [] (Ok "[]") (Ok " 42 ") (Ok "") (Ok []))
                     "Cold starts" "free" 0 " 42 " _)) 42%Z _);
      vm_compute; reflexivity.
Defined.

(** With an answer that is not a number, each tier of the schema gets its
    default; out-of-range numbers are clamped. *)
Example urgency_by_tier_and_clamp :
  let urgency answer tier :=
    WorkersAI.calculate_urgency (rt := ascii_runtime)
      (Samples.scripted_model [] (Ok "[]") (Ok answer) (Ok "") (Ok []))
      "Cold starts are unbearable" (Schemas.tier_value tier) 250000 in
  urgency "high" Schemas.ENTERPRISE = Ok 7%Z ∧ urgency "high" Schemas.PRO = Ok 5%Z ∧
  urgency "high" Schemas.FREE = Ok 3%Z ∧ urgency "high" Schemas.UNKNOWN = Ok 5%Z ∧
  urgency "8.5" Schemas.FREE = Ok 3%Z ∧ urgency "" Schemas.PRO = Ok 5%Z ∧
  urgency "0" Schemas.FREE = Ok 1%Z ∧ urgency "-3" Schemas.FREE = Ok 1%Z ∧
  urgency "11" Schemas.FREE = Ok 10%Z ∧ urgency " 6 " Schemas.FREE = Ok 6%Z.
Proof. vm_compute. repeat split; reflexivity. Qed.

(* ===================================================================== *)
(** * Creating feedback                                                   *)
(* ===================================================================== *)

Section CreateFeedback.
Import Schemas Store FeedbackApi.
Context {rt : Runtime}.

Lemma create_feedback_queue_raises e feedback w x :
  queue_send_message e (work_message (uuid4 e) feedback) = Raise x →
  create_feedback e feedback w = (Raise x, w).
Proof.
  intros Hq. unfold create_feedback, bind, call. rewrite Hq. reflexivity.
Qed.

Lemma create_feedback_enrichment_raises e feedback w body x :
  queue_send_message e (work_message (uuid4 e) feedback) = Ok body →
  enrichment e feedback = Raise x →
  create_feedback e feedback w
    = (Raise x, enqueue (work_message (uuid4 e) feedback) w).
Proof.
  intros Hq He. unfold create_feedback, bind, call, lift. rewrite Hq.
  unfold enrichment in He. simpl in He.
  destruct (WorkersAI.analyze_sentiment _ _) as [s|]; simpl in *; [|congruence].
  destruct (WorkersAI.classify_themes _ _) as [t|]; simpl in *; [|congruence].
  destruct (WorkersAI.calculate_urgency _ _ _ _) as [u|]; simpl in *; [|congruence].
  destruct (WorkersAI.generate_embedding _ _) as [v|]; simpl in *; congruence.
Qed.

Lemma enrichment_embedding_raises e feedback x :
  WorkersAI.generate_embedding (call_model e) (content feedback) = Raise x →
  ∃ x', enrichment e feedback = Raise x'.
Proof.
  intros Hv. unfold enrichment. rewrite Hv.
  destruct (WorkersAI.analyze_sentiment _ _) as [s|]; simpl; [|eauto].
  destruct (WorkersAI.classify_themes _ _) as [t|]; simpl; [|eauto].
  destruct (WorkersAI.calculate_urgency _ _ _ _) as [u|]; simpl; eauto.
Qed.

End CreateFeedback.

(** C2. When embedding generation fails, creating the feedback fails, and
    the feedback table and the vector index are as they were before the
    request: no row carries the identifier drawn for it. *)
Theorem embedding_failure_persists_nothing {rt : Runtime}
    (e : FeedbackApi.env) (feedback : Schemas.FeedbackCreate) (w : Store.world) x :
  WorkersAI.generate_embedding (FeedbackApi.call_model e) (Schemas.content feedback)
    = Raise x →
  Store.feedback_table w !! FeedbackApi.uuid4 e = None →
  is_ok (FeedbackApi.create_feedback e feedback w).1 = false ∧
  Store.feedback_table (FeedbackApi.create_feedback e feedback w).2
    = Store.feedback_table w ∧
  Store.vector_index (FeedbackApi.create_feedback e feedback w).2
    = Store.vector_index w ∧
  Store.feedback_table (FeedbackApi.create_feedback e feedback w).2
    !! FeedbackApi.uuid4 e = None.
Proof.
  intros Hv Hfresh.
  destruct (FeedbackApi.queue_send_message e
              (FeedbackApi.work_message (FeedbackApi.uuid4 e) feedback))
    as [body|y] eqn:Hq.
  - destruct (enrichment_embedding_raises e feedback x Hv) as [x' Hx'].
    rewrite (create_feedback_enrichment_raises e feedback w body x' Hq Hx').
    simpl. auto.
  - rewrite (create_feedback_queue_raises e feedback w y Hq). simpl. auto.
Qed.

Lemma embedding_failure_persists_nothing_witness :
  is_ok (FeedbackApi.create_feedback (rt := ascii_runtime) Samples.embedding_down
           Samples.cold_starts Samples.empty_world).1 = false ∧
  Store.feedback_table
    (FeedbackApi.create_feedback (rt := ascii_runtime) Samples.embedding_down
       Samples.cold_starts Samples.empty_world).2 = ∅.
Proof.
  pose proof (embedding_failure_persists_nothing (rt := ascii_runtime)
                Samples.embedding_down Samples.cold_starts Samples.empty_world
                "HTTPStatusError" eq_refl eq_refl) as (Hfail & Htable & _).
  split; [exact Hfail | exact Htable].
Defined.

(** C3, as stated, fails: with every other service answering, a queue send
    that raises turns a creation that succeeds into one that fails with the
    queue's exception. *)
Lemma queue_failure_fails_create :
  is_ok (FeedbackApi.create_feedback (rt := ascii_runtime) Samples.all_up
           Samples.cold_starts Samples.empty_world).1 = true ∧
  (FeedbackApi.create_feedback (rt := ascii_runtime)
     (FeedbackApi.with_queue (λ _, Raise "HTTPStatusError") Samples.all_up)
     Samples.cold_starts Samples.empty_world).1 = Raise "HTTPStatusError" ∧
  ¬ (∀ (rt : Runtime) e send feedback w,
       (FeedbackApi.create_feedback (FeedbackApi.with_queue send e) feedback w).1
         = (FeedbackApi.create_feedback e feedback w).1).
Proof.
  split; [vm_compute; reflexivity|]. split; [vm_compute; reflexivity|].
  intros H.
  specialize (H ascii_runtime Samples.all_up (λ _, Raise "HTTPStatusError")
                Samples.cold_starts Samples.empty_world).
  vm_compute in H. discriminate H.
Qed.

(** C3, amended. The queue send is awaited before the enrichment: when it
    raises, creating the feedback fails with that exception and nothing was
    enriched or written; when it answers, the response does not depend on
    what it answered. *)
Theorem queue_send_is_awaited_first {rt : Runtime}
    (e : FeedbackApi.env) (feedback : Schemas.FeedbackCreate) (w : Store.world) :
  (∀ x, FeedbackApi.queue_send_message e
          (FeedbackApi.work_message (FeedbackApi.uuid4 e) feedback) = Raise x →
        FeedbackApi.create_feedback e feedback w = (Raise x, w)) ∧
  (∀ send body body',
     FeedbackApi.queue_send_message e
       (FeedbackApi.work_message (FeedbackApi.uuid4 e) feedback) = Ok body →
     send (FeedbackApi.work_message (FeedbackApi.uuid4 e) feedback) = Ok body' →
     FeedbackApi.create_feedback (FeedbackApi.with_queue send e) feedback w
       = FeedbackApi.create_feedback e feedback w).
Proof.
  split.
  - intros x Hq. by apply create_feedback_queue_raises.
  - intros send body body' Hq Hsend.
    unfold FeedbackApi.create_feedback, Store.bind, Store.call. simpl.
    rewrite Hq, Hsend. reflexivity.
Qed.

Lemma queue_send_is_awaited_first_witness :
  FeedbackApi.create_feedback (rt := ascii_runtime) Samples.queue_down
    Samples.cold_starts Samples.empty_world
    = (Raise "HTTPStatusError", Samples.empty_world) ∧
  FeedbackApi.create_feedback (rt := ascii_runtime)
    (FeedbackApi.with_queue (fun _ => Ok JNull) Samples.all_up)
    Samples.cold_starts Samples.empty_world
    = FeedbackApi.create_feedback (rt := ascii_runtime) Samples.all_up
        Samples.cold_starts Samples.empty_world.
Proof.
  split.
  - exact (proj1 (queue_send_is_awaited_first (rt := ascii_runtime) Samples.queue_down
                    Samples.cold_starts Samples.empty_world)
             "HTTPStatusError" eq_refl).
  - exact (proj2 (queue_send_is_awaited_first (rt := ascii_runtime) Samples.all_up
                    Samples.cold_starts Samples.empty_world)
             (fun _ => Ok JNull) (JObj [("success", JBool true)]) JNull eq_refl eq_refl).
Defined.

(* ===================================================================== *)
(** * Chat: deduplicated sources                                          *)
(* ===================================================================== *)

Section Sources.
Import Schemas ChatApi.
Implicit Types (s : ChatSource) (sources : list ChatSource) (seen : gset string).

(** The comprehension with its [seen] set keeps, of the first occurrences,
    those whose id was not seen before it started. *)
Lemma unique_by_id_filter seen sources :
  unique_by_id seen sources
    = filter (λ s, id s ∉ seen) (Design.first_occurrences sources).
Proof.
  revert seen. induction sources as [|s rest IH]; intros seen; [done|].
  cbn [unique_by_id Design.first_occurrences]. rewrite filter_cons.
  destruct (decide (id s ∈ seen)) as [Hin|Hout].
  - rewrite decide_False by (intros Hn; by apply Hn).
    rewrite IH. symmetry. apply list_filter_filter_l.
    intros t Ht Heq. apply Ht. by rewrite Heq.
  - rewrite decide_True by done. f_equal.
    rewrite IH, list_filter_filter. apply list_filter_iff.
    intros t. set_solver.
Qed.

Lemma unique_by_id_empty sources :
  unique_by_id ∅ sources = Design.first_occurrences sources.
Proof.
  rewrite unique_by_id_filter.
  induction (Design.first_occurrences sources) as [|s l IH]; [done|].
  rewrite filter_cons_True by set_solver. by rewrite IH.
Qed.

Lemma first_occurrences_sublist sources :
  Design.first_occurrences sources `sublist_of` sources.
Proof.
  induction sources as [|s rest IH]; [done|]. cbn [Design.first_occurrences].
  apply sublist_skip. etrans; [apply sublist_filter | exact IH].
Qed.

Lemma first_occurrences_NoDup sources :
  NoDup (id <$> Design.first_occurrences sources).
Proof.
  induction sources as [|s rest IH]; [constructor|].
  cbn [Design.first_occurrences]. rewrite fmap_cons. apply NoDup_cons. split.
  - intros (t & Heq & Ht)%list_elem_of_fmap_1.
    apply list_elem_of_filter in Ht as [Hne _]. by apply Hne.
  - eapply sublist_NoDup; [exact IH|]. apply fmap_sublist, sublist_filter.
Qed.

(** A kept source is the first of its id in the input. *)
Lemma first_occurrences_first sources s :
  s ∈ Design.first_occurrences sources →
  ∃ l1 l2, sources = (l1 ++ s :: l2)%list ∧ id s ∉ id <$> l1.
Proof.
  induction sources as [|s0 rest IH]; [by intros ?%elem_of_nil|].
  cbn [Design.first_occurrences]. intros [->|Hin]%elem_of_cons.
  - exists [], rest. split; [done|]. rewrite fmap_nil. apply not_elem_of_nil.
  - apply list_elem_of_filter in Hin as [Hne Hin].
    destruct (IH Hin) as (l1 & l2 & -> & Hfresh).
    exists (s0 :: l1), l2. split; [done|].
    rewrite fmap_cons. intros [Heq|Hl1]%elem_of_cons; [by apply Hne | by apply Hfresh].
Qed.

(** Every id of the input is the id of a kept source. *)
Lemma first_occurrences_complete sources s :
  s ∈ sources → id s ∈ id <$> Design.first_occurrences sources.
Proof.
  induction sources as [|s0 rest IH]; [by intros ?%elem_of_nil|].
  cbn [Design.first_occurrences]. rewrite fmap_cons.
  intros [->|Hin]%elem_of_cons; [by left|].
  destruct (decide (id s = id s0)) as [->|Hne]; [by left|]. right.
  apply IH in Hin as (t & Heq & Ht)%list_elem_of_fmap_1.
  rewrite Heq. apply list_elem_of_fmap_2, list_elem_of_filter.
  split; [by rewrite <- Heq | done].
Qed.

Lemma elem_of_take_elem {A} (x : A) n (l : list A) : x ∈ take n l → x ∈ l.
Proof. intros Hx. eapply elem_of_sublist; [exact Hx | apply sublist_take]. Qed.

End Sources.

(** C8. The sources returned are the first occurrence of each id, in the
    order of the input, cut to the first ten: a sublist of the input without
    two equal ids, of length at most ten, each member the first source of
    its id; before the cut no id of the input is lost; and sources with ids
    A, B, A, C come out as the first, the second and the fourth. *)
Theorem sources_first_occurrence_at_most_ten (sources : list Schemas.ChatSource) :
  ChatApi.unique_sources sources = take 10 (Design.first_occurrences sources) ∧
  ChatApi.unique_sources sources `sublist_of` sources ∧
  NoDup (Schemas.id <$> ChatApi.unique_sources sources) ∧
  (length (ChatApi.unique_sources sources) ≤ 10)%nat ∧
  (∀ s, s ∈ ChatApi.unique_sources sources →
        ∃ l1 l2, sources = (l1 ++ s :: l2)%list ∧ Schemas.id s ∉ Schemas.id <$> l1) ∧
  (∀ s, s ∈ sources →
        Schemas.id s ∈ Schemas.id <$> Design.first_occurrences sources) ∧
  (∀ a b a' c,
     Schemas.id a' = Schemas.id a → Schemas.id b ≠ Schemas.id a →
     Schemas.id c ≠ Schemas.id a → Schemas.id c ≠ Schemas.id b →
     ChatApi.unique_sources [a; b; a'; c] = [a; b; c]).
Proof.
  assert (Heq : ChatApi.unique_sources sources
                = take 10 (Design.first_occurrences sources)).
  { unfold ChatApi.unique_sources. by rewrite unique_by_id_empty. }
  rewrite Heq. repeat split.
  - etrans; [apply sublist_take | apply first_occurrences_sublist].
  - eapply sublist_NoDup; [apply first_occurrences_NoDup|].
    apply fmap_sublist, sublist_take.
  - rewrite length_take. lia.
  - intros s Hs. apply first_occurrences_first. by eapply elem_of_take_elem.
  - apply first_occurrences_complete.
  - intros a b a' c Ha' Hb Hc Hcb. unfold ChatApi.unique_sources. simpl.
    rewrite decide_False by set_solver.
    rewrite decide_False by set_solver.
    rewrite decide_True by (rewrite Ha'; set_solver).
    rewrite decide_False by set_solver. reflexivity.
Qed.

Lemma sources_first_occurrence_at_most_ten_witness :
  ChatApi.unique_sources
    [Samples.source "A" "first"; Samples.source "B" "second";
     Samples.source "A" "third"; Samples.source "C" "fourth"]
  = [Samples.source "A" "first"; Samples.source "B" "second";
     Samples.source "C" "fourth"].
Proof.
  apply (proj2 (proj2 (proj2 (proj2 (proj2 (proj2
           (sources_first_occurrence_at_most_ten [])))))));
    simpl; congruence.
Defined.

(* ===================================================================== *)
(** * Chat: sessions                                                      *)
(* ===================================================================== *)

Section Sessions.
Import Schemas ChatApi.
Variable build_system_prompt : list context_item → string.
Implicit Types (convs : gmap string (list WorkersAI.message))
               (history : list WorkersAI.message).

Lemma last_n_length {A} n (l : list A) : (length (last_n n l) ≤ n)%nat.
Proof. unfold last_n. rewrite length_drop. lia. Qed.

Lemma last_n_suffix {A} n (l : list A) : last_n n l `suffix_of` l.
Proof. apply suffix_drop. Qed.

Lemma record_turns_length message response history :
  (length (record_turns message response history) ≤ 50)%nat.
Proof.
  unfold record_turns. case_match eqn:Hlen.
  - apply last_n_length.
  - by apply Nat.ltb_ge in Hlen.
Qed.

Lemma record_turns_suffix message response history :
  record_turns message response history
    `suffix_of` (history ++ [WorkersAI.Message "user" message;
                             WorkersAI.Message "assistant" response])%list.
Proof. unfold record_turns. case_match; [apply last_n_suffix | done]. Qed.

Lemma ensure_session_bounded c convs :
  Design.bounded convs → Design.bounded (ensure_session c convs).
Proof.
  intros Hb. unfold ensure_session. destruct (convs !! c); [done|].
  intros c' h. rewrite lookup_insert. case_decide; [|by apply Hb].
  intros [= <-]. simpl. lia.
Qed.

Lemma complete_bounded c message response convs :
  Design.bounded convs → Design.bounded (complete c message response convs).2.
Proof.
  intros Hb. unfold complete. destruct (convs !! c); [|done]. simpl.
  intros c' h. rewrite lookup_insert. case_decide; [|by apply Hb].
  intros [= <-]. apply record_turns_length.
Qed.

Lemma ensure_session_stored c convs :
  default [] (ensure_session c convs !! c) = default [] (convs !! c).
Proof.
  unfold ensure_session.
  destruct (convs !! c) eqn:Hc; simpl; rewrite ?Hc, ?lookup_insert_eq; done.
Qed.

Lemma send_chat_message_bounded e request convs :
  Design.bounded convs → Design.bounded (send_chat_message build_system_prompt e request convs).2.
Proof.
  intros Hb. unfold send_chat_message.
  set (cid := resolve_conversation_id e request).
  set (convs' := ensure_session cid convs).
  assert (Hb' : Design.bounded convs') by by apply ensure_session_bounded.
  destruct (retrieve_context e (message request)) as [context sources].
  destruct (generate_answer _ _ _ _ _) as [response|x]; simpl; [|done].
  intros c h. rewrite lookup_insert. case_decide; [|by apply Hb'].
  intros [= <-]. apply record_turns_length.
Qed.

(** Served without interleaving, a request is its two stretches one after
    the other. *)
Lemma send_chat_message_stretches e request convs :
  let c := resolve_conversation_id e request in
  let convs' := arrive e request convs in
  (send_chat_message build_system_prompt e request convs).2
    = match generate_answer build_system_prompt e
              (retrieve_context e (message request)).1 request
              (default [] (convs' !! c)) with
      | Ok response => (complete c (message request) response convs').2
      | Raise _ => convs'
      end.
Proof.
  intros c convs'. subst convs'. unfold send_chat_message, arrive, complete. fold c.
  destruct (retrieve_context e (message request)) as [context sources]. simpl.
  destruct (generate_answer _ _ _ _ _) as [response|x]; [|done]. simpl.
  unfold ensure_session.
  destruct (convs !! c) eqn:Hc; simpl; rewrite ?Hc, ?lookup_insert_eq; done.
Qed.

Lemma step_bounded convs ev : Design.bounded convs → Design.bounded (step build_system_prompt convs ev).
Proof.
  intros Hb. destruct ev as [e request|e request|c message response|c|c]; simpl.
  - by apply send_chat_message_bounded.
  - by apply ensure_session_bounded.
  - by apply complete_bounded.
  - done.
  - intros c' h. unfold clear_chat_history. rewrite lookup_delete.
    case_decide; [done | by apply Hb].
Qed.

Lemma run_bounded events : Design.bounded (run build_system_prompt events).
Proof.
  unfold run.
  assert (Hgen : ∀ convs, Design.bounded convs →
                   Design.bounded (fold_left (step build_system_prompt) events convs)).
  { induction events as [|ev events IH]; intros convs Hb; [done|].
    simpl. by apply IH, step_bounded. }
  apply Hgen. intros c h. by rewrite lookup_empty.
Qed.

End Sessions.

(** C9. In the session map left by any run of chat requests (served one
    after the other, or stretch by stretch while others are in flight),
    history reads and clears, every session holds at most 50 turns;
    recording a turn pair keeps a suffix of the extended history (the oldest
    turns go); and the history replayed into a generation prompt is a suffix
    of at most 10 turns of the stored one, the only part of it the
    generation call sees. *)
Theorem session_at_most_50_replay_at_most_10
    (build_system_prompt : list ChatApi.context_item → string)
    (events : list ChatApi.event) (c : string) (history : list WorkersAI.message) :
  ChatApi.run build_system_prompt events !! c = Some history →
  (length history ≤ 50)%nat ∧
  (∀ message response,
     (length (ChatApi.record_turns message response history) ≤ 50)%nat ∧
     ChatApi.record_turns message response history
       `suffix_of` (history ++ [WorkersAI.Message "user" message;
                                WorkersAI.Message "assistant" response])%list) ∧
  (length (ChatApi.replayed_history history) ≤ 10)%nat ∧
  ChatApi.replayed_history history `suffix_of` history ∧
  (∀ e context request history',
     ChatApi.replayed_history history' = ChatApi.replayed_history history →
     ChatApi.generate_answer build_system_prompt e context request history'
       = ChatApi.generate_answer build_system_prompt e context request history).
Proof.
  intros Hc. split; [by eapply run_bounded|].
  split; [intros; split; [apply record_turns_length | apply record_turns_suffix]|].
  split; [apply last_n_length|].
  split; [apply last_n_suffix|].
  intros e context request history' Heq.
  unfold ChatApi.generate_answer. by rewrite Heq.
Qed.

Lemma session_at_most_50_replay_at_most_10_witness :
  (length [WorkersAI.Message "user" "Which customers?";
           WorkersAI.Message "assistant" "Acme."] ≤ 50)%nat.
Proof.
  refine (proj1 (session_at_most_50_replay_at_most_10 Samples.no_rendering
                   [ChatApi.Chat (Samples.two_sources_down (Ok "Acme.")) Samples.follow_up;
                    ChatApi.History "s1"]
                   "s1" _ _)).
  vm_compute. reflexivity.
Defined.

(** Thirty answered requests on one session: sixty turns were appended,
    fifty are stored, ten are replayed. *)
Example thirty_requests_keep_fifty_turns :
  let convs :=
    ChatApi.run Samples.no_rendering
      (replicate 30 (ChatApi.Chat (Samples.two_sources_down (Ok "Acme."))
                                  Samples.follow_up)) in
  length <$> convs !! "s1" = Some 50%nat ∧
  (length ∘ ChatApi.replayed_history) <$> convs !! "s1" = Some 10%nat.
Proof. vm_compute. split; reflexivity. Qed.

(** C10. A chat request whose conversation id is not in the session map
    (given, or freshly drawn) binds the id to the empty history before any
    lookup or generation; when its generation fails, the request fails with
    the generation's exception, the map is the old one with the id bound to
    the empty list, and reading the history of that id, not found before,
    now returns the empty list. *)
Theorem failed_generation_leaves_empty_session
    (build_system_prompt : list ChatApi.context_item → string)
    (e : ChatApi.env) (request : Schemas.ChatRequest)
    (convs : gmap string (list WorkersAI.message)) (x : string) :
  let c := ChatApi.resolve_conversation_id e request in
  convs !! c = None →
  ChatApi.generate_answer build_system_prompt e
    (ChatApi.retrieve_context e (Schemas.message request)).1 request [] = Raise x →
  ChatApi.arrive e request convs = <[c := []]> convs ∧
  ChatApi.send_chat_message build_system_prompt e request convs
    = (Raise x, <[c := []]> convs) ∧
  ChatApi.get_chat_history c convs = Raise "HTTPException 404: Conversation not found" ∧
  ChatApi.get_chat_history c
    (ChatApi.send_chat_message build_system_prompt e request convs).2 = Ok [].
Proof.
  intros c Hnew Hgen.
  assert (Hsend : ChatApi.send_chat_message build_system_prompt e request convs
                  = (Raise x, <[c := []]> convs)).
  { unfold ChatApi.send_chat_message, ChatApi.ensure_session. fold c. rewrite Hnew.
    destruct (ChatApi.retrieve_context e (Schemas.message request)) as [context sources].
    rewrite lookup_insert_eq. simpl in *. by rewrite Hgen. }
  rewrite Hsend. unfold ChatApi.get_chat_history, ChatApi.arrive, ChatApi.ensure_session.
  fold c. simpl. by rewrite Hnew, lookup_insert_eq.
Qed.

Lemma failed_generation_leaves_empty_session_witness :
  ChatApi.send_chat_message Samples.no_rendering
    (Samples.two_sources_down (Raise "RetryError")) Samples.biggest_issues ∅
    = (Raise "RetryError", {[ "c0000000-0000-4000-8000-000000000001" := [] ]}) ∧
  ChatApi.get_chat_history "c0000000-0000-4000-8000-000000000001"
    (ChatApi.send_chat_message Samples.no_rendering
       (Samples.two_sources_down (Raise "RetryError")) Samples.biggest_issues ∅).2
    = Ok [].
Proof.
  pose proof (failed_generation_leaves_empty_session Samples.no_rendering
                (Samples.two_sources_down (Raise "RetryError")) Samples.biggest_issues ∅
                "RetryError" (lookup_empty _) eq_refl) as (_ & Hsend & _ & Hget).
  split; [exact Hsend | exact Hget].
Defined.

(* ===================================================================== *)
(** * Chat: failures of the lookups and of the generation                 *)
(* ===================================================================== *)

Section Lookups.
Import Schemas ChatApi.
Variable build_system_prompt : list context_item → string.
Implicit Types (acc : list context_item * list ChatSource).

(** A block whose lookup raised leaves both lists as they were; so does a
    block whose lookup answered with nothing. *)
Lemma gather_ai_search_raises e query acc x :
  ai_search_search e query 5 = Raise x → gather_ai_search e query acc = acc.
Proof. intros H. unfold gather_ai_search. by rewrite H. Qed.

Lemma gather_ai_search_nothing e query acc :
  gather_ai_search (with_ai_search (λ _ _, Ok []) e) query acc = acc.
Proof. destruct acc. unfold gather_ai_search. simpl. by rewrite !app_nil_r. Qed.

Lemma gather_vector_raises e query acc x :
  vector_lookup e query = Raise x → gather_vector e query acc = acc.
Proof. intros H. unfold gather_vector. by rewrite H. Qed.

Lemma gather_vector_nothing e query acc :
  gather_vector (with_vectorize_query (λ _ _, Ok []) e) query acc = acc.
Proof.
  destruct acc. unfold gather_vector, vector_lookup. simpl.
  destruct (WorkersAI.generate_embedding _ _); simpl; [|done].
  by rewrite !app_nil_r.
Qed.

Lemma gather_themes_raises e query acc x :
  d1_query_themes e ("%" ++ query ++ "%") = Raise x → gather_themes e query acc = acc.
Proof. intros H. unfold gather_themes. by rewrite H. Qed.

Lemma gather_themes_nothing e query acc :
  gather_themes (with_themes (λ _, Ok []) e) query acc = acc.
Proof. destruct acc. unfold gather_themes. simpl. by rewrite !app_nil_r. Qed.

Lemma gather_statistics_raises e acc x :
  d1_query_stats e = Raise x → gather_statistics e acc = acc.
Proof. intros H. unfold gather_statistics. by rewrite H. Qed.

(** The handler reads the environment through the identifier it draws, the
    model endpoint and the retrieved context only. *)
Lemma send_chat_message_same_context e e' request convs :
  uuid4 e = uuid4 e' → call_model e = call_model e' →
  retrieve_context e (message request) = retrieve_context e' (message request) →
  send_chat_message build_system_prompt e request convs
    = send_chat_message build_system_prompt e' request convs.
Proof.
  intros Hid Hai Hctx.
  unfold send_chat_message, generate_answer, resolve_conversation_id.
  by rewrite Hid, Hai, Hctx.
Qed.

Lemma send_chat_message_outcome e request convs :
  let stored := default [] (convs !! resolve_conversation_id e request) in
  let answer := generate_answer build_system_prompt e
                  (retrieve_context e (message request)).1 request stored in
  (send_chat_message build_system_prompt e request convs).1
    = (λ response, {| response_message := response;
                      sources := (retrieve_context e (message request)).2;
                      response_conversation_id := resolve_conversation_id e request |})
        <$> answer.
Proof.
  intros stored answer. subst stored answer. unfold send_chat_message.
  rewrite ensure_session_stored.
  destruct (retrieve_context e (message request)) as [context sources]. simpl.
  by destruct (generate_answer _ _ _ _ _).
Qed.

End Lookups.

(** C7. Each of the four lookups fails on its own: when the search index,
    the vector lookup (embedding, vector query, row fetch), the theme table
    or the statistics query raises, the request proceeds as if that source
    had answered with nothing, with the same context, sources, response and
    session map, whatever the other lookups did. The request returns
    exactly when the generation call returns, with its text; when the
    generation call raises, the request raises the same exception and
    carries no answer. *)
Theorem lookups_fail_soft_generation_fails_hard
    (build_system_prompt : list ChatApi.context_item → string)
    (e : ChatApi.env) (request : Schemas.ChatRequest)
    (convs : gmap string (list WorkersAI.message)) :
  let query := Schemas.message request in
  let stored := default [] (convs !! ChatApi.resolve_conversation_id e request) in
  let answer := ChatApi.generate_answer build_system_prompt e
                  (ChatApi.retrieve_context e query).1 request stored in
  (∀ x, ChatApi.ai_search_search e query 5 = Raise x →
        Design.proceeds_as build_system_prompt e
          (ChatApi.with_ai_search (λ _ _, Ok []) e) request convs) ∧
  (∀ x, ChatApi.vector_lookup e query = Raise x →
        Design.proceeds_as build_system_prompt e
          (ChatApi.with_vectorize_query (λ _ _, Ok []) e) request convs) ∧
  (∀ x, ChatApi.d1_query_themes e ("%" ++ query ++ "%") = Raise x →
        Design.proceeds_as build_system_prompt e
          (ChatApi.with_themes (λ _, Ok []) e) request convs) ∧
  (∀ x, ChatApi.d1_query_stats e = Raise x →
        Design.proceeds_as build_system_prompt e
          (ChatApi.with_stats (Ok []) e) request convs) ∧
  (∀ response, answer = Ok response →
     (ChatApi.send_chat_message build_system_prompt e request convs).1
       = Ok {| Schemas.response_message := response;
               Schemas.sources := (ChatApi.retrieve_context e query).2;
               Schemas.response_conversation_id :=
                 ChatApi.resolve_conversation_id e request |}) ∧
  (∀ x, answer = Raise x →
     (ChatApi.send_chat_message build_system_prompt e request convs).1 = Raise x).
Proof.
  intros query stored answer.
  assert (Hsame : ∀ e', ChatApi.uuid4 e = ChatApi.uuid4 e' →
            ChatApi.call_model e = ChatApi.call_model e' →
            ChatApi.retrieve_context e query = ChatApi.retrieve_context e' query →
            Design.proceeds_as build_system_prompt e e' request convs).
  { intros e' Hid Hai Hctx. split; [exact Hctx|].
    by apply send_chat_message_same_context. }
  pose proof (send_chat_message_outcome build_system_prompt e request convs) as Hout.
  cbv zeta in Hout. fold query stored answer in Hout.
  split; [|split; [|split; [|split; [|split]]]].
  - intros x Hx. apply Hsame; try done. unfold ChatApi.retrieve_context.
    by rewrite (gather_ai_search_raises _ _ _ _ Hx), gather_ai_search_nothing.
  - intros x Hx. apply Hsame; try done. unfold ChatApi.retrieve_context.
    by rewrite (gather_vector_raises _ _ _ _ Hx), gather_vector_nothing.
  - intros x Hx. apply Hsame; try done. unfold ChatApi.retrieve_context.
    by rewrite (gather_themes_raises _ _ _ _ Hx), gather_themes_nothing.
  - intros x Hx. apply Hsame; try done. unfold ChatApi.retrieve_context.
    by rewrite (gather_statistics_raises _ _ _ Hx).
  - intros response Hr. by rewrite Hout, Hr.
  - intros x Hx. by rewrite Hout, Hx.
Qed.

Lemma lookups_fail_soft_generation_fails_hard_witness :
  Design.proceeds_as Samples.no_rendering
    (Samples.two_sources_down (Ok "Cold starts."))
    (ChatApi.with_ai_search (λ _ _, Ok []) (Samples.two_sources_down (Ok "Cold starts.")))
    Samples.biggest_issues ∅ ∧
  (ChatApi.send_chat_message Samples.no_rendering
     (Samples.two_sources_down (Raise "RetryError")) Samples.biggest_issues ∅).1
    = Raise "RetryError".
Proof.
  split.
  - exact (proj1 (lookups_fail_soft_generation_fails_hard Samples.no_rendering
                    (Samples.two_sources_down (Ok "Cold starts."))
                    Samples.biggest_issues ∅)
             "HTTPStatusError" eq_refl).
  - exact (proj2 (proj2 (proj2 (proj2 (proj2
             (lookups_fail_soft_generation_fails_hard Samples.no_rendering
                (Samples.two_sources_down (Raise "RetryError"))
                Samples.biggest_issues ∅)))))
             "RetryError" eq_refl).
Defined.

(** Scenario 3 of the design document: the search index and the theme
    table raise; the answer is generated from the vector hit and the
    statistics, and the request returns it with the one source. *)
Example two_sources_down_still_answers :
  ChatApi.retrieve_context (Samples.two_sources_down (Ok "Cold starts."))
    "What are our biggest issues this week?"
    = ([ChatApi.feedback_item (Samples.row "f1" "Cold starts are unbearable");
        ChatApi.statistics_item Samples.week_stats],
       [ChatApi.feedback_source
          [{| ChatApi.match_id := "f1"; ChatApi.match_score := Some 0.75%float |}]
          (Samples.row "f1" "Cold starts are unbearable")]) ∧
  is_ok (ChatApi.send_chat_message Samples.no_rendering
           (Samples.two_sources_down (Ok "Cold starts.")) Samples.biggest_issues ∅).1
    = true.
Proof. split; reflexivity. Qed.

(** Scenario 1 of the design document, with a model that answers within
    the vocabulary: negative sentiment, urgency 9, one theme, the row
    readable under its id. *)
Example cold_starts_created :
  let out := FeedbackApi.create_feedback (rt := ascii_runtime) Samples.all_up
               Samples.cold_starts Samples.empty_world in
  (Store.row_sentiment_label ∘ FeedbackApi.api_data) <$> out.1 = Ok "frustrated" ∧
  (Store.row_urgency ∘ FeedbackApi.api_data) <$> out.1 = Ok 9%Z ∧
  (Store.row_themes ∘ FeedbackApi.api_data) <$> out.1 = Ok [JStr "performance"] ∧
  Store.row_id <$> Store.feedback_table out.2 !! FeedbackApi.uuid4 Samples.all_up
    = Some (FeedbackApi.uuid4 Samples.all_up).
Proof. vm_compute. repeat split; reflexivity. Qed.

(* ===================================================================== *)
(** * The D1 client and the statements of the routes                      *)
(* ===================================================================== *)

Section Statements.
Import D1 FeedbackRoutes.

Lemma placeholders_in_app (a b : string) :
  placeholders_in (a ++ b) = (placeholders_in a + placeholders_in b)%nat.
Proof. induction a as [|c a IH]; simpl; [done|]. rewrite IH. lia. Qed.

Lemma placeholders_in_concat (sep : string) (l : list string) :
  placeholders_in sep = 0%nat →
  placeholders_in (String.concat sep l) = sum_list (placeholders_in <$> l).
Proof.
  intros Hsep. induction l as [|x [|y l] IH]; simpl in *; [done|lia|].
  rewrite !placeholders_in_app, Hsep, IH. lia.
Qed.

Lemma placeholders_in_in_placeholders (n : nat) :
  placeholders_in (in_placeholders n) = n.
Proof.
  unfold in_placeholders. rewrite placeholders_in_concat by done.
  induction n as [|n IH]; simpl; [done|]. f_equal. exact IH.
Qed.

Lemma sum_list_app_nat (l k : list nat) :
  sum_list (l ++ k) = (sum_list l + sum_list k)%nat.
Proof. induction l as [|x l IH]; simpl; [done|]. rewrite IH. lia. Qed.

Lemma add_in_balanced column values (acc : sql_filter) :
  placeholders_in column = 0%nat →
  sum_list (placeholders_in <$> acc.1) = length acc.2 →
  sum_list (placeholders_in <$> (add_in column values acc).1)
    = length (add_in column values acc).2.
Proof.
  intros Hc Hacc. unfold add_in. destruct values as [|v values]; [done|].
  cbn [fst snd]. rewrite fmap_app, sum_list_app_nat, length_app, Hacc.
  cbn [fmap list_fmap sum_list].
  rewrite !placeholders_in_app, Hc, placeholders_in_in_placeholders. simpl. lia.
Qed.

Lemma add_one_balanced clause value (acc : sql_filter) :
  placeholders_in clause = 1%nat →
  sum_list (placeholders_in <$> acc.1) = length acc.2 →
  sum_list (placeholders_in <$> (add_one clause value acc).1)
    = length (add_one clause value acc).2.
Proof.
  intros Hc Hacc. unfold add_one. destruct value as [v|]; [|done].
  cbn [fst snd]. rewrite fmap_app, sum_list_app_nat, length_app, Hacc.
  simpl. rewrite Hc. lia.
Qed.

Lemma list_filter_balanced q :
  sum_list (placeholders_in <$> (list_filter q).1) = length (list_filter q).2.
Proof.
  unfold list_filter.
  repeat first [ apply add_one_balanced; [reflexivity|]
               | apply add_in_balanced; [reflexivity|] ].
  reflexivity.
Qed.

Lemma placeholders_in_where conditions :
  placeholders_in (where_clause conditions) = sum_list (placeholders_in <$> conditions).
Proof.
  unfold where_clause. destruct conditions as [|c l]; [done|].
  by apply placeholders_in_concat.
Qed.

(** The text a list filter contributes depends on the number of its values
    only. *)
Lemma add_in_conditions column values values' (acc acc' : sql_filter) :
  length values = length values' → acc.1 = acc'.1 →
  (add_in column values acc).1 = (add_in column values' acc').1.
Proof.
  intros Hlen Hacc. unfold add_in.
  destruct values, values'; try discriminate; [done|].
  cbn [fst]. by rewrite Hacc, Hlen.
Qed.

Lemma add_one_conditions clause value value' (acc acc' : sql_filter) :
  bool_decide (is_Some value) = bool_decide (is_Some value') → acc.1 = acc'.1 →
  (add_one clause value acc).1 = (add_one clause value' acc').1.
Proof.
  intros Hsome Hacc. unfold add_one.
  destruct value, value'; cbn [fst]; by rewrite ?Hacc.
Qed.

End Statements.

(** X1. Every statement the D1 client builds binds as many parameters as its
    text has placeholders, when the table and column names carry no
    question mark: [insert] one per column, [update] one per assigned column
    and one for the id, [delete] one; the row [create_feedback] writes goes
    out as sixteen columns and sixteen parameters. *)
Theorem d1_statements_bind_every_placeholder
    (table id : string) (data : list (string * D1.value)) :
  D1.placeholders_in table = 0%nat →
  (∀ kv, kv ∈ data → D1.placeholders_in kv.1 = 0%nat) →
  D1.placeholders_in (D1.sql (D1.insert_statement table data))
    = length (D1.params (D1.insert_statement table data)) ∧
  length (D1.params (D1.insert_statement table data)) = length data ∧
  D1.placeholders_in (D1.sql (D1.update_statement table id data))
    = length (D1.params (D1.update_statement table id data)) ∧
  length (D1.params (D1.update_statement table id data)) = S (length data) ∧
  D1.placeholders_in (D1.sql (D1.delete_statement table id))
    = length (D1.params (D1.delete_statement table id)) ∧
  (∀ row,
     D1.placeholders_in
       (D1.sql (D1.insert_statement "feedback" (FeedbackRoutes.row_data row))) = 16%nat ∧
     length (D1.params (D1.insert_statement "feedback" (FeedbackRoutes.row_data row)))
       = 16%nat).
Proof.
  intros Htable Hcols.
  assert (Hnames : sum_list (D1.placeholders_in <$> (fst <$> data)) = 0%nat).
  { induction data as [|kv data IH]; [done|]. simpl.
    rewrite (Hcols kv) by left. apply IH. intros kv' Hkv'. apply Hcols. by right. }
  assert (Hmarks : sum_list (D1.placeholders_in <$> ((λ _ : string * D1.value, "?") <$> data))
                   = length data).
  { clear. induction data as [|kv data IH]; [done|]. simpl. f_equal. exact IH. }
  assert (Hset : sum_list (D1.placeholders_in
                             <$> ((λ kv : string * D1.value, kv.1 ++ " = ?") <$> data))
                 = length data).
  { clear Hnames Hmarks. induction data as [|kv data IH]; [done|]. simpl.
    rewrite placeholders_in_app, (Hcols kv) by left. simpl. f_equal.
    apply IH. intros kv' Hkv'. apply Hcols. by right. }
  unfold D1.insert_statement, D1.update_statement, D1.delete_statement. cbn [D1.sql D1.params].
  rewrite !placeholders_in_app, !placeholders_in_concat by done.
  rewrite Htable, Hnames, Hmarks, Hset, length_app, !length_fmap. simpl.
  repeat split; try lia.
Qed.

Lemma d1_statements_bind_every_placeholder_witness :
  D1.placeholders_in
    (D1.sql (D1.update_statement "feedback" "f1"
               [("status", D1.VText "resolved"); ("updated_at", D1.VText "2025-01-02")]))
  = 3%nat.
Proof.
  refine (eq_trans (proj1 (proj2 (proj2 (d1_statements_bind_every_placeholder
            "feedback" "f1"
            [("status", D1.VText "resolved"); ("updated_at", D1.VText "2025-01-02")]
            eq_refl _)))) _); [|reflexivity].
  intros kv Hkv. repeat (apply elem_of_cons in Hkv as [->|Hkv]; [reflexivity|]).
  by apply elem_of_nil in Hkv.
Defined.

(** X2. Whatever the filters of [list_feedback], its count statement and
    its page statement bind exactly as many parameters as their text has
    placeholders; the page statement binds the page size and the offset
    [(page - 1) * page_size] last. *)
Theorem list_feedback_binds_every_placeholder (q : FeedbackRoutes.list_query) :
  D1.placeholders_in (D1.sql (FeedbackRoutes.count_statement q))
    = length (D1.params (FeedbackRoutes.count_statement q)) ∧
  D1.placeholders_in (D1.sql (FeedbackRoutes.page_statement q))
    = length (D1.params (FeedbackRoutes.page_statement q)) ∧
  D1.params (FeedbackRoutes.page_statement q)
    = (D1.params (FeedbackRoutes.count_statement q)
         ++ [D1.VInt (FeedbackRoutes.page_size q);
             D1.VInt ((FeedbackRoutes.page q - 1) * FeedbackRoutes.page_size q)])%list.
Proof.
  pose proof (list_filter_balanced q) as Hb.
  unfold FeedbackRoutes.count_statement, FeedbackRoutes.page_statement.
  destruct (FeedbackRoutes.list_filter q) as [conditions params]. cbn [fst snd] in Hb.
  cbn [D1.sql D1.params].
  rewrite !placeholders_in_app, placeholders_in_where, Hb, length_app. simpl.
  repeat split; lia.
Qed.

(** X3. The text of the two statements of [list_feedback] depends on the
    request through the number of values of each list filter and through
    which of the other filters are set, and on nothing else: the values
    themselves, the search text among them, reach the database as bound
    parameters only. *)
Theorem list_feedback_text_ignores_values (q q' : FeedbackRoutes.list_query) :
  FeedbackRoutes.shape q = FeedbackRoutes.shape q' →
  D1.sql (FeedbackRoutes.count_statement q) = D1.sql (FeedbackRoutes.count_statement q') ∧
  D1.sql (FeedbackRoutes.page_statement q) = D1.sql (FeedbackRoutes.page_statement q').
Proof.
  unfold FeedbackRoutes.shape. intros [= H1 H2 H3 H4 H5 H6 H7].
  assert (Hc : (FeedbackRoutes.list_filter q).1 = (FeedbackRoutes.list_filter q').1).
  { unfold FeedbackRoutes.list_filter.
    repeat first [ apply add_one_conditions; [assumption|]
                 | apply add_in_conditions; [by rewrite !length_fmap|] ].
    reflexivity. }
  unfold FeedbackRoutes.count_statement, FeedbackRoutes.page_statement.
  destruct (FeedbackRoutes.list_filter q) as [c p],
           (FeedbackRoutes.list_filter q') as [c' p'].
  cbn [fst] in Hc. subst c'. by split.
Qed.

(* ===================================================================== *)
(** * Creating feedback: what is written, and when                        *)
(* ===================================================================== *)

Section CreateOutcome.
Import Schemas Store FeedbackApi.
Context {rt : Runtime}.

(** The three ways [create_feedback] ends once the queue took the message
    and the enrichment returned: the row insert raises, the vector insert
    raises, or both answer. *)
Lemma create_feedback_after_enrichment e feedback w body s t u v :
  queue_send_message e (work_message (uuid4 e) feedback) = Ok body →
  enrichment e feedback = Ok (s, t, u, v) →
  ∃ data meta,
    (row_id data = uuid4 e ∧ row_content data = content feedback ∧
     row_source data = source_value (source feedback) ∧
     row_sentiment data = WorkersAI.sentiment_score s ∧
     row_sentiment_label data = WorkersAI.sentiment_label s ∧
     row_urgency data = u ∧ row_themes data = t ∧ row_status data = "new") ∧
    let w1 := enqueue (work_message (uuid4 e) feedback) w in
    match d1_insert e data with
    | Raise x => create_feedback e feedback w = (Raise x, w1)
    | Ok _ =>
        match vectorize_insert e (uuid4 e) v meta with
        | Raise x => create_feedback e feedback w = (Raise x, insert_row data w1)
        | Ok _ =>
            create_feedback e feedback w
              = (Ok {| api_success := true; api_data := data |},
                 insert_vector (uuid4 e) v meta (insert_row data w1))
        end
    end.
Proof.
  intros Hq He. unfold create_feedback, bind, call, lift, ret. rewrite Hq.
  unfold enrichment in He.
  destruct (WorkersAI.analyze_sentiment _ _) as [s'|]; simpl in He; [|discriminate].
  destruct (WorkersAI.classify_themes _ _) as [t'|]; simpl in He; [|discriminate].
  destruct (WorkersAI.calculate_urgency _ _ _ _) as [u'|]; simpl in He; [|discriminate].
  destruct (WorkersAI.generate_embedding _ _) as [v'|]; simpl in He; [|discriminate].
  injection He as -> -> -> ->. simpl.
  match goal with
  | |- context [vectorize_insert e _ _ ?m] =>
      match goal with |- context [d1_insert e ?d] => exists d, m end
  end.
  split; [repeat split; reflexivity|]. cbv zeta.
  destruct (d1_insert e _) as [b1|x1]; [|reflexivity].
  destruct (vectorize_insert e _ _ _) as [b2|x2]; reflexivity.
Qed.

Lemma create_feedback_returns e feedback w resp w' :
  create_feedback e feedback w = (Ok resp, w') →
  ∃ body s t u v, queue_send_message e (work_message (uuid4 e) feedback) = Ok body ∧
                  enrichment e feedback = Ok (s, t, u, v).
Proof.
  intros Hc.
  destruct (queue_send_message e (work_message (uuid4 e) feedback)) as [body|x] eqn:Hq.
  2: { rewrite (create_feedback_queue_raises e feedback w x Hq) in Hc. discriminate. }
  destruct (enrichment e feedback) as [[[[s t] u] v]|x] eqn:He.
  2: { rewrite (create_feedback_enrichment_raises e feedback w body x Hq He) in Hc.
       discriminate. }
  by exists body, s, t, u, v.
Qed.

Lemma calculate_urgency_range ai text tier arr u :
  WorkersAI.calculate_urgency ai text tier arr = Ok u → (1 ≤ u ≤ 10)%Z.
Proof.
  unfold WorkersAI.calculate_urgency.
  destruct (WorkersAI.generate_text _ _ _ _) as [response|]; simpl; [|discriminate].
  destruct (int_of_str (str_strip response)) as [n|]; simpl; intros [= <-].
  - rewrite clamp_max_min. apply clamp_range.
  - rewrite tier_defaults_lookup. apply tier_default_range.
Qed.

Lemma enrichment_results e feedback s t u v :
  enrichment e feedback = Ok (s, t, u, v) →
  WorkersAI.sentiment_label s = WorkersAI.label_of_score (WorkersAI.sentiment_score s) ∧
  (1 ≤ u ≤ 10)%Z.
Proof.
  unfold enrichment. intros He.
  destruct (WorkersAI.analyze_sentiment _ _) as [s'|] eqn:Hs; simpl in He; [|discriminate].
  destruct (WorkersAI.classify_themes _ _) as [t'|]; simpl in He; [|discriminate].
  destruct (WorkersAI.calculate_urgency _ _ _ _) as [u'|] eqn:Hu; simpl in He; [|discriminate].
  destruct (WorkersAI.generate_embedding _ _) as [v'|]; simpl in He; [|discriminate].
  injection He as -> -> -> ->. split.
  - by eapply analyze_sentiment_label.
  - by eapply calculate_urgency_range.
Qed.

End CreateOutcome.

(** X4. When [create_feedback] returns, the feedback table holds the
    returned row under the identifier drawn for the request and is
    otherwise as before, the vector index gained an entry under that
    identifier and no other, and the work queue gained the request's message
    at its end. *)
Theorem create_feedback_writes_row_vector_message {rt : Runtime}
    (e : FeedbackApi.env) (feedback : Schemas.FeedbackCreate)
    (w w' : Store.world) (resp : FeedbackApi.ApiResponse) :
  FeedbackApi.create_feedback e feedback w = (Ok resp, w') →
  Store.row_id (FeedbackApi.api_data resp) = FeedbackApi.uuid4 e ∧
  Store.feedback_table w'
    = <[FeedbackApi.uuid4 e := FeedbackApi.api_data resp]> (Store.feedback_table w) ∧
  (∃ entry, Store.vector_index w'
            = <[FeedbackApi.uuid4 e := entry]> (Store.vector_index w)) ∧
  Store.work_queue w'
    = (Store.work_queue w
         ++ [FeedbackApi.work_message (FeedbackApi.uuid4 e) feedback])%list ∧
  (∀ i, i ≠ FeedbackApi.uuid4 e →
        Store.feedback_table w' !! i = Store.feedback_table w !! i ∧
        Store.vector_index w' !! i = Store.vector_index w !! i).
Proof.
  intros Hc.
  destruct (create_feedback_returns e feedback w resp w' Hc)
    as (body & s & t & u & v & Hq & He).
  destruct (create_feedback_after_enrichment e feedback w body s t u v Hq He)
    as (data & meta & (Hid & _) & Hcases). cbv zeta in Hcases.
  destruct (FeedbackApi.d1_insert e data) as [b1|x1]; [|congruence].
  destruct (FeedbackApi.vectorize_insert e _ v meta) as [b2|x2]; [|congruence].
  rewrite Hcases in Hc. injection Hc as <- <-. simpl. rewrite Hid.
  split; [done|]. split; [done|]. split; [by eexists|]. split; [done|].
  intros i Hi. by rewrite !lookup_insert_ne.
Qed.

Lemma create_feedback_writes_row_vector_message_witness :
  ∃ resp w',
    FeedbackApi.create_feedback (rt := ascii_runtime) Samples.all_up Samples.cold_starts
      Samples.empty_world = (Ok resp, w') ∧
    Store.feedback_table w'
      = <[FeedbackApi.uuid4 Samples.all_up := FeedbackApi.api_data resp]> ∅.
Proof.
  eexists _, _. split; [vm_compute; reflexivity|].
  refine (proj1 (proj2 (create_feedback_writes_row_vector_message (rt := ascii_runtime)
            Samples.all_up Samples.cold_starts Samples.empty_world _ _ _))).
  vm_compute. reflexivity.
Defined.

(** X5. The row [create_feedback] returns carries an urgency within
    [1,10], the label of its own sentiment score, the status "new", and
    the content and source of the request. *)
Theorem created_row_is_well_formed {rt : Runtime}
    (e : FeedbackApi.env) (feedback : Schemas.FeedbackCreate)
    (w w' : Store.world) (resp : FeedbackApi.ApiResponse) :
  FeedbackApi.create_feedback e feedback w = (Ok resp, w') →
  let row := FeedbackApi.api_data resp in
  (1 ≤ Store.row_urgency row ≤ 10)%Z ∧
  Store.row_sentiment_label row = WorkersAI.label_of_score (Store.row_sentiment row) ∧
  Store.row_status row = "new" ∧
  Store.row_content row = Schemas.content feedback ∧
  Store.row_source row = Schemas.source_value (Schemas.source feedback).
Proof.
  intros Hc row. subst row.
  destruct (create_feedback_returns e feedback w resp w' Hc)
    as (body & s & t & u & v & Hq & He).
  destruct (enrichment_results e feedback s t u v He) as [Hlabel Hrange].
  destruct (create_feedback_after_enrichment e feedback w body s t u v Hq He)
    as (data & meta & (_ & Hcontent & Hsource & Hs & Hl & Hu & _ & Hstatus) & Hcases).
  cbv zeta in Hcases.
  destruct (FeedbackApi.d1_insert e data) as [b1|x1]; [|congruence].
  destruct (FeedbackApi.vectorize_insert e _ v meta) as [b2|x2]; [|congruence].
  rewrite Hcases in Hc. injection Hc as <- <-. simpl.
  rewrite Hu, Hl, Hs, Hstatus, Hcontent, Hsource. done.
Qed.

Lemma created_row_is_well_formed_witness :
  ∃ resp, (FeedbackApi.create_feedback (rt := ascii_runtime) Samples.all_up
             Samples.cold_starts Samples.empty_world).1 = Ok resp ∧
          (1 ≤ Store.row_urgency (FeedbackApi.api_data resp) ≤ 10)%Z.
Proof.
  eexists. split; [vm_compute; reflexivity|].
  refine (proj1 (created_row_is_well_formed (rt := ascii_runtime)
            Samples.all_up Samples.cold_starts Samples.empty_world _ _ _)).
  vm_compute. reflexivity.
Defined.

(** X6. There is no rollback: when the row insert answers and the vector
    insert raises, [create_feedback] raises that exception, the row stays
    in the feedback table under the drawn identifier, and the vector index
    is as before. *)
Theorem vector_failure_leaves_the_row {rt : Runtime}
    (e : FeedbackApi.env) (feedback : Schemas.FeedbackCreate) (w : Store.world)
    body out x :
  FeedbackApi.queue_send_message e
    (FeedbackApi.work_message (FeedbackApi.uuid4 e) feedback) = Ok body →
  FeedbackApi.enrichment e feedback = Ok out →
  (∀ row, is_ok (FeedbackApi.d1_insert e row) = true) →
  (∀ i v meta, FeedbackApi.vectorize_insert e i v meta = Raise x) →
  (FeedbackApi.create_feedback e feedback w).1 = Raise x ∧
  (∃ row, Store.feedback_table (FeedbackApi.create_feedback e feedback w).2
            !! FeedbackApi.uuid4 e = Some row ∧
          Store.row_id row = FeedbackApi.uuid4 e) ∧
  Store.vector_index (FeedbackApi.create_feedback e feedback w).2 = Store.vector_index w.
Proof.
  intros Hq He Hd1 Hvec. destruct out as [[[s t] u] v].
  destruct (create_feedback_after_enrichment e feedback w body s t u v Hq He)
    as (data & meta & (Hid & _) & Hcases). cbv zeta in Hcases.
  specialize (Hd1 data). destruct (FeedbackApi.d1_insert e data) as [b1|x1]; [|discriminate].
  rewrite Hvec in Hcases. rewrite Hcases. simpl.
  split; [done|]. split; [|done].
  exists data. by rewrite Hid, lookup_insert_eq.
Qed.

Lemma vector_failure_leaves_the_row_witness :
  (FeedbackApi.create_feedback (rt := ascii_runtime) MoreSamples.vector_index_down
     Samples.cold_starts Samples.empty_world).1 = Raise "HTTPStatusError" ∧
  Store.vector_index
    (FeedbackApi.create_feedback (rt := ascii_runtime) MoreSamples.vector_index_down
       Samples.cold_starts Samples.empty_world).2 = ∅.
Proof.
  assert (He : ∃ out, FeedbackApi.enrichment (rt := ascii_runtime)
                        MoreSamples.vector_index_down Samples.cold_starts = Ok out)
    by (eexists; vm_compute; reflexivity).
  destruct He as [out He].
  pose proof (vector_failure_leaves_the_row (rt := ascii_runtime)
                MoreSamples.vector_index_down Samples.cold_starts Samples.empty_world
                (JObj [("success", JBool true)]) out "HTTPStatusError"
                eq_refl He (λ _, eq_refl) (λ _ _ _, eq_refl)) as (Hfail & _ & Hindex).
  split; [exact Hfail | exact Hindex].
Defined.

Lemma list_feedback_text_ignores_values_witness :
  D1.sql (FeedbackRoutes.page_statement
            (MoreSamples.by_source [Schemas.GITHUB; Schemas.EMAIL] (Some "cold start")))
  = D1.sql (FeedbackRoutes.page_statement
              (MoreSamples.by_source [Schemas.FORUM; Schemas.TWITTER]
                 (Some "x' OR 1=1 --"))).
Proof.
  exact (proj2 (list_feedback_text_ignores_values
                  (MoreSamples.by_source [Schemas.GITHUB; Schemas.EMAIL] (Some "cold start"))
                  (MoreSamples.by_source [Schemas.FORUM; Schemas.TWITTER]
                     (Some "x' OR 1=1 --"))
                  eq_refl)).
Defined.

(* ===================================================================== *)
(** * The model calls: failures and missing answers                       *)
(* ===================================================================== *)

Section ModelFailures.
Import WorkersAI.

Lemma unsuccessful_has_no_result (r : reply) :
  success r = false → truthy_result r = None.
Proof. unfold truthy_result. by intros ->. Qed.

Lemma generate_embedding_unsuccessful ai text :
  (∀ req r, ai EMBEDDING_MODEL req = Ok r → success r = false) →
  is_ok (generate_embedding ai text) = false.
Proof.
  intros H. unfold generate_embedding.
  destruct (ai _ _) as [r|] eqn:Hr; simpl; [|done].
  by rewrite (unsuccessful_has_no_result r (H _ _ Hr)).
Qed.

Lemma analyze_sentiment_unsuccessful ai text :
  (∀ req r, ai SENTIMENT_MODEL req = Ok r → success r = false) →
  is_ok (analyze_sentiment ai text) = false.
Proof.
  intros H. unfold analyze_sentiment.
  destruct (ai _ _) as [r|] eqn:Hr; simpl; [|done].
  by rewrite (unsuccessful_has_no_result r (H _ _ Hr)).
Qed.

Lemma generate_text_unsuccessful ai prompt system_prompt max_tokens :
  (∀ req r, ai TEXT_GENERATION_MODEL req = Ok r → success r = false) →
  is_ok (generate_text ai prompt system_prompt max_tokens) = false.
Proof.
  intros H. unfold generate_text.
  destruct (ai _ _) as [r|] eqn:Hr; simpl; [|done].
  by rewrite (unsuccessful_has_no_result r (H _ _ Hr)).
Qed.

Context {rt : Runtime}.

Lemma classify_themes_raises ai text x :
  generate_text ai (classify_prompt text) (Some classify_system_prompt) 100 = Raise x →
  classify_themes ai text = Raise x.
Proof. intros H. unfold classify_themes. by rewrite H. Qed.

Lemma classify_themes_returns ai text response :
  generate_text ai (classify_prompt text) (Some classify_system_prompt) 100 = Ok response →
  is_ok (classify_themes ai text) = true.
Proof.
  intros H. unfold classify_themes. rewrite H. simpl.
  destruct (json_loads (str_strip response)) as [[]|]; reflexivity.
Qed.

Lemma calculate_urgency_raises ai text tier arr x :
  generate_text ai (urgency_prompt text tier arr) (Some urgency_system_prompt) 10 = Raise x →
  calculate_urgency ai text tier arr = Raise x.
Proof. intros H. unfold calculate_urgency. by rewrite H. Qed.

Lemma calculate_urgency_returns ai text tier arr response :
  generate_text ai (urgency_prompt text tier arr) (Some urgency_system_prompt) 10
    = Ok response →
  is_ok (calculate_urgency ai text tier arr) = true.
Proof.
  intros H. unfold calculate_urgency. rewrite H. simpl.
  by destruct (int_of_str (str_strip response)).
Qed.

Lemma is_ok_false_raises {A} (m : Py.result A) : is_ok m = false → ∃ x, m = Raise x.
Proof. destruct m; [discriminate | eauto]. Qed.

(** An endpoint that never reports success for one of the three models
    makes the enrichment raise. *)
Lemma enrichment_unsuccessful e feedback m :
  (∀ req r, FeedbackApi.call_model e m req = Ok r → success r = false) →
  ∃ x, FeedbackApi.enrichment e feedback = Raise x.
Proof.
  intros H. apply is_ok_false_raises. unfold FeedbackApi.enrichment.
  destruct (analyze_sentiment _ _) as [s|] eqn:Hs; simpl; [|done].
  destruct (classify_themes _ _) as [t|] eqn:Ht; simpl; [|done].
  destruct (calculate_urgency _ _ _ _) as [u|] eqn:Hu; simpl; [|done].
  destruct (generate_embedding _ _) as [v|] eqn:Hv; simpl; [|done].
  destruct m.
  - pose proof (generate_embedding_unsuccessful _ (Schemas.content feedback) H) as Hno.
    by rewrite Hv in Hno.
  - pose proof (analyze_sentiment_unsuccessful _ (Schemas.content feedback) H) as Hno.
    by rewrite Hs in Hno.
  - destruct (generate_text (FeedbackApi.call_model e) (classify_prompt (Schemas.content feedback))
                (Some classify_system_prompt) 100) as [response|x] eqn:Hg.
    + pose proof (generate_text_unsuccessful _ (classify_prompt (Schemas.content feedback))
                    (Some classify_system_prompt) 100 H) as Hno.
      by rewrite Hg in Hno.
    + by rewrite (classify_themes_raises _ _ _ Hg) in Ht.
Qed.

End ModelFailures.

(** X7. The parse fallbacks do not cover a failed model call: theme
    classification and urgency scoring raise the exception of their
    generation call when it raises, and return whenever it returns, whatever
    text it returned. *)
Theorem scoring_raises_only_with_the_model {rt : Runtime}
    (ai : WorkersAI.model_api) (text tier : string) (arr : Z) :
  (∀ x, WorkersAI.generate_text ai (WorkersAI.classify_prompt text)
          (Some WorkersAI.classify_system_prompt) 100 = Raise x →
        WorkersAI.classify_themes ai text = Raise x) ∧
  (∀ response, WorkersAI.generate_text ai (WorkersAI.classify_prompt text)
                 (Some WorkersAI.classify_system_prompt) 100 = Ok response →
               is_ok (WorkersAI.classify_themes ai text) = true) ∧
  (∀ x, WorkersAI.generate_text ai (WorkersAI.urgency_prompt text tier arr)
          (Some WorkersAI.urgency_system_prompt) 10 = Raise x →
        WorkersAI.calculate_urgency ai text tier arr = Raise x) ∧
  (∀ response, WorkersAI.generate_text ai (WorkersAI.urgency_prompt text tier arr)
                 (Some WorkersAI.urgency_system_prompt) 10 = Ok response →
               is_ok (WorkersAI.calculate_urgency ai text tier arr) = true).
Proof.
  split; [apply classify_themes_raises|].
  split; [apply classify_themes_returns|].
  split; [apply calculate_urgency_raises | apply calculate_urgency_returns].
Qed.

Lemma scoring_raises_only_with_the_model_witness :
  WorkersAI.classify_themes (rt := ascii_runtime)
    (Samples.scripted_model [] (Raise "RetryError") (Ok "not a number") (Ok "") (Ok []))
    "Cold starts" = Raise "RetryError" ∧
  is_ok (WorkersAI.calculate_urgency (rt := ascii_runtime)
           (Samples.scripted_model [] (Raise "RetryError") (Ok "not a number") (Ok "") (Ok []))
           "Cold starts" "pro" 0) = true.
Proof.
  pose proof (scoring_raises_only_with_the_model (rt := ascii_runtime)
                (Samples.scripted_model [] (Raise "RetryError") (Ok "not a number")
                   (Ok "") (Ok []))
                "Cold starts" "pro" 0) as (Hthemes & _ & _ & Hurgency).
  split; [exact (Hthemes "RetryError" eq_refl) | exact (Hurgency "not a number" eq_refl)].
Defined.

(** X8. A model endpoint whose body never reports success, for any one of
    the embedding, sentiment or generation models, makes [create_feedback]
    fail without writing: the feedback table and the vector index are as
    before. *)
Theorem unsuccessful_model_body_fails_create {rt : Runtime}
    (e : FeedbackApi.env) (feedback : Schemas.FeedbackCreate) (w : Store.world)
    (m : WorkersAI.model) :
  (∀ req r, FeedbackApi.call_model e m req = Ok r → WorkersAI.success r = false) →
  is_ok (FeedbackApi.create_feedback e feedback w).1 = false ∧
  Store.feedback_table (FeedbackApi.create_feedback e feedback w).2
    = Store.feedback_table w ∧
  Store.vector_index (FeedbackApi.create_feedback e feedback w).2 = Store.vector_index w.
Proof.
  intros H.
  destruct (FeedbackApi.queue_send_message e
              (FeedbackApi.work_message (FeedbackApi.uuid4 e) feedback))
    as [body|y] eqn:Hq.
  - destruct (enrichment_unsuccessful e feedback m H) as [x Hx].
    by rewrite (create_feedback_enrichment_raises e feedback w body x Hq Hx).
  - by rewrite (create_feedback_queue_raises e feedback w y Hq).
Qed.

Lemma unsuccessful_model_body_fails_create_witness :
  is_ok (FeedbackApi.create_feedback (rt := ascii_runtime) MoreSamples.sentiment_unsuccessful
           Samples.cold_starts Samples.empty_world).1 = false.
Proof.
  refine (proj1 (unsuccessful_model_body_fails_create (rt := ascii_runtime)
                   MoreSamples.sentiment_unsuccessful Samples.cold_starts
                   Samples.empty_world WorkersAI.SENTIMENT_MODEL _)).
  intros req r [= <-]. reflexivity.
Defined.

Lemma find_label_none (name : string) (scores : list WorkersAI.labelled_score) :
  (∀ s, s ∈ scores → WorkersAI.label s ≠ name) →
  find (λ s, String.eqb (WorkersAI.label s) name) scores = None.
Proof.
  induction scores as [|s scores IH]; intros H; [done|]. simpl.
  destruct (String.eqb_spec (WorkersAI.label s) name) as [Heq|_].
  - by destruct (H s); [left|].
  - apply IH. intros s' Hs'. apply H. by right.
Qed.

(** X9. A classifier answer that carries neither a POSITIVE nor a NEGATIVE
    entry reads as both probabilities being zero: the score is 0 and the
    label is neutral. *)
Theorem sentiment_without_labels_is_neutral
    (ai : WorkersAI.model_api) (text : string) (r : WorkersAI.reply)
    (scores : list WorkersAI.labelled_score) (others : list (list WorkersAI.labelled_score)) :
  ai WorkersAI.SENTIMENT_MODEL (WorkersAI.TextInput text) = Ok r →
  WorkersAI.truthy_result r = Some (WorkersAI.Classification (scores :: others)) →
  (∀ s, s ∈ scores →
        WorkersAI.label s ≠ "POSITIVE" ∧ WorkersAI.label s ≠ "NEGATIVE") →
  WorkersAI.analyze_sentiment ai text
    = Ok (WorkersAI.SentimentResult 0%float "neutral" scores).
Proof.
  intros Hr Ht Hlabels. unfold WorkersAI.analyze_sentiment. rewrite Hr. simpl. rewrite Ht.
  unfold next_or.
  rewrite !find_label_none by (intros s Hs; by destruct (Hlabels s Hs)). reflexivity.
Qed.

Lemma sentiment_without_labels_is_neutral_witness :
  WorkersAI.analyze_sentiment MoreSamples.unlabelled_model "Cold starts"
    = Ok (WorkersAI.SentimentResult 0%float "neutral"
            [WorkersAI.LabelledScore "LABEL_0" 0.9; WorkersAI.LabelledScore "LABEL_1" 0.1]).
Proof.
  apply (sentiment_without_labels_is_neutral MoreSamples.unlabelled_model "Cold starts"
           _ _ [] eq_refl eq_refl).
  intros s Hs. repeat (apply elem_of_cons in Hs as [->|Hs]; [by split|]).
  by apply elem_of_nil in Hs.
Defined.

(* ===================================================================== *)
(** * Chat: what a request leaves in the session map                      *)
(* ===================================================================== *)

Section SessionContents.
Import Schemas ChatApi ChatSummary.
Variable build_system_prompt : list context_item → string.
Implicit Types (convs : gmap string (list WorkersAI.message))
               (history : list WorkersAI.message).

Lemma record_turns_ends_with_pair message response history :
  turn_pair message response `suffix_of` record_turns message response history.
Proof.
  unfold record_turns, turn_pair, last_n. case_match eqn:Hlen; [|by apply suffix_app_r].
  rewrite drop_app_le; [by apply suffix_app_r|].
  rewrite length_app. cbn [length]. lia.
Qed.

Lemma record_turns_grows message response history :
  length (record_turns message response history) = (50 `min` (length history + 2))%nat.
Proof.
  unfold record_turns, last_n. case_match eqn:Hlen.
  - apply Nat.ltb_lt in Hlen. rewrite length_drop. rewrite length_app in *.
    cbn [length] in *. lia.
  - apply Nat.ltb_ge in Hlen. rewrite length_app in *. cbn [length] in *. lia.
Qed.

Lemma send_chat_message_frame e request convs c :
  c ≠ resolve_conversation_id e request →
  (send_chat_message build_system_prompt e request convs).2 !! c = convs !! c.
Proof.
  intros Hc. unfold send_chat_message.
  set (c0 := resolve_conversation_id e request) in *.
  assert (Hens : ensure_session c0 convs !! c = convs !! c).
  { unfold ensure_session. destruct (convs !! c0); [done|]. by rewrite lookup_insert_ne. }
  destruct (retrieve_context e (message request)) as [context sources].
  destruct (generate_answer _ _ _ _ _); simpl; [|done].
  by rewrite lookup_insert_ne.
Qed.

Lemma send_chat_message_returns e request convs resp convs' :
  send_chat_message build_system_prompt e request convs = (Ok resp, convs') →
  let c := resolve_conversation_id e request in
  let stored := default [] (convs !! c) in
  response_conversation_id resp = c ∧
  sources resp = (retrieve_context e (message request)).2 ∧
  convs' !! c = Some (record_turns (message request) (response_message resp) stored).
Proof.
  intros Hsend c stored. subst c stored. unfold send_chat_message in Hsend.
  rewrite ensure_session_stored in Hsend.
  destruct (retrieve_context e (message request)) as [context srcs].
  destruct (generate_answer _ _ _ _ _) as [response|]; [|discriminate].
  injection Hsend as <- <-. simpl. by rewrite lookup_insert_eq.
Qed.

(** Histories made of whole exchanges stay so under the operations of the
    handler. *)
Lemma paired_length history : paired history → ∃ n, length history = (2 * n)%nat.
Proof.
  intros [exchanges ->]. exists (length exchanges).
  induction exchanges as [|x l IH]; [done|].
  rewrite bind_cons, length_app, IH. simpl. lia.
Qed.

Lemma paired_app_pair history message response :
  paired history → paired (history ++ turn_pair message response).
Proof.
  intros [exchanges ->]. exists (exchanges ++ [(message, response)])%list.
  rewrite bind_app. reflexivity.
Qed.

Lemma paired_drop_even history k : paired history → paired (drop (2 * k) history).
Proof.
  intros [exchanges ->]. exists (drop k exchanges).
  revert k. induction exchanges as [|x l IH]; intros k.
  - rewrite drop_nil. simpl. by rewrite drop_nil.
  - destruct k as [|k]; [done|].
    replace (2 * S k)%nat with (S (S (2 * k))) by lia.
    rewrite bind_cons. simpl. apply IH.
Qed.

Lemma paired_last_n_even history k : paired history → paired (last_n (2 * k) history).
Proof.
  intros Hp. destruct (paired_length history Hp) as [n Hn].
  unfold last_n. rewrite Hn.
  replace (2 * n - 2 * k)%nat with (2 * (n - k))%nat by lia.
  by apply paired_drop_even.
Qed.

Lemma record_turns_paired message response history :
  paired history → paired (record_turns message response history).
Proof.
  intros Hp. unfold record_turns. fold (turn_pair message response).
  pose proof (paired_app_pair history message response Hp) as Hp'.
  case_match; [|done]. by apply (paired_last_n_even _ 25).
Qed.

Lemma paired_nil : paired [].
Proof. by exists []. Qed.

Lemma ensure_session_paired c convs : all_paired convs → all_paired (ensure_session c convs).
Proof.
  intros Hp. unfold ensure_session. destruct (convs !! c); [done|].
  intros c' h. rewrite lookup_insert. case_decide; [|by apply Hp].
  intros [= <-]. apply paired_nil.
Qed.

Lemma step_paired convs ev : all_paired convs → all_paired (step build_system_prompt convs ev).
Proof.
  intros Hp. destruct ev as [e request|e request|c message response|c|c]; simpl.
  - unfold send_chat_message.
    set (c0 := resolve_conversation_id e request).
    pose proof (ensure_session_paired c0 convs Hp) as Hp'.
    destruct (retrieve_context e (message request)) as [context srcs].
    destruct (generate_answer _ _ _ _ _) as [response|]; simpl; [|done].
    intros c' h. rewrite lookup_insert. case_decide; [|by apply Hp'].
    intros [= <-]. apply record_turns_paired.
    destruct (ensure_session c0 convs !! c0) eqn:Hc0; [by eapply Hp' | apply paired_nil].
  - by apply ensure_session_paired.
  - unfold complete. destruct (convs !! c) eqn:Hc; [|done]. simpl.
    intros c' h. rewrite lookup_insert. case_decide; [|by apply Hp].
    intros [= <-]. apply record_turns_paired. by eapply Hp.
  - done.
  - intros c' h. unfold clear_chat_history. rewrite lookup_delete.
    case_decide; [done | by apply Hp].
Qed.

Lemma run_paired events : all_paired (run build_system_prompt events).
Proof.
  unfold run.
  assert (Hgen : ∀ convs, all_paired convs →
                   all_paired (fold_left (step build_system_prompt) events convs)).
  { induction events as [|ev events IH]; intros convs Hp; [done|].
    simpl. by apply IH, step_paired. }
  apply Hgen. intros c h. by rewrite lookup_empty.
Qed.

End SessionContents.

(** X10. When a chat request returns, its response names the session it
    was served in and carries the retrieved sources, at most ten and of
    pairwise distinct ids; reading that session's history returns a list
    that ends with the user's message and the assistant's answer, is a
    suffix of the previous history extended by these two turns, and is two
    turns longer than before up to the capacity of fifty. *)
Theorem answered_chat_is_recorded
    (build_system_prompt : list ChatApi.context_item → string)
    (e : ChatApi.env) (request : Schemas.ChatRequest)
    (convs convs' : gmap string (list WorkersAI.message)) (resp : Schemas.ChatResponse) :
  ChatApi.send_chat_message build_system_prompt e request convs = (Ok resp, convs') →
  let c := Schemas.response_conversation_id resp in
  let before := default [] (convs !! c) in
  let exchange := ChatSummary.turn_pair (Schemas.message request)
                    (Schemas.response_message resp) in
  c = ChatApi.resolve_conversation_id e request ∧
  (length (Schemas.sources resp) ≤ 10)%nat ∧
  NoDup (Schemas.id <$> Schemas.sources resp) ∧
  ∃ history,
    ChatApi.get_chat_history c convs' = Ok history ∧
    exchange `suffix_of` history ∧
    history `suffix_of` (before ++ exchange)%list ∧
    length history = (50 `min` (length before + 2))%nat.
Proof.
  intros Hsend c before exchange. subst exchange before c.
  destruct (send_chat_message_returns build_system_prompt e request convs resp convs' Hsend)
    as (Hc & Hsrc & Hstored).
  rewrite Hc. split; [done|]. rewrite Hsrc.
  assert (Hu : (ChatApi.retrieve_context e (Schemas.message request)).2
               = take 10 (Design.first_occurrences
                            (ChatApi.gather_statistics e
                               (ChatApi.gather_themes e (Schemas.message request)
                                  (ChatApi.gather_vector e (Schemas.message request)
                                     (ChatApi.gather_ai_search e (Schemas.message request)
                                        ([], []))))).2)).
  { unfold ChatApi.retrieve_context, ChatApi.unique_sources. simpl.
    by rewrite unique_by_id_empty. }
  rewrite Hu. split; [rewrite length_take; lia|].
  split.
  { eapply sublist_NoDup; [apply first_occurrences_NoDup|].
    apply fmap_sublist, sublist_take. }
  eexists. unfold ChatApi.get_chat_history. rewrite Hstored.
  split; [reflexivity|]. split; [apply record_turns_ends_with_pair|].
  split; [apply record_turns_suffix | apply record_turns_grows].
Qed.

Lemma answered_chat_is_recorded_witness :
  ∃ resp convs',
    ChatApi.send_chat_message Samples.no_rendering
      (Samples.two_sources_down (Ok "Acme.")) Samples.follow_up ∅ = (Ok resp, convs') ∧
    ChatApi.resolve_conversation_id (Samples.two_sources_down (Ok "Acme.")) Samples.follow_up
      = "s1" ∧
    Schemas.response_conversation_id resp = "s1".
Proof.
  eexists _, _. split; [vm_compute; reflexivity|]. split; [reflexivity|].
  refine (eq_trans (proj1 (answered_chat_is_recorded Samples.no_rendering
            (Samples.two_sources_down (Ok "Acme.")) Samples.follow_up ∅ _ _ _)) _);
    [vm_compute; reflexivity | reflexivity].
Defined.

(** X11. A chat request, answered or failed, leaves every other session of
    the map as it was. *)
Theorem chat_touches_one_session
    (build_system_prompt : list ChatApi.context_item → string)
    (e : ChatApi.env) (request : Schemas.ChatRequest)
    (convs : gmap string (list WorkersAI.message)) (c : string) :
  c ≠ ChatApi.resolve_conversation_id e request →
  (ChatApi.send_chat_message build_system_prompt e request convs).2 !! c = convs !! c.
Proof. apply send_chat_message_frame. Qed.

Lemma chat_touches_one_session_witness :
  (ChatApi.send_chat_message Samples.no_rendering
     (Samples.two_sources_down (Ok "Acme.")) Samples.follow_up
     {[ "s2" := ChatSummary.turn_pair "Hello" "Hi." ]}).2 !! "s2"
  = Some (ChatSummary.turn_pair "Hello" "Hi.").
Proof.
  refine (eq_trans (chat_touches_one_session Samples.no_rendering
            (Samples.two_sources_down (Ok "Acme.")) Samples.follow_up
            {[ "s2" := ChatSummary.turn_pair "Hello" "Hi." ]} "s2" _) _).
  - vm_compute. discriminate.
  - apply lookup_singleton_eq.
Defined.

(** X12. In the session map left by any run of the chat routes, every
    stored history is made of whole exchanges, a user turn followed by the
    assistant's turn, and so is the history replayed into a prompt: the
    eviction at fifty turns and the cut to the last ten never split an
    exchange, and a replayed history starts with a user turn. *)
Theorem histories_are_whole_exchanges
    (build_system_prompt : list ChatApi.context_item → string)
    (events : list ChatApi.event) (c : string) (history : list WorkersAI.message) :
  ChatApi.run build_system_prompt events !! c = Some history →
  ChatSummary.paired history ∧
  ChatSummary.paired (ChatApi.replayed_history history) ∧
  (∃ n, length history = (2 * n)%nat) ∧
  (∀ first rest, ChatApi.replayed_history history = first :: rest →
                 WorkersAI.role first = "user").
Proof.
  intros Hc. pose proof (run_paired build_system_prompt events c history Hc) as Hp.
  pose proof (paired_last_n_even history 5 Hp) as Hr.
  split; [done|]. split; [done|]. split; [by apply paired_length|].
  intros first rest Hfirst. unfold ChatApi.replayed_history in Hfirst.
  change (2 * 5)%nat with 10%nat in Hr. rewrite Hfirst in Hr.
  destruct Hr as [[|[m r] exchanges] Heq]; [discriminate|].
  rewrite bind_cons in Heq. by injection Heq as -> _.
Qed.

Lemma histories_are_whole_exchanges_witness :
  ChatSummary.paired (ChatSummary.turn_pair "Which customers?" "Acme.").
Proof.
  refine (proj1 (histories_are_whole_exchanges Samples.no_rendering
                   [ChatApi.Chat (Samples.two_sources_down (Ok "Acme.")) Samples.follow_up]
                   "s1" _ _)).
  vm_compute. reflexivity.
Defined.

(** X13. Clearing a session removes it and nothing else: its history is
    not found afterwards, the other sessions are untouched, clearing an
    absent session changes nothing, and a chat request served after the
    clear is served as in the emptied session. *)
Theorem clear_forgets_one_session
    (build_system_prompt : list ChatApi.context_item → string)
    (convs : gmap string (list WorkersAI.message)) (c : string) :
  ChatApi.get_chat_history c (ChatApi.clear_chat_history c convs)
    = Raise "HTTPException 404: Conversation not found" ∧
  (∀ c', c' ≠ c → ChatApi.clear_chat_history c convs !! c' = convs !! c') ∧
  (convs !! c = None → ChatApi.clear_chat_history c convs = convs) ∧
  (∀ e request,
     ChatApi.resolve_conversation_id e request = c →
     ChatApi.send_chat_message build_system_prompt e request
       (ChatApi.clear_chat_history c convs)
     = ChatApi.send_chat_message build_system_prompt e request (<[c := []]> convs)).
Proof.
  unfold ChatApi.clear_chat_history, ChatApi.get_chat_history.
  split; [by rewrite lookup_delete_eq|].
  split; [intros c' Hc'; by rewrite lookup_delete_ne|].
  split; [by apply delete_id|].
  intros e request Hc.
  assert (H1 : ChatApi.ensure_session c (delete c convs) = <[c := []]> convs).
  { unfold ChatApi.ensure_session. by rewrite lookup_delete_eq, insert_delete_eq. }
  assert (H2 : ChatApi.ensure_session c (<[c := []]> convs) = <[c := []]> convs).
  { unfold ChatApi.ensure_session. by rewrite lookup_insert_eq. }
  unfold ChatApi.send_chat_message. by rewrite Hc, H1, H2.
Qed.

(** X14. With the search index, the vector lookup, the theme table and the
    statistics query all failing, the retrieved context and the sources are
    empty, and the request is still answered when the generation call
    answers, with no source. *)
Theorem all_lookups_down_still_answers
    (build_system_prompt : list ChatApi.context_item → string)
    (e : ChatApi.env) (request : Schemas.ChatRequest)
    (convs : gmap string (list WorkersAI.message)) (x1 x2 x3 x4 : string) :
  let query := Schemas.message request in
  ChatApi.ai_search_search e query 5 = Raise x1 →
  ChatApi.vector_lookup e query = Raise x2 →
  ChatApi.d1_query_themes e ("%" ++ query ++ "%") = Raise x3 →
  ChatApi.d1_query_stats e = Raise x4 →
  ChatApi.retrieve_context e query = ([], []) ∧
  (∀ response,
     ChatApi.generate_answer build_system_prompt e [] request
       (default [] (convs !! ChatApi.resolve_conversation_id e request)) = Ok response →
     (ChatApi.send_chat_message build_system_prompt e request convs).1
       = Ok {| Schemas.response_message := response; Schemas.sources := [];
               Schemas.response_conversation_id :=
                 ChatApi.resolve_conversation_id e request |}).
Proof.
  intros query H1 H2 H3 H4.
  assert (Hctx : ChatApi.retrieve_context e query = ([], [])).
  { unfold ChatApi.retrieve_context.
    rewrite (gather_ai_search_raises _ _ _ _ H1), (gather_vector_raises _ _ _ _ H2),
      (gather_themes_raises _ _ _ _ H3), (gather_statistics_raises _ _ _ H4).
    reflexivity. }
  split; [exact Hctx|]. intros response Hgen.
  pose proof (send_chat_message_outcome build_system_prompt e request convs) as Hout.
  cbv zeta in Hout. fold query in Hout. rewrite Hctx in Hout. simpl in Hout.
  by rewrite Hout, Hgen.
Qed.

Lemma clear_forgets_one_session_witness :
  ChatApi.clear_chat_history "s1" {[ "s2" := ChatSummary.turn_pair "Hello" "Hi." ]}
  = {[ "s2" := ChatSummary.turn_pair "Hello" "Hi." ]}.
Proof.
  refine (proj1 (proj2 (proj2 (clear_forgets_one_session Samples.no_rendering
            {[ "s2" := ChatSummary.turn_pair "Hello" "Hi." ]} "s1"))) _).
  apply lookup_singleton_ne. discriminate.
Defined.

Lemma all_lookups_down_still_answers_witness :
  ChatApi.retrieve_context (MoreSamples.all_down (Ok "No data yet."))
    "What are our biggest issues this week?" = ([], []).
Proof.
  exact (proj1 (all_lookups_down_still_answers Samples.no_rendering
                  (MoreSamples.all_down (Ok "No data yet.")) Samples.biggest_issues ∅
                  "HTTPStatusError" "RetryError" "HTTPStatusError" "HTTPStatusError"
                  eq_refl eq_refl eq_refl eq_refl)).
Defined.

(* ===================================================================== *)
(** * Reading, deleting and updating feedback                             *)
(* ===================================================================== *)

Section Routes.
Import Store FeedbackRoutes.

Lemma query_by_id_reads w e i :
  reads_from w e →
  D1.query (d1_execute e) D1.select_by_id [D1.VText i]
    = Ok (option_list (feedback_table w !! i)).
Proof. intros H. unfold D1.query. by rewrite H. Qed.

Lemma serve_reads w similar vector_delete :
  reads_from w (MoreSamples.over w similar vector_delete).
Proof. intros i. reflexivity. Qed.

Lemma delete_feedback_found w e i r :
  reads_from w e → feedback_table w !! i = Some r →
  delete_feedback e i w
    = match d1_execute_write e (D1.delete_statement "feedback" i) with
      | Raise x => (Raise x, w)
      | Ok _ =>
          match vectorize_delete e [i] with
          | Raise x => (Raise x, delete_row i w)
          | Ok _ => (Ok "deleted", delete_vectors [i] (delete_row i w))
          end
      end.
Proof.
  intros Hreads Hi. unfold delete_feedback, bind, lift, call, ret.
  rewrite (query_by_id_reads w e i Hreads), Hi. simpl.
  destruct (d1_execute_write e _); [|done]. by destruct (vectorize_delete e _).
Qed.

Lemma create_feedback_table {rt : Runtime} e feedback w resp w' :
  FeedbackApi.create_feedback e feedback w = (Ok resp, w') →
  row_id (FeedbackApi.api_data resp) = FeedbackApi.uuid4 e ∧
  feedback_table w' = <[FeedbackApi.uuid4 e := FeedbackApi.api_data resp]> (feedback_table w) ∧
  ∃ entry, vector_index w' = <[FeedbackApi.uuid4 e := entry]> (vector_index w).
Proof.
  intros Hc.
  destruct (create_feedback_returns e feedback w resp w' Hc)
    as (body & s & t & u & v & Hq & He).
  destruct (create_feedback_after_enrichment e feedback w body s t u v Hq He)
    as (data & meta & (Hid & _) & Hcases). cbv zeta in Hcases.
  destruct (FeedbackApi.d1_insert e data) as [b1|x1]; [|congruence].
  destruct (FeedbackApi.vectorize_insert e _ v meta) as [b2|x2]; [|congruence].
  rewrite Hcases in Hc. injection Hc as <- <-. simpl. rewrite Hid.
  split; [done|]. split; [done|]. by eexists.
Qed.

(** Without two matches of one id, leaving out an id shortens the list by
    one when it is there and not at all when it is not. *)
Lemma filter_out_length (i : string) (similar : list ChatApi.vector_match) :
  NoDup (ChatApi.match_id <$> similar) →
  length (filter (λ s, ChatApi.match_id s ≠ i) similar)
    = (length similar
       - (if bool_decide (i ∈ ChatApi.match_id <$> similar) then 1 else 0))%nat.
Proof.
  induction similar as [|s l IH]; intros Hnd; [done|].
  rewrite fmap_cons in Hnd. apply NoDup_cons in Hnd as [Hs Hl].
  specialize (IH Hl). rewrite fmap_cons.
  destruct (decide (ChatApi.match_id s = i)) as [Heq|Hne].
  - subst i. rewrite filter_cons_False by (intros H; by apply H).
    rewrite bool_decide_true by left.
    rewrite bool_decide_false in IH by done. cbn [length]. cbv beta iota in *. lia.
  - rewrite filter_cons_True by done.
    assert (Hiff : bool_decide (i ∈ ChatApi.match_id s :: (ChatApi.match_id <$> l))
                   = bool_decide (i ∈ ChatApi.match_id <$> l)).
    { apply bool_decide_ext. rewrite elem_of_cons. naive_solver. }
    rewrite Hiff. cbn [length]. rewrite IH.
    clear IH Hiff.
    destruct (bool_decide (i ∈ ChatApi.match_id <$> l)) eqn:Hin; cbv beta iota; [|lia].
    apply bool_decide_eq_true in Hin.
    apply list_elem_of_fmap_1 in Hin as (y & _ & Hy).
    apply list_elem_of_split in Hy as (l1 & l2 & ->).
    rewrite length_app. cbn [length]. lia.
Qed.

Lemma similar_ids_not_self feedback_id limit similar :
  (feedback_id ∉ similar_ids feedback_id limit similar) ∧
  (similar_ids feedback_id limit similar `sublist_of` (ChatApi.match_id <$> similar)).
Proof.
  unfold similar_ids. split.
  - intros Hin. apply elem_of_take_elem in Hin.
    apply list_elem_of_fmap_1 in Hin as (s & Heq & Hs).
    apply list_elem_of_filter in Hs as [Hne _]. by apply Hne.
  - etrans; [apply sublist_take | apply fmap_sublist, sublist_filter].
Qed.

Lemma texts_of_ids (ids : list string) : texts (D1.VText <$> ids) = Some ids.
Proof. induction ids as [|i ids IH]; [done|]. rewrite fmap_cons. cbn [texts]. by rewrite IH. Qed.

(** The scripted store answers a read by ids with rows of these ids, when
    every row of the table sits under its own id. *)
Lemma serve_answers_within w similar vector_delete :
  (∀ i r, feedback_table w !! i = Some r → row_id r = i) →
  answers_within (MoreSamples.over w similar vector_delete).
Proof.
  intros Hkeys ids rows Hq r Hr. unfold D1.query in Hq. simpl in Hq.
  unfold serve in Hq. cbn [D1.sql D1.params] in Hq.
  replace (String.eqb (D1.select_in (length ids)) D1.select_by_id) with false in Hq
    by reflexivity.
  rewrite length_fmap, String.eqb_refl, texts_of_ids in Hq. simpl in Hq.
  injection Hq as <-.
  apply list_elem_of_omap in Hr as (i & Hi & Hrow).
  by rewrite (Hkeys i r Hrow).
Qed.

End Routes.

(** X15. Over a store that answers reads by primary key from its feedback
    table, [get_feedback] returns the row the table holds under the id and
    answers 404 when it holds none; and it answers 404 as well whenever the
    body of the read does not report success, whatever the table holds. *)
Theorem get_feedback_row_or_404
    (e : FeedbackRoutes.env) (w : Store.world) (i : string) :
  (FeedbackRoutes.reads_from w e →
   FeedbackRoutes.get_feedback e i
     = match Store.feedback_table w !! i with
       | Some r => Ok r
       | None => Raise "HTTPException 404: Feedback not found"
       end) ∧
  (∀ b, FeedbackRoutes.d1_execute e (D1.Statement D1.select_by_id [D1.VText i]) = Ok b →
        D1.success b = false →
        FeedbackRoutes.get_feedback e i = Raise "HTTPException 404: Feedback not found").
Proof.
  split.
  - intros Hreads. unfold FeedbackRoutes.get_feedback.
    rewrite (query_by_id_reads w e i Hreads). by destruct (Store.feedback_table w !! i).
  - intros b Hb Hs. unfold FeedbackRoutes.get_feedback, D1.query. rewrite Hb. simpl.
    by rewrite Hs.
Qed.

Lemma get_feedback_row_or_404_witness :
  FeedbackRoutes.get_feedback (MoreSamples.over MoreSamples.one_row [] (Ok JNull)) "f1"
    = Ok (Samples.row "f1" "Cold starts are unbearable") ∧
  FeedbackRoutes.get_feedback (MoreSamples.over MoreSamples.one_row [] (Ok JNull)) "f2"
    = Raise "HTTPException 404: Feedback not found".
Proof.
  split.
  - exact (proj1 (get_feedback_row_or_404 (MoreSamples.over MoreSamples.one_row [] (Ok JNull))
                    MoreSamples.one_row "f1") (λ _, eq_refl)).
  - exact (proj1 (get_feedback_row_or_404 (MoreSamples.over MoreSamples.one_row [] (Ok JNull))
                    MoreSamples.one_row "f2") (λ _, eq_refl)).
Defined.

(** X16. A row is retrievable right after its creation: when
    [create_feedback] returns, [get_feedback] over the store it left, asked
    for the identifier of the returned row, returns that row. *)
Theorem created_feedback_is_retrievable {rt : Runtime}
    (e : FeedbackApi.env) (feedback : Schemas.FeedbackCreate) (w w' : Store.world)
    (resp : FeedbackApi.ApiResponse) (e' : FeedbackRoutes.env) :
  FeedbackApi.create_feedback e feedback w = (Ok resp, w') →
  FeedbackRoutes.reads_from w' e' →
  FeedbackRoutes.get_feedback e' (Store.row_id (FeedbackApi.api_data resp))
    = Ok (FeedbackApi.api_data resp).
Proof.
  intros Hc Hreads.
  destruct (create_feedback_table e feedback w resp w' Hc) as (Hid & Htable & _).
  unfold FeedbackRoutes.get_feedback. rewrite (query_by_id_reads w' e' _ Hreads).
  by rewrite Hid, Htable, lookup_insert_eq.
Qed.

Lemma created_feedback_is_retrievable_witness :
  ∃ resp w',
    FeedbackApi.create_feedback (rt := ascii_runtime) Samples.all_up Samples.cold_starts
      Samples.empty_world = (Ok resp, w') ∧
    FeedbackRoutes.get_feedback (MoreSamples.over w' [] (Ok JNull))
      (Store.row_id (FeedbackApi.api_data resp)) = Ok (FeedbackApi.api_data resp).
Proof.
  eexists _, _. split; [vm_compute; reflexivity|].
  refine (created_feedback_is_retrievable (rt := ascii_runtime) Samples.all_up
            Samples.cold_starts Samples.empty_world _ _ _ _ _).
  - vm_compute. reflexivity.
  - intros i. reflexivity.
Defined.

(** X17. Over a store that answers reads from its feedback table:
    [delete_feedback] of an id the table does not hold answers 404 and
    leaves the stores as they were; of an id it holds, when both deletes
    answer, it removes the row and the vector of that id and nothing
    else. *)
Theorem delete_feedback_removes_row_and_vector
    (e : FeedbackRoutes.env) (w : Store.world) (i : string) :
  FeedbackRoutes.reads_from w e →
  (Store.feedback_table w !! i = None →
   FeedbackRoutes.delete_feedback e i w
     = (Raise "HTTPException 404: Feedback not found", w)) ∧
  (∀ r b1 b2,
     Store.feedback_table w !! i = Some r →
     FeedbackRoutes.d1_execute_write e (D1.delete_statement "feedback" i) = Ok b1 →
     FeedbackRoutes.vectorize_delete e [i] = Ok b2 →
     ∃ w', FeedbackRoutes.delete_feedback e i w = (Ok "deleted", w') ∧
           Store.feedback_table w' = delete i (Store.feedback_table w) ∧
           Store.vector_index w' = delete i (Store.vector_index w) ∧
           Store.work_queue w' = Store.work_queue w).
Proof.
  intros Hreads. split.
  - intros Hi. unfold FeedbackRoutes.delete_feedback, Store.bind, Store.lift.
    by rewrite (query_by_id_reads w e i Hreads), Hi.
  - intros r b1 b2 Hi H1 H2. rewrite (delete_feedback_found w e i r Hreads Hi), H1, H2.
    by eexists.
Qed.

Lemma delete_feedback_removes_row_and_vector_witness :
  FeedbackRoutes.delete_feedback (MoreSamples.over MoreSamples.one_row [] (Ok JNull)) "f2"
    MoreSamples.one_row
  = (Raise "HTTPException 404: Feedback not found", MoreSamples.one_row).
Proof.
  refine (proj1 (delete_feedback_removes_row_and_vector
                   (MoreSamples.over MoreSamples.one_row [] (Ok JNull))
                   MoreSamples.one_row "f2" (λ _, eq_refl)) _).
  apply lookup_singleton_ne. discriminate.
Defined.

(** X18. There is no rollback on delete either: when the row delete
    answers and the vector delete raises, [delete_feedback] raises that
    exception, the row is gone from the feedback table and its vector is
    still in the index. *)
Theorem vector_delete_failure_orphans_the_vector
    (e : FeedbackRoutes.env) (w : Store.world) (i : string)
    (r : Store.feedback_row) (b : json) (x : string) :
  FeedbackRoutes.reads_from w e →
  Store.feedback_table w !! i = Some r →
  FeedbackRoutes.d1_execute_write e (D1.delete_statement "feedback" i) = Ok b →
  FeedbackRoutes.vectorize_delete e [i] = Raise x →
  (FeedbackRoutes.delete_feedback e i w).1 = Raise x ∧
  Store.feedback_table (FeedbackRoutes.delete_feedback e i w).2 !! i = None ∧
  Store.vector_index (FeedbackRoutes.delete_feedback e i w).2 = Store.vector_index w.
Proof.
  intros Hreads Hi H1 H2. rewrite (delete_feedback_found w e i r Hreads Hi), H1, H2.
  simpl. by rewrite lookup_delete_eq.
Qed.

Lemma vector_delete_failure_orphans_the_vector_witness :
  (FeedbackRoutes.delete_feedback
     (MoreSamples.over MoreSamples.one_row [] (Raise "HTTPStatusError")) "f1"
     MoreSamples.one_row).1 = Raise "HTTPStatusError" ∧
  Store.vector_index
    (FeedbackRoutes.delete_feedback
       (MoreSamples.over MoreSamples.one_row [] (Raise "HTTPStatusError")) "f1"
       MoreSamples.one_row).2 = Store.vector_index MoreSamples.one_row.
Proof.
  pose proof (vector_delete_failure_orphans_the_vector
                (MoreSamples.over MoreSamples.one_row [] (Raise "HTTPStatusError"))
                MoreSamples.one_row "f1" (Samples.row "f1" "Cold starts are unbearable")
                (JObj [("success", JBool true)]) "HTTPStatusError"
                (λ _, eq_refl) (lookup_singleton_eq _ _) eq_refl eq_refl)
    as (Hfail & _ & Hindex).
  split; [exact Hfail | exact Hindex].
Defined.

(** X19. Creating a feedback item under a fresh identifier and then
    deleting it, with every service answering, leaves the feedback table
    and the vector index as they were before the creation. *)
Theorem create_then_delete_restores_the_stores {rt : Runtime}
    (e : FeedbackApi.env) (feedback : Schemas.FeedbackCreate) (w w' : Store.world)
    (resp : FeedbackApi.ApiResponse) (e' : FeedbackRoutes.env) (b1 b2 : json) :
  Store.feedback_table w !! FeedbackApi.uuid4 e = None →
  Store.vector_index w !! FeedbackApi.uuid4 e = None →
  FeedbackApi.create_feedback e feedback w = (Ok resp, w') →
  FeedbackRoutes.reads_from w' e' →
  FeedbackRoutes.d1_execute_write e'
    (D1.delete_statement "feedback" (FeedbackApi.uuid4 e)) = Ok b1 →
  FeedbackRoutes.vectorize_delete e' [FeedbackApi.uuid4 e] = Ok b2 →
  (FeedbackRoutes.delete_feedback e' (FeedbackApi.uuid4 e) w').1 = Ok "deleted" ∧
  Store.feedback_table (FeedbackRoutes.delete_feedback e' (FeedbackApi.uuid4 e) w').2
    = Store.feedback_table w ∧
  Store.vector_index (FeedbackRoutes.delete_feedback e' (FeedbackApi.uuid4 e) w').2
    = Store.vector_index w.
Proof.
  intros Hfresh Hvfresh Hc Hreads H1 H2.
  destruct (create_feedback_table e feedback w resp w' Hc) as (Hid & Htable & entry & Hindex).
  rewrite (delete_feedback_found w' e' _ (FeedbackApi.api_data resp) Hreads)
    by (by rewrite Htable, lookup_insert_eq).
  rewrite H1, H2. simpl. rewrite Htable, Hindex.
  split; [done|]. split; by rewrite delete_insert_id.
Qed.

Lemma create_then_delete_restores_the_stores_witness :
  ∃ resp w',
    FeedbackApi.create_feedback (rt := ascii_runtime) Samples.all_up Samples.cold_starts
      Samples.empty_world = (Ok resp, w') ∧
    Store.feedback_table
      (FeedbackRoutes.delete_feedback (MoreSamples.over w' [] (Ok JNull))
         (FeedbackApi.uuid4 Samples.all_up) w').2 = ∅.
Proof.
  eexists _, _. split; [vm_compute; reflexivity|].
  refine (proj1 (proj2 (create_then_delete_restores_the_stores (rt := ascii_runtime)
            Samples.all_up Samples.cold_starts Samples.empty_world _ _
            (MoreSamples.over _ [] (Ok JNull)) (JObj [("success", JBool true)]) JNull
            (lookup_empty _) (lookup_empty _) _ _ eq_refl eq_refl))).
  - vm_compute. reflexivity.
  - intros i. reflexivity.
Defined.

(** X20. The ids [get_similar_feedback] reads for an item never include
    the item itself, are at most [limit], and keep the order of the
    index's matches; when the matches have pairwise distinct ids they are
    [min limit (n - 1)] of [n] matches that include the item and
    [min limit n] of [n] that do not, so that asking the index for
    [limit + 1] matches yields [limit] neighbours whenever it returns that
    many. *)
Theorem similar_ids_leave_out_the_item
    (feedback_id : string) (limit : nat) (similar : list ChatApi.vector_match) :
  (feedback_id ∉ FeedbackRoutes.similar_ids feedback_id limit similar) ∧
  (length (FeedbackRoutes.similar_ids feedback_id limit similar) ≤ limit)%nat ∧
  FeedbackRoutes.similar_ids feedback_id limit similar
    `sublist_of` (ChatApi.match_id <$> similar) ∧
  (NoDup (ChatApi.match_id <$> similar) →
   length (FeedbackRoutes.similar_ids feedback_id limit similar)
     = (limit `min`
          (length similar
           - (if bool_decide (feedback_id ∈ ChatApi.match_id <$> similar) then 1 else 0)))%nat) ∧
  (NoDup (ChatApi.match_id <$> similar) → length similar = S limit →
   length (FeedbackRoutes.similar_ids feedback_id limit similar) = limit).
Proof.
  unfold FeedbackRoutes.similar_ids.
  assert (Hlen : NoDup (ChatApi.match_id <$> similar) →
            length (take limit (ChatApi.match_id
                      <$> filter (λ s, ChatApi.match_id s ≠ feedback_id) similar))
            = (limit `min`
                 (length similar
                  - (if bool_decide (feedback_id ∈ ChatApi.match_id <$> similar)
                     then 1 else 0)))%nat).
  { intros Hnd. by rewrite length_take, length_fmap, filter_out_length. }
  split.
  { intros Hin. apply elem_of_take_elem in Hin.
    apply list_elem_of_fmap_1 in Hin as (s & Heq & Hs).
    apply list_elem_of_filter in Hs as [Hne _]. by apply Hne. }
  split; [rewrite length_take; lia|].
  split; [etrans; [apply sublist_take | apply fmap_sublist, sublist_filter]|].
  split; [exact Hlen|].
  intros Hnd Hn. rewrite (Hlen Hnd), Hn. destruct (bool_decide _); simpl; lia.
Qed.

Lemma similar_ids_leave_out_the_item_witness :
  length (FeedbackRoutes.similar_ids "f1" 2
            [MoreSamples.hit "f2"; MoreSamples.hit "f1"; MoreSamples.hit "f3"]) = 2%nat.
Proof.
  refine (proj2 (proj2 (proj2 (proj2 (similar_ids_leave_out_the_item "f1" 2
            [MoreSamples.hit "f2"; MoreSamples.hit "f1"; MoreSamples.hit "f3"])))) _ eq_refl).
  simpl. repeat constructor; rewrite ?elem_of_cons, ?elem_of_nil; intuition discriminate.
Defined.

(** X21. Over a store whose answer to a read by ids holds rows of these
    ids only, the rows [get_similar_feedback] returns never include the
    item asked about. *)
Theorem similar_feedback_never_returns_the_item
    (e : FeedbackRoutes.env) (feedback_id : string) (limit : nat)
    (rows : list Store.feedback_row) :
  FeedbackRoutes.answers_within e →
  FeedbackRoutes.get_similar_feedback e feedback_id limit = Ok rows →
  ∀ r, r ∈ rows → Store.row_id r ≠ feedback_id.
Proof.
  intros Hwithin Hget r Hr Heq. unfold FeedbackRoutes.get_similar_feedback in Hget.
  destruct (D1.query _ D1.select_by_id _) as [[|original results]|]; simpl in Hget;
    try discriminate.
  destruct (WorkersAI.generate_embedding _ _) as [v|]; simpl in Hget; [|discriminate].
  destruct (FeedbackRoutes.vectorize_query e v _) as [similar|]; simpl in Hget;
    [|discriminate].
  pose proof (proj1 (similar_ids_not_self feedback_id limit similar)) as Hself.
  destruct (FeedbackRoutes.similar_ids feedback_id limit similar) as [|i ids] eqn:Hids.
  - injection Hget as <-. by apply elem_of_nil in Hr.
  - apply Hself. rewrite <- Heq. by eapply Hwithin.
Qed.

Lemma similar_feedback_never_returns_the_item_witness :
  FeedbackRoutes.get_similar_feedback
    (MoreSamples.over MoreSamples.two_rows [MoreSamples.hit "f1"; MoreSamples.hit "f2"]
       (Ok JNull)) "f1" 5
    = Ok [Samples.row "f2" "Cold starts take seconds"] ∧
  Store.row_id (Samples.row "f2" "Cold starts take seconds") ≠ "f1".
Proof.
  assert (Hget : FeedbackRoutes.get_similar_feedback
                   (MoreSamples.over MoreSamples.two_rows
                      [MoreSamples.hit "f1"; MoreSamples.hit "f2"] (Ok JNull)) "f1" 5
                 = Ok [Samples.row "f2" "Cold starts take seconds"])
    by (vm_compute; reflexivity).
  split; [exact Hget|].
  refine (similar_feedback_never_returns_the_item _ "f1" 5 _ _ Hget _ _).
  - apply serve_answers_within. intros i r. unfold MoreSamples.two_rows. simpl.
    rewrite lookup_insert. case_decide as H1; [by intros [= <-]; subst|].
    rewrite lookup_singleton. case_decide as H2; [by intros [= <-]; subst | done].
  - by left.
Defined.



(** X23. [summarize_feedback] answers 400 for an empty list of ids, and 404
    when the store finds none of the ids, whatever the model would say;
    when it returns, it reports the rows that were found, not the ids that
    were asked: the count is their number, at least one, and the ids are
    theirs, in the order the store returned them. *)
Theorem summarize_reports_what_was_found (e : ChatApi.env) (ids : list string) :
  ChatSummary.summarize_feedback e []
    = Raise "HTTPException 400: No feedback IDs provided" ∧
  (ids ≠ [] → ChatApi.d1_query_feedback e ids = Ok [] →
   ChatSummary.summarize_feedback e ids = Raise "HTTPException 404: No feedback found") ∧
  (∀ out, ChatSummary.summarize_feedback e ids = Ok out →
     ∃ rows, ChatApi.d1_query_feedback e ids = Ok rows ∧
             ChatSummary.feedback_ids out = Store.row_id <$> rows ∧
             ChatSummary.feedback_count out = length rows ∧
             (0 < ChatSummary.feedback_count out)%nat ∧
             WorkersAI.generate_text (ChatApi.call_model e)
               (ChatSummary.summary_prompt rows)
               (Some ChatSummary.summary_system_prompt) 500
             = Ok (ChatSummary.summary out)).
Proof.
  split; [reflexivity|]. split.
  - intros Hids Hq. destruct ids; [done|]. unfold ChatSummary.summarize_feedback.
    by rewrite Hq.
  - intros out Hout. unfold ChatSummary.summarize_feedback in Hout.
    destruct ids as [|i ids]; [discriminate|].
    destruct (ChatApi.d1_query_feedback e (i :: ids)) as [[|r rows]|]; simpl in Hout;
      try discriminate.
    destruct (WorkersAI.generate_text _ _ _ _) as [summary|] eqn:Hgen; simpl in Hout;
      [|discriminate].
    injection Hout as <-. exists (r :: rows). simpl. repeat split; [lia | done].
Qed.

Lemma summarize_reports_what_was_found_witness :
  ChatSummary.summarize_feedback (Samples.two_sources_down (Ok "Two complaints."))
    ["f1"; "f9"]
  = Ok {| ChatSummary.summary := "Two complaints."; ChatSummary.feedback_count := 1;
          ChatSummary.feedback_ids := ["f1"] |} ∧
  ChatApi.d1_query_feedback (Samples.two_sources_down (Ok "Two complaints.")) ["f1"; "f9"]
    = Ok [Samples.row "f1" "Cold starts are unbearable"].
Proof.
  assert (Hrun : ChatSummary.summarize_feedback
                   (Samples.two_sources_down (Ok "Two complaints.")) ["f1"; "f9"]
                 = Ok {| ChatSummary.summary := "Two complaints.";
                         ChatSummary.feedback_count := 1;
                         ChatSummary.feedback_ids := ["f1"] |})
    by (vm_compute; reflexivity).
  split; [exact Hrun|].
  destruct (proj2 (proj2 (summarize_reports_what_was_found
                            (Samples.two_sources_down (Ok "Two complaints.")) ["f1"; "f9"]))
              _ Hrun) as (rows & Hq & _).
  reflexivity.
Defined.

(* ===================================================================== *)
(** * Semantic search                                                     *)
(* ===================================================================== *)

Section Search.
Import SearchApi.

Lemma feedback_map_from (items : list Store.feedback_row)
    (m : gmap string Store.feedback_row) (k : string) (f : Store.feedback_row) :
  fold_left (fun m f => <[Store.row_id f := f]> m) items m !! k = Some f →
  (f ∈ items ∧ Store.row_id f = k) ∨ m !! k = Some f.
Proof.
  revert m. induction items as [|g items IH]; intros m H; simpl in H; [by right|].
  destruct (IH _ H) as [[Hin Hk]|Hm].
  - left. split; [by right | done].
  - destruct (decide (Store.row_id g = k)) as [Hg|Hg].
    + subst k. rewrite lookup_insert_eq in Hm. injection Hm as <-. left. split; [by left|done].
    + rewrite lookup_insert_ne in Hm by done. by right.
Qed.

Lemma feedback_map_lookup (items : list Store.feedback_row) (k : string)
    (f : Store.feedback_row) :
  feedback_map items !! k = Some f → f ∈ items ∧ Store.row_id f = k.
Proof.
  intros H. destruct (feedback_map_from _ _ _ _ H) as [?|Hm]; [done|].
  by rewrite lookup_empty in Hm.
Qed.

Lemma feedback_map_keys_from (items : list Store.feedback_row)
    (m : gmap string Store.feedback_row) (k : string) :
  is_Some (fold_left (fun m f => <[Store.row_id f := f]> m) items m !! k)
  ↔ k ∈ Store.row_id <$> items ∨ is_Some (m !! k).
Proof.
  revert m. induction items as [|g items IH]; intros m; simpl.
  - rewrite elem_of_nil. tauto.
  - rewrite IH, elem_of_cons.
    destruct (decide (Store.row_id g = k)) as [Hg|Hg].
    + subst k. rewrite lookup_insert_eq. split; [intros _; by left; left|].
      intros _. right. by eexists.
    + rewrite lookup_insert_ne by done. split; intros H; [tauto|].
      destruct H as [[H|H]|H]; [by subst|tauto|tauto].
Qed.

Lemma feedback_map_keys (items : list Store.feedback_row) (k : string) :
  is_Some (feedback_map items !! k) ↔ k ∈ Store.row_id <$> items.
Proof.
  unfold feedback_map. rewrite feedback_map_keys_from, lookup_empty.
  split; [intros [H|H]; [done | by destruct H] | by left].
Qed.

Lemma scored_ids (m : gmap string Store.feedback_row)
    (vector_results : list ChatApi.vector_match) (P : string → Prop)
    `{!∀ i, Decision (P i)} :
  (∀ i, is_Some (m !! i) ↔ P i) →
  result_id <$> omap (fun vr => scored vr <$> m !! ChatApi.match_id vr) vector_results
  = filter P (ChatApi.match_id <$> vector_results).
Proof.
  intros HP. induction vector_results as [|vr vrs IH]; [done|].
  rewrite fmap_cons, filter_cons. cbn [omap list_omap].
  destruct (m !! ChatApi.match_id vr) as [f|] eqn:Hm; cbn [fmap option_fmap option_map].
  - rewrite decide_True by (apply HP; by eexists). rewrite fmap_cons. f_equal. exact IH.
  - rewrite decide_False; [exact IH|]. intros Hno. apply HP in Hno. rewrite Hm in Hno.
    by destruct Hno.
Qed.

(** X24. What [semantic_search] returns follows the index and the store:
    the ids of the results are the ids the index matched, in its order,
    less those the store returned no row for; each result joins one match
    with a row of the same id, so there are never more results than
    matches. *)
Theorem semantic_search_joins_matches_with_rows
    (e : env) (request : SemanticSearchRequest) (results : list search_result) :
  semantic_search e request = Ok results →
  ∃ query_embedding vector_results feedback_items,
    WorkersAI.generate_embedding (call_model e) (query request) = Ok query_embedding ∧
    Vectorize.query (vectorize_post e) query_embedding (limit request)
      (vector_filter request) = Ok vector_results ∧
    (vector_results ≠ [] →
     D1.query (d1_execute e) (D1.select_in (length (ChatApi.match_id <$> vector_results)))
       (D1.VText <$> (ChatApi.match_id <$> vector_results)) = Ok feedback_items) ∧
    result_id <$> results
      = filter (fun i => i ∈ Store.row_id <$> feedback_items)
          (ChatApi.match_id <$> vector_results) ∧
    (length results ≤ length vector_results)%nat ∧
    (∀ r, r ∈ results →
       ∃ vr f, vr ∈ vector_results ∧ f ∈ feedback_items
               ∧ Store.row_id f = ChatApi.match_id vr ∧ r = scored vr f).
Proof.
  unfold semantic_search. intros H.
  destruct (WorkersAI.generate_embedding _ _) as [v|] eqn:Hv; simpl in H; [|discriminate].
  destruct (Vectorize.query _ _ _ _) as [[|vr vrs]|] eqn:Hq; simpl in H; [| |discriminate].
  - injection H as <-. exists v, [], []. repeat split; try done.
    intros r Hr. by apply elem_of_nil in Hr.
  - destruct (D1.query _ _ _) as [items|] eqn:Hitems; simpl in H; [|discriminate].
    assert (Hres : results
                   = omap (fun vr => scored vr <$> feedback_map items !! ChatApi.match_id vr)
                       (vr :: vrs)) by (by injection H as <-).
    clear H. subst results. exists v, (vr :: vrs), items.
    assert (Hids := scored_ids (feedback_map items) (vr :: vrs)
                      (fun i => i ∈ Store.row_id <$> items) (feedback_map_keys items)).
    split; [done|]. split; [done|]. split; [done|]. split; [exact Hids|]. split.
    + assert (Hlen := f_equal length Hids). rewrite length_fmap in Hlen.
      rewrite Hlen. etransitivity; [apply length_filter|]. by rewrite length_fmap.
    + intros r Hr. apply list_elem_of_omap in Hr as (vr' & Hvr & Hr).
      destruct (feedback_map items !! ChatApi.match_id vr') as [f|] eqn:Hf;
        simpl in Hr; [|discriminate].
      injection Hr as <-. apply feedback_map_lookup in Hf as [Hin Hid].
      by exists vr', f.
Qed.

Lemma semantic_search_joins_matches_with_rows_witness :
  ∃ query_embedding vector_results feedback_items,
    WorkersAI.generate_embedding
      (call_model (MoreSamples.searching
                     [MoreSamples.hit "f1"; MoreSamples.hit "f7"; MoreSamples.hit "f2"]
                     [Samples.row "f2" "Cold starts take seconds";
                      Samples.row "f1" "Cold starts are unbearable"]))
      "cold start" = Ok query_embedding ∧
    Vectorize.query
      (vectorize_post (MoreSamples.searching
                         [MoreSamples.hit "f1"; MoreSamples.hit "f7"; MoreSamples.hit "f2"]
                         [Samples.row "f2" "Cold starts take seconds";
                          Samples.row "f1" "Cold starts are unbearable"]))
      query_embedding 10 None = Ok vector_results ∧
    (vector_results ≠ [] →
     D1.query
       (d1_execute (MoreSamples.searching
                      [MoreSamples.hit "f1"; MoreSamples.hit "f7"; MoreSamples.hit "f2"]
                      [Samples.row "f2" "Cold starts take seconds";
                       Samples.row "f1" "Cold starts are unbearable"]))
       (D1.select_in (length (ChatApi.match_id <$> vector_results)))
       (D1.VText <$> (ChatApi.match_id <$> vector_results)) = Ok feedback_items) ∧
    result_id <$> [MoreSamples.found "f1" "Cold starts are unbearable";
                   MoreSamples.found "f2" "Cold starts take seconds"]
      = filter (fun i => i ∈ Store.row_id <$> feedback_items)
          (ChatApi.match_id <$> vector_results) ∧
    (length [MoreSamples.found "f1" "Cold starts are unbearable";
             MoreSamples.found "f2" "Cold starts take seconds"]
     ≤ length vector_results)%nat ∧
    (∀ r, r ∈ [MoreSamples.found "f1" "Cold starts are unbearable";
               MoreSamples.found "f2" "Cold starts take seconds"] →
       ∃ vr f, vr ∈ vector_results ∧ f ∈ feedback_items
               ∧ Store.row_id f = ChatApi.match_id vr ∧ r = scored vr f).
Proof.
  apply (semantic_search_joins_matches_with_rows
           (MoreSamples.searching
              [MoreSamples.hit "f1"; MoreSamples.hit "f7"; MoreSamples.hit "f2"]
              [Samples.row "f2" "Cold starts take seconds";
               Samples.row "f1" "Cold starts are unbearable"])
           (MoreSamples.asking "cold start" None)).
  vm_compute. reflexivity.
Defined.

Lemma build_filter_unrecognised (f : gmap string json) :
  (∀ k, k ∈ ["product"; "source"; "customer_tier"; "min_sentiment"; "max_sentiment"] →
        f !! k = None) →
  build_filter f = ∅.
Proof.
  intros H. unfold build_filter, eq_clause.
  rewrite (H "product"), (H "source"), (H "customer_tier"), (H "min_sentiment"),
    (H "max_sentiment"); [done|set_solver..].
Qed.

(** X25. The filter [semantic_search] hands to the index: a recognised
    equality key becomes an [$eq] clause on the field of that name, the two
    sentiment bounds share one clause on [sentiment], and no other field is
    ever filtered. A filter dict with none of the five recognised keys is
    built into an empty filter, which [VectorizeService.query] does not
    send: the search is then the unfiltered one. *)
Theorem search_filter_is_built_from_known_keys
    (e : env) (text : string) (top : nat) (f : gmap string json) :
  (∀ key v, key ∈ ["product"; "source"; "customer_tier"] → f !! key = Some v →
     build_filter f !! key = Some {[ "$eq" := v ]}) ∧
  (∀ a b, f !! "min_sentiment" = Some a → f !! "max_sentiment" = Some b →
     build_filter f !! "sentiment" = Some (<["$lte" := b]> {[ "$gte" := a ]})) ∧
  (∀ field, is_Some (build_filter f !! field) →
     field ∈ ["product"; "source"; "customer_tier"; "sentiment"]) ∧
  ((∀ k, k ∈ ["product"; "source"; "customer_tier"; "min_sentiment"; "max_sentiment"] →
         f !! k = None) →
   semantic_search e {| query := text; limit := top; filters := Some f |}
   = semantic_search e {| query := text; limit := top; filters := None |}).
Proof.
  split; [|split; [|split]].
  - intros key v Hkey Hv. unfold build_filter, eq_clause.
    rewrite !elem_of_cons, elem_of_nil in Hkey.
    destruct Hkey as [->|[->|[->|[]]]]; rewrite Hv;
      repeat case_match; simplify_map_eq; done.
  - intros a b Ha Hb. unfold build_filter, eq_clause. rewrite Ha, Hb.
    repeat case_match; simplify_map_eq; done.
  - intros field [x Hx]. rewrite !elem_of_cons.
    destruct (decide (field = "product")) as [|H1]; [tauto|].
    destruct (decide (field = "source")) as [|H2]; [tauto|].
    destruct (decide (field = "customer_tier")) as [|H3]; [tauto|].
    destruct (decide (field = "sentiment")) as [|H4]; [tauto|].
    exfalso. unfold build_filter, eq_clause in Hx.
    repeat case_match; simplify_map_eq; done.
  - intros H. unfold semantic_search, vector_filter. simpl.
    case_decide; [done|]. rewrite (build_filter_unrecognised f H).
    reflexivity.
Qed.

Lemma search_filter_is_built_from_known_keys_witness :
  semantic_search
    (MoreSamples.searching [MoreSamples.hit "f1"] [Samples.row "f1" "Cold starts"])
    (MoreSamples.asking "cold start" (Some {[ "team" := JStr "workers" ]}))
  = semantic_search
      (MoreSamples.searching [MoreSamples.hit "f1"] [Samples.row "f1" "Cold starts"])
      (MoreSamples.asking "cold start" None).
Proof.
  refine (proj2 (proj2 (proj2 (search_filter_is_built_from_known_keys
            (MoreSamples.searching [MoreSamples.hit "f1"] [Samples.row "f1" "Cold starts"])
            "cold start" 10 {[ "team" := JStr "workers" ]}))) _).
  intros k Hk. rewrite !elem_of_cons, elem_of_nil in Hk.
  destruct Hk as [->|[->|[->|[->|[->|[]]]]]]; reflexivity.
Defined.

End Search.

(** X26. The page [list_feedback] returns: it echoes the page and the page
    size of the request, carries the rows of the page statement, and says
    there is more exactly when the total counted lies beyond the last row
    of this page, [offset + page_size < total]. When the count read comes
    back without a row, the total is 0 and nothing more is announced,
    whatever rows the page read returned. *)
Theorem list_feedback_page_arithmetic
    (e : FeedbackRoutes.env) (q : FeedbackRoutes.list_query)
    (out : FeedbackRoutes.PaginatedResponse) :
  FeedbackRoutes.list_feedback e q = Ok out →
  FeedbackRoutes.response_page out = FeedbackRoutes.page q ∧
  FeedbackRoutes.response_page_size out = FeedbackRoutes.page_size q ∧
  D1.query (FeedbackRoutes.d1_execute e) (D1.sql (FeedbackRoutes.page_statement q))
    (D1.params (FeedbackRoutes.page_statement q)) = Ok (FeedbackRoutes.data out) ∧
  (FeedbackRoutes.has_more out = true
   ↔ ((FeedbackRoutes.page q - 1) * FeedbackRoutes.page_size q + FeedbackRoutes.page_size q
      < FeedbackRoutes.response_total out)%Z) ∧
  (D1.query (FeedbackRoutes.d1_execute_count e) (D1.sql (FeedbackRoutes.count_statement q))
     (D1.params (FeedbackRoutes.count_statement q)) = Ok [] →
   FeedbackRoutes.response_total out = 0%Z ∧
   ((1 ≤ FeedbackRoutes.page q)%Z → (1 ≤ FeedbackRoutes.page_size q)%Z →
    FeedbackRoutes.has_more out = false)).
Proof.
  unfold FeedbackRoutes.list_feedback. intros H.
  destruct (D1.query (FeedbackRoutes.d1_execute_count e) _ _) as [counted|] eqn:Hc;
    simpl in H; [|discriminate].
  destruct (D1.query (FeedbackRoutes.d1_execute e) _ _) as [rows|] eqn:Hr;
    simpl in H; [|discriminate].
  injection H as <-. cbn. split; [done|]. split; [done|]. split; [done|]. split.
  - rewrite Z.ltb_lt. split; lia.
  - intros [= ->]. split; [done|]. intros Hp Hs. apply Z.ltb_ge. nia.
Qed.

Lemma list_feedback_page_arithmetic_witness :
  FeedbackRoutes.has_more
    {| FeedbackRoutes.data := [];
       FeedbackRoutes.response_total := 41; FeedbackRoutes.response_page := 2;
       FeedbackRoutes.response_page_size := 20; FeedbackRoutes.has_more := true |} = true
  ↔ ((2 - 1) * 20 + 20 < 41)%Z.
Proof.
  refine (proj1 (proj2 (proj2 (proj2
            (list_feedback_page_arithmetic
               (MoreSamples.over MoreSamples.one_row [] (Ok JNull))
               (MoreSamples.by_source [Schemas.GITHUB] None)
               {| FeedbackRoutes.data := [];
                  FeedbackRoutes.response_total := 41; FeedbackRoutes.response_page := 2;
                  FeedbackRoutes.response_page_size := 20;
                  FeedbackRoutes.has_more := true |} _))))).
  vm_compute. reflexivity.
Defined.
